(** * SpatialData integrity checker and dataset validation script

    A shallow embedding of
      - [spatialdata_integrity/checker.py]  (chunk-level integrity scanner)
      - [scripts/validate_datasets.py]      (per-version validation tasks)
    and the properties of them that the specification states.

    Python values are modelled as the code inspects them: integers are [Z],
    tuples and lists are [list], [str] is [string] (ASCII), an attribute that
    may be missing or whose getter may fail is an [attr], and every
    operation that talks to a store, a lazy graph or a subprocess is a
    computation in a state-and-exception monad over an abstract world. *)

From Stdlib Require Import String Ascii DecimalString.
From Stdlib Require Import ZArith List Bool Lia Permutation FinFun.
Import ListNotations.

Local Open Scope string_scope.
Local Open Scope list_scope.
Local Open Scope Z_scope.

(** ** Exceptions and outcomes *)

(** An instance of [Exception]: [type(e).__name__] and [str(e)].  Signals
    that are not [Exception]s (KeyboardInterrupt, SystemExit) are not
    modelled: no handler of the source catches them. *)
Record exn : Type := mk_exn { exn_type : string; exn_msg : string }.

Inductive outcome (A : Type) : Type :=
| Ok (a : A)
| Raise (e : exn).
Arguments Ok {A} a.
Arguments Raise {A} e.

(** A computation over a state [S]: the state reached when an exception is
    raised is kept, as Python keeps the locals and the world. *)
Definition M (S A : Type) : Type := S -> outcome A * S.

Definition ret {S A} (a : A) : M S A := fun s => (Ok a, s).

Definition raise {S A} (e : exn) : M S A := fun s => (Raise e, s).

Definition bind {S A B} (c : M S A) (k : A -> M S B) : M S B :=
  fun s => match c s with
           | (Ok a, s') => k a s'
           | (Raise e, s') => (Raise e, s')
           end.

(** [try: c  except Exception as e: h e] *)
Definition try_catch {S A} (c : M S A) (h : exn -> M S A) : M S A :=
  fun s => match c s with
           | (Ok a, s') => (Ok a, s')
           | (Raise e, s') => h e s'
           end.

Definition lift_outcome {S A} (o : outcome A) : M S A := fun s => (o, s).

Definition modify {S} (f : S -> S) : M S unit := fun s => (Ok tt, f s).

Declare Scope py_scope.
Delimit Scope py_scope with py.
Notation "x <- c ;; k" := (bind c (fun x => k))
  (at level 61, c at next level, right associativity) : py_scope.
Notation "c ;;; k" := (bind c (fun _ => k))
  (at level 61, right associativity) : py_scope.

(** [for x in xs: body x] *)
Fixpoint for_each {S A} (xs : list A) (body : A -> M S unit) : M S unit :=
  match xs with
  | [] => ret tt
  | x :: rest => bind (body x) (fun _ => for_each rest body)
  end.

(** ** Attributes *)

(** What [getattr(obj, name)] does: the attribute is missing, its getter
    raises something other than AttributeError, or it yields a value. *)
Inductive attr (A : Type) : Type :=
| Absent
| Failing (e : exn)
| Present (a : A).
Arguments Absent {A}.
Arguments Failing {A} e.
Arguments Present {A} a.

Definition AttributeError (name : string) : exn :=
  mk_exn "AttributeError" ("object has no attribute '" ++ name ++ "'")%string.

(** [hasattr(obj, name)]: only AttributeError is turned into [False]. *)
Definition hasattr {S A} (a : attr A) : M S bool :=
  match a with
  | Absent => ret false
  | Failing e => raise e
  | Present _ => ret true
  end.

(** [obj.name] *)
Definition getattr {S A} (name : string) (a : attr A) : M S A :=
  match a with
  | Absent => raise (AttributeError name)
  | Failing e => raise e
  | Present v => ret v
  end.

(** ** Strings *)

Definition lower_ascii (c : ascii) : ascii :=
  let n := nat_of_ascii c in
  if andb (Nat.leb 65 n) (Nat.leb n 90) then ascii_of_nat (n + 32) else c.

(** [s.lower()] on ASCII text *)
Fixpoint lower (s : string) : string :=
  match s with
  | EmptyString => EmptyString
  | String c rest => String (lower_ascii c) (lower rest)
  end.

(** [pat in s] *)
Fixpoint contains (pat s : string) : bool :=
  if String.prefix pat s then true
  else match s with
       | EmptyString => false
       | String _ rest => contains pat rest
       end.

Definition str_of_nat (n : nat) : string :=
  NilEmpty.string_of_uint (Nat.to_uint n).

(** ** Result records (checker.py, lines 22-63) *)

(** [chunk_index]: a tuple of chunk coordinates, or the one-element tuple
    [(scale_name,)] used for a pyramid level. *)
Inductive chunk_index_t : Type :=
| Coords (c : list Z)
| LevelName (scale_name : string).

Record ChunkError : Type := mk_ChunkError {
  chunk_index : chunk_index_t;
  error_type : string;
  error_message : string;
  array_path : option string
}.

Record ElementResult : Type := mk_ElementResult {
  element_type : string;
  element_name : string;
  is_valid : bool;
  chunks_checked : nat;
  errors : list ChunkError;
  warning : option string
}.

Record IntegrityResult : Type := mk_IntegrityResult {
  ir_path : option string;
  ir_is_valid : bool;
  ir_elements : list ElementResult;
  ir_errors : list string
}.

(** ** Chunk address space (checker.py, lines 134-143 and 168-173) *)

(** [list(range(n))] *)
Definition py_range (n : Z) : list Z := map Z.of_nat (seq 0 (Z.to_nat n)).

Definition ZeroDivisionError : exn :=
  mk_exn "ZeroDivisionError" "integer division or modulo by zero".

(** [(dim_size + chunk_size - 1) // chunk_size]: Python's floor division is
    [Z.div], except that a zero divisor raises. *)
Definition num_chunks (dim_size chunk_size : Z) : outcome Z :=
  if chunk_size =? 0 then Raise ZeroDivisionError
  else Ok ((dim_size + chunk_size - 1) / chunk_size).

(** The loop over [zip(shape, chunks)] building [chunk_indices]. *)
Fixpoint chunk_indices (dims : list (Z * Z)) : outcome (list (list Z)) :=
  match dims with
  | [] => Ok []
  | (dim_size, chunk_size) :: rest =>
      match num_chunks dim_size chunk_size with
      | Raise e => Raise e
      | Ok n =>
          match chunk_indices rest with
          | Raise e => Raise e
          | Ok ranges => Ok (py_range n :: ranges)
          end
      end
  end.

(** [list(itertools.product( *ranges ))]: the rightmost range varies fastest,
    and the product of no ranges is the single empty tuple. *)
Fixpoint product {A} (ranges : list (list A)) : list (list A) :=
  match ranges with
  | [] => [[]]
  | r :: rest => flat_map (fun x => map (cons x) (product rest)) r
  end.

Definition all_chunk_coords (shape chunks : list Z) : outcome (list (list Z)) :=
  match chunk_indices (combine shape chunks) with
  | Raise e => Raise e
  | Ok ranges => Ok (product ranges)
  end.

(** One dimension of a subscript: [slice(start, stop)] or an integer. *)
Inductive index : Type :=
| Slice (start stop : Z)
| Index (i : Z).

(** The slices of one chunk: [zip(chunk_coords, shape, chunks)]. *)
Fixpoint chunk_slices (chunk_coords shape chunks : list Z) : list index :=
  match chunk_coords, shape, chunks with
  | coord :: cs, dim_size :: ss, chunk_size :: ks =>
      let start := coord * chunk_size in
      let stop := Z.min (start + chunk_size) dim_size in
      Slice start stop :: chunk_slices cs ss ks
  | _, _, _ => []
  end.

(** [l[:m]] *)
Definition slice_to {A} (m : Z) (l : list A) : list A :=
  if m <? 0 then firstn (length l - Z.to_nat (- m)) l
  else firstn (Z.to_nat m) l.

(** [l[1:-1]] *)
Definition interior {A} (l : list A) : list A := removelast (tl l).

(** ** Error classification (checker.py, lines 183, 330 and 365) *)

Definition BloscDecompressionError : string := "BloscDecompressionError".

(** Lines 183 and 330: both substrings are looked for. *)
Definition classify (e : exn) : string :=
  if orb (contains "blosc" (lower (exn_msg e)))
         (contains "decompression" (lower (exn_msg e)))
  then BloscDecompressionError else exn_type e.

(** Line 365: only "blosc" is looked for. *)
Definition classify_blosc_only (e : exn) : string :=
  if contains "blosc" (lower (exn_msg e))
  then BloscDecompressionError else exn_type e.

Section Scanner.

(** The outside world: stores, lazy task graphs, the random generator,
    subprocesses. *)
Context {W : Type}.

(** ** Objects handed to the checker *)

(** The value of a subscript or of [head]: it may be lazy. *)
Record Sample : Type := mk_Sample {
  s_compute : option (M W unit)       (* hasattr(sample, "compute") *)
}.

(** An array-like object: a zarr array, a dask or xarray wrapper. *)
Record ArrayObj : Type := mk_ArrayObj {
  a_shape : attr (list Z);             (* .shape *)
  a_chunks : attr (option (list Z));   (* .chunks, None when unchunked *)
  a_has_getitem : bool;                (* hasattr(_, "__getitem__") *)
  a_getitem : list index -> M W Sample (* _[subscript] *)
}.

(** ** Scanner state: the world and the locals that survive an exception *)

Record Scan : Type := mk_Scan {
  st_world : W;
  st_errors : list ChunkError;
  st_chunks_checked : nat;
  st_warning : option string
}.

Definition init_scan (w : W) : Scan := mk_Scan w [] 0%nat None.

(** Run a world computation from inside a scan. *)
Definition in_world {A} (c : M W A) : M Scan A :=
  fun s => match c (st_world s) with
           | (o, w') =>
               (o, mk_Scan w' (st_errors s) (st_chunks_checked s)
                           (st_warning s))
           end.

(** [errors.append(err)] *)
Definition append_error (err : ChunkError) : M Scan unit :=
  modify (fun s => mk_Scan (st_world s) (st_errors s ++ [err])
                           (st_chunks_checked s) (st_warning s)).

(** [errors.extend(errs)] *)
Definition extend_errors (errs : list ChunkError) : M Scan unit :=
  modify (fun s => mk_Scan (st_world s) (st_errors s ++ errs)
                           (st_chunks_checked s) (st_warning s)).

(** [chunks_checked += n] *)
Definition add_checked (n : nat) : M Scan unit :=
  modify (fun s => mk_Scan (st_world s) (st_errors s)
                           (st_chunks_checked s + n)%nat (st_warning s)).

(** [chunks_checked = n] *)
Definition set_checked (n : nat) : M Scan unit :=
  modify (fun s => mk_Scan (st_world s) (st_errors s) n (st_warning s)).

(** [warning = msg] *)
Definition set_warning (msg : string) : M Scan unit :=
  modify (fun s => mk_Scan (st_world s) (st_errors s)
                           (st_chunks_checked s) (Some msg)).

(** ** [random.sample] *)

(** [random.sample(population, k)] is library code: it is taken with its
    contract, [k] items at distinct positions of the population. *)
Variable random_sample : list (list Z) -> nat -> M W (list (list Z)).

Definition sample_contract : Prop :=
  forall population k w, (k <= length population)%nat ->
    exists picked w',
      random_sample population k w = (Ok picked, w') /\
      length picked = k /\
      exists rest, Permutation (picked ++ rest) population.

(** ** ChunkSampler (checker.py, lines 145-163) *)

Definition select_chunks (sample_chunks : bool) (max_chunks_to_check : option Z)
    (coords : list (list Z)) : M W (list (list Z)) :=
  (chunks_to_check <-
     (if andb sample_chunks (Nat.ltb 10 (length coords)) then
        let samples := [hd [] coords; last coords []] in
        if Nat.ltb 2 (length coords) then
          picked <- random_sample (interior coords)
                                  (Nat.min 8 (length coords - 2)) ;;
          ret (samples ++ picked)
        else ret samples
      else ret coords) ;;
   match max_chunks_to_check with
   | Some m => ret (slice_to m chunks_to_check)
   | None => ret chunks_to_check
   end)%py.

(** ** check_zarr_array (checker.py, lines 88-215) *)

(** Lines 166-194: one selected chunk. *)
Definition check_chunk (array : ArrayObj) (shape chunks : list Z)
    (array_path : option string) (chunk_coords : list Z) : M Scan unit :=
  try_catch
    (_ <- in_world (a_getitem array (chunk_slices chunk_coords shape chunks)) ;;
     add_checked 1)%py
    (fun e =>
       append_error (mk_ChunkError (Coords chunk_coords) (classify e)
                                   (exn_msg e) array_path) ;;;
       add_checked 1)%py.

(** Lines 114-132: the probe of an array without a chunk grid. *)
Definition check_unchunked (array : ArrayObj) (shape : list Z)
    (array_path : option string) : M Scan unit :=
  try_catch
    (let sample_shape := map (Z.min 10) shape in
     _ <- in_world (a_getitem array (map (fun s => Slice 0 s) sample_shape)) ;;
     set_checked 1)%py
    (fun e =>
       append_error (mk_ChunkError (Coords (repeat 0 (length shape)))
                                   (exn_type e) (exn_msg e) array_path) ;;;
       set_checked 1)%py.

(** Lines 109-194: the body of the outer [try]. *)
Definition check_zarr_array_body (array : ArrayObj) (sample_chunks : bool)
    (max_chunks_to_check : option Z) (array_path : option string)
    : M Scan unit :=
  (shape <- getattr "shape" (a_shape array) ;;
   chunks <- getattr "chunks" (a_chunks array) ;;
   match chunks with
   | None => check_unchunked array shape array_path
   | Some chunks =>
       coords <- lift_outcome (all_chunk_coords shape chunks) ;;
       chunks_to_check <-
         in_world (select_chunks sample_chunks max_chunks_to_check coords) ;;
       for_each chunks_to_check (check_chunk array shape chunks array_path)
   end)%py.

(** Lines 196-207: the handler of the outer [try]. *)
Definition metadata_error (array_path : option string) (e : exn)
    : M Scan unit :=
  append_error (mk_ChunkError (Coords []) (exn_type e) (exn_msg e) array_path).

(** [array_path or "unknown"] *)
Definition path_or_unknown (array_path : option string) : string :=
  match array_path with
  | Some p => if String.eqb p "" then "unknown" else p
  | None => "unknown"
  end.

Definition is_nil {A} (l : list A) : bool :=
  match l with [] => true | _ => false end.

Definition check_zarr_array (array : ArrayObj) (sample_chunks : bool)
    (max_chunks_to_check : option Z) (array_path : option string)
    : M W ElementResult :=
  fun w =>
    match try_catch (check_zarr_array_body array sample_chunks
                       max_chunks_to_check array_path)
                    (metadata_error array_path) (init_scan w) with
    | (Ok _, s) =>
        (Ok (mk_ElementResult "array" (path_or_unknown array_path)
               (is_nil (st_errors s)) (st_chunks_checked s) (st_errors s) None),
         st_world s)
    | (Raise e, s) => (Raise e, st_world s)
    end.

(** ** check_spatialdata_element (checker.py, lines 218-463) *)

(** One resolution level of a pyramid: the object itself, and what
    [scale_data.store] and [scale_data.store.array] give. *)
Record ScaleData : Type := mk_ScaleData {
  sd_store : attr (attr (option ArrayObj));
  sd_array : ArrayObj
}.

(** An entry of [scale_levels]: a [(name, data)] tuple or a bare level. *)
Inductive ScaleItem : Type :=
| ItemPair (scale_name : string) (scale_data : ScaleData)
| ItemPlain (scale_data : ScaleData).

(** Which of [values], [items], [__iter__] the data object has (the first
    one present is used), with what listing it gives. *)
Inductive Levels : Type :=
| NoLevels
| ViaValues (listing : outcome (list ScaleItem))
| ViaItems (listing : outcome (list (string * ScaleData)))
| ViaIter (listing : outcome (list ScaleItem)).

(** [element.data] of an image or label element. *)
Record Data : Type := mk_Data {
  d_levels : Levels;
  d_array : ArrayObj
}.

(** An element of any kind, with the capabilities the checker asks for. *)
Record Element : Type := mk_Element {
  el_data : attr Data;            (* .data *)
  el_has_compute : bool;          (* hasattr(element, "compute") *)
  el_head : Z -> M W Sample;      (* .head(n) *)
  el_len : M W Z;                 (* len(element) *)
  el_shape : M W unit;            (* .shape of a table *)
  el_X : M W unit                 (* .X of a table *)
}.

(** Lines 248-266: [scale_levels], [None] when no listing was obtained. *)
Definition scale_levels (data : Data) : option (list ScaleItem) :=
  match d_levels data with
  | NoLevels => None
  | ViaValues (Ok l) => Some l
  | ViaItems (Ok l) => Some (map (fun kv => ItemPair (fst kv) (snd kv)) l)
  | ViaIter (Ok l) => Some l
  | ViaValues (Raise _) | ViaItems (Raise _) | ViaIter (Raise _) => None
  end.

(** [enumerate(l)] *)
Definition enumerate {A} (l : list A) : list (nat * A) :=
  combine (seq 0 (length l)) l.

(** [tuple(slice(0, min(10, s)) for s in shape[:2])] *)
Definition first_two_slices (shape : list Z) : list index :=
  map (fun s => Slice 0 (Z.min 10 s)) (firstn 2 shape).

(** [sample.compute()] when the sample has it *)
Definition force (sample : Sample) : M W unit :=
  match s_compute sample with
  | Some compute => compute
  | None => ret tt
  end.

Definition IndexError : exn := mk_exn "IndexError" "tuple index out of range".

(** [_ = obj[0] if shape[0] > 0 else obj] *)
Definition touch_first (obj : ArrayObj) (shape : list Z) : M Scan unit :=
  match shape with
  | [] => raise IndexError
  | s0 :: _ =>
      if 0 <? s0 then (_ <- in_world (a_getitem obj [Index 0]) ;; ret tt)%py
      else ret tt
  end.

(** Lines 299-326: the body of the fallback probe of one level. *)
Definition probe_level (scale_data : ArrayObj) : M Scan unit :=
  (has_shape <- hasattr (a_shape scale_data) ;;
   if has_shape : bool then
     shape <- getattr "shape" (a_shape scale_data) ;;
     let ndim := length shape in
     if Nat.leb 2 ndim then
       let slices := first_two_slices shape in
       let slices := if Nat.ltb 2 ndim
                     then slices ++ repeat (Index 0) (ndim - 2)
                     else slices in
       sample <- in_world (a_getitem scale_data slices) ;;
       in_world (force sample) ;;;
       add_checked 1
     else
       touch_first scale_data shape ;;;
       add_checked 1
   else
     (if a_has_getitem scale_data
      then (_ <- in_world (a_getitem scale_data [Index 0]) ;; ret tt)
      else ret tt) ;;;
     add_checked 1)%py.

(** Lines 278-286: the zarr array behind a level, if it shows one. *)
Definition underlying_zarr (scale_data : ScaleData)
    : M Scan (option ArrayObj) :=
  (has_store <- hasattr (sd_store scale_data) ;;
   if has_store : bool then
     try_catch
       (store <- getattr "store" (sd_store scale_data) ;;
        has_array <- hasattr store ;;
        if has_array : bool then getattr "array" store else ret None)
       (fun _ => ret None)
   else ret None)%py.

(** Lines 271-275: the name and the data of an entry. *)
Definition level_name (entry : nat * ScaleItem) : string :=
  match snd entry with
  | ItemPair n _ => n
  | ItemPlain _ => ("scale_" ++ str_of_nat (fst entry))%string
  end.

Definition level_data (entry : nat * ScaleItem) : ScaleData :=
  match snd entry with
  | ItemPair _ d => d
  | ItemPlain d => d
  end.

(** Lines 297-340: the fallback probe of a level and its handler. *)
Definition check_level_fallback (element_name scale_name : string)
    (scale_data : ArrayObj) : M Scan unit :=
  try_catch (probe_level scale_data)
    (fun e =>
       append_error (mk_ChunkError (LevelName scale_name) (classify e)
                       (exn_msg e)
                       (Some (element_name ++ "/" ++ scale_name)%string)) ;;;
       add_checked 1)%py.

(** Lines 290-295 and 343-345: the array is checked as a zarr array and
    its result is added to the element's. *)
Definition check_as_zarr (zarr_array : ArrayObj) (array_path : string)
    : M Scan unit :=
  (result <- in_world (check_zarr_array zarr_array true None
                                        (Some array_path)) ;;
   add_checked (chunks_checked result) ;;;
   extend_errors (errors result))%py.

(** Lines 270-340: one iteration of the loop over the levels. *)
Definition check_level (element_name : string) (entry : nat * ScaleItem)
    : M Scan unit :=
  let scale_name := level_name entry in
  let scale_data := level_data entry in
  (zarr_array <- underlying_zarr scale_data ;;
   match zarr_array with
   | Some zarr_array =>
       has_chunks <- hasattr (a_chunks zarr_array) ;;
       if has_chunks : bool then
         check_as_zarr zarr_array (element_name ++ "/" ++ scale_name)%string
       else check_level_fallback element_name scale_name (sd_array scale_data)
   | None => check_level_fallback element_name scale_name (sd_array scale_data)
   end)%py.

(** Lines 349-361: the body of the [try] on a data object that is neither
    a pyramid nor chunked. *)
Definition probe_array_like (data : ArrayObj) : M Scan unit :=
  (has_shape <- hasattr (a_shape data) ;;
   if has_shape : bool then
     shape <- getattr "shape" (a_shape data) ;;
     if Nat.leb 2 (length shape) then
       sample <- in_world (a_getitem data (first_two_slices shape)) ;;
       in_world (force sample) ;;;
       add_checked 1
     else
       touch_first data shape ;;;
       add_checked 1
   else
     set_warning "Could not determine array structure - no shape attribute")%py.

(** Lines 347-375. *)
Definition check_array_like (data : ArrayObj) (element_name : string)
    : M Scan unit :=
  try_catch (probe_array_like data)
    (fun e =>
       append_error (mk_ChunkError (Coords []) (classify_blosc_only e)
                                   (exn_msg e) (Some element_name)) ;;;
       add_checked 1)%py.

(** Lines 241-377: images and labels. *)
Definition check_image_like (element : Element) (element_name : string)
    : M Scan unit :=
  (has_data <- hasattr (el_data element) ;;
   if has_data : bool then
     data <- getattr "data" (el_data element) ;;
     match scale_levels data with
     | Some ((_ :: _) as levels) =>
         for_each (enumerate levels) (check_level element_name)
     | _ =>
         has_chunks <- hasattr (a_chunks (d_array data)) ;;
         if has_chunks : bool then check_as_zarr (d_array data) element_name
         else check_array_like (d_array data) element_name
     end
   else set_warning "Element has no 'data' attribute")%py.

(** The handler shared by the points, shapes and tables probes and by the
    outer [try]: the exception is recorded under its own type name. *)
Definition plain_error (element_name : string) (e : exn) : ChunkError :=
  mk_ChunkError (Coords []) (exn_type e) (exn_msg e) (Some element_name).

(** Lines 383-391: the probe of a points element. *)
Definition probe_points (element : Element) : M Scan unit :=
  (if el_has_compute element then
     sample <- in_world (el_head element 10) ;;
     in_world (force sample) ;;;
     set_checked 1
   else
     _ <- in_world (el_head element 10) ;;
     set_checked 1)%py.

(** Lines 409-410: the probe of a shapes element. *)
Definition probe_shapes (element : Element) : M Scan unit :=
  (_ <- in_world (el_len element) ;; set_checked 1)%py.

(** Lines 428-430: the probe of a table. *)
Definition probe_tables (element : Element) : M Scan unit :=
  (in_world (el_shape element) ;;;
   in_world (el_X element) ;;;
   set_checked 1)%py.

(** Lines 392-403, 411-422 and 431-442: the three handlers are the same. *)
Definition record_probe_failure (element_name : string) (e : exn)
    : M Scan unit :=
  (append_error (plain_error element_name e) ;;; set_checked 1)%py.

(** Lines 379-403: points. *)
Definition check_points (element : Element) (element_name : string)
    : M Scan unit :=
  try_catch (probe_points element) (record_probe_failure element_name).

(** Lines 405-422: shapes. *)
Definition check_shapes (element : Element) (element_name : string)
    : M Scan unit :=
  try_catch (probe_shapes element) (record_probe_failure element_name).

(** Lines 424-442: tables. *)
Definition check_tables (element : Element) (element_name : string)
    : M Scan unit :=
  try_catch (probe_tables element) (record_probe_failure element_name).

(** Lines 240-442: the body of the outer [try]. *)
Definition check_spatialdata_element_body (element : Element)
    (element_type element_name : string) : M Scan unit :=
  if orb (String.eqb element_type "images") (String.eqb element_type "labels")
  then check_image_like element element_name
  else if String.eqb element_type "points"
  then check_points element element_name
  else if String.eqb element_type "shapes"
  then check_shapes element element_name
  else if String.eqb element_type "tables"
  then check_tables element element_name
  else ret tt.

Definition check_spatialdata_element (element : Element)
    (element_type element_name : string) (verbose : bool) : M W ElementResult :=
  fun w =>
    match try_catch (check_spatialdata_element_body element element_type
                                                    element_name)
                    (fun e => append_error (plain_error element_name e))
                    (init_scan w) with
    | (Ok _, s) =>
        (Ok (mk_ElementResult element_type element_name
               (is_nil (st_errors s)) (st_chunks_checked s) (st_errors s)
               (st_warning s)),
         st_world s)
    | (Raise e, s) => (Raise e, st_world s)
    end.

(** ** check_spatialdata (checker.py, lines 466-540) *)

(** What [getattr(sdata, element_type)] holds. *)
Inductive Elements : Type :=
| ElementsNone
| ElementsDict (items : list (string * Element))
| ElementsOne (element : Element).

Record SpatialData : Type := mk_SpatialData {
  sdata_attr : string -> attr Elements
}.

(** The [sdata] argument: an object, or a [str] or [Path] to load. *)
Inductive SdataArg : Type :=
| Loaded (sdata : SpatialData)
| Location (path : string).

(** [sd.read_zarr] and [traceback.format_exc] are library code. *)
Variable read_zarr : string -> M W SpatialData.
Variable format_exc : exn -> string.

Record Container : Type := mk_Container {
  cs_world : W;
  cs_results : list ElementResult;
  cs_all_errors : list string
}.

Definition in_world_c {A} (c : M W A) : M Container A :=
  fun s => match c (cs_world s) with
           | (o, w') => (o, mk_Container w' (cs_results s) (cs_all_errors s))
           end.

(** [results.append(result)] *)
Definition append_result (result : ElementResult) : M Container unit :=
  modify (fun s => mk_Container (cs_world s) (cs_results s ++ [result])
                                (cs_all_errors s)).

(** [all_errors.append(msg)] *)
Definition append_all_errors (msg : string) : M Container unit :=
  modify (fun s => mk_Container (cs_world s) (cs_results s)
                                (cs_all_errors s ++ [msg])).

(** Lines 514-525: one named element of a mapping. *)
Definition check_named (element_type : string) (verbose : bool)
    (entry : string * Element) : M Container unit :=
  let element_name := fst entry in
  try_catch
    (result <- in_world_c (check_spatialdata_element (snd entry) element_type
                                                     element_name verbose) ;;
     append_result result)%py
    (fun e =>
       append_all_errors ("Error checking " ++ element_type ++ " '"
                          ++ element_name ++ "': " ++ exn_type e ++ ": "
                          ++ exn_msg e)%string ;;;
       if verbose then append_all_errors (format_exc e) else ret tt)%py.

(** Lines 504-531: one element type. *)
Definition check_kind (sdata : SpatialData) (verbose : bool)
    (element_type : string) : M Container unit :=
  (has_kind <- hasattr (sdata_attr sdata element_type) ;;
   if has_kind : bool then
     elements <- getattr element_type (sdata_attr sdata element_type) ;;
     match elements with
     | ElementsNone => ret tt
     | ElementsDict items => for_each items (check_named element_type verbose)
     | ElementsOne element =>
         result <- in_world_c
                     (check_spatialdata_element element element_type
                                                element_type verbose) ;;
         append_result result
     end
   else ret tt)%py.

Definition default_element_types : list string :=
  ["images"; "labels"; "points"; "shapes"; "tables"].

(** Lines 497-540: the scan of a loaded container. *)
Definition scan_container (sdata : SpatialData) (path : option string)
    (element_types : option (list string)) (verbose : bool)
    : M W IntegrityResult :=
  fun w =>
    let element_types := match element_types with
                         | Some l => l
                         | None => default_element_types
                         end in
    match for_each element_types (check_kind sdata verbose)
                   (mk_Container w [] []) with
    | (Ok _, s) =>
        (Ok (mk_IntegrityResult path
               (andb (is_nil (cs_all_errors s))
                     (forallb is_valid (cs_results s)))
               (cs_results s) (cs_all_errors s)),
         cs_world s)
    | (Raise e, s) => (Raise e, cs_world s)
    end.

Definition load_failure (path : string) (e : exn) : IntegrityResult :=
  mk_IntegrityResult (Some path) false []
    [("Failed to load SpatialData object: " ++ exn_type e ++ ": "
      ++ exn_msg e)%string].

Definition check_spatialdata (sdata : SdataArg)
    (element_types : option (list string)) (verbose : bool)
    : M W IntegrityResult :=
  match sdata with
  | Location path =>
      (loaded <- try_catch (sdata <- read_zarr path ;; ret (inl sdata))
                           (fun e => ret (inr (load_failure path e))) ;;
       match loaded with
       | inl sdata => scan_container sdata (Some path) element_types verbose
       | inr result => ret result
       end)%py
  | Loaded sdata => scan_container sdata None element_types verbose
  end.

End Scanner.

(** * scripts/validate_datasets.py *)

Module ValidateDatasets.

(** A value read by [json.loads]; numbers are kept as their text. *)
#[local] Unset Elimination Schemes.
Inductive Json : Type :=
| JNull
| JBool (b : bool)
| JNumber (text : string)
| JString (s : string)
| JArray (items : list Json)
| JObject (fields : list (string * Json)).
#[local] Set Elimination Schemes.

(** Lines 21-31.  The fields copied from the parsed output hold whatever
    the output holds; [None] is [JNull]. *)
Record ValidationResult : Type := mk_ValidationResult {
  dataset_name : string;
  dataset_url : string;
  spatialdata_version : string;
  success : Json;
  error_type : Json;
  error_message : Json;
  elements : Json;
  coordinate_systems : Json
}.

(** An entry of [DATASETS]. *)
Record Dataset : Type := mk_Dataset { name : string; url : string }.

(** What [subprocess.run(..., capture_output=True, text=True)] returns. *)
Record CompletedProcess : Type := mk_CompletedProcess {
  stdout : string;
  stderr : string
}.

(** A tuple of [validation_tasks]. *)
Record Task : Type := mk_Task {
  t_dataset : Dataset;
  t_version : string;
  t_project_root : string;
  t_verbose : bool
}.

(** A number without fraction or exponent is read as an [int]: its text
    holds only a sign and digits. *)
Fixpoint is_int_text (text : string) : bool :=
  match text with
  | EmptyString => true
  | String c rest =>
      let n := nat_of_ascii c in
      andb (orb (Nat.eqb n 45) (andb (Nat.leb 48 n) (Nat.leb n 57)))
           (is_int_text rest)
  end.

(** [type(value).__name__] of a value read by [json.loads]. *)
Definition type_name (value : Json) : string :=
  match value with
  | JNull => "NoneType"
  | JBool _ => "bool"
  | JNumber text => if is_int_text text then "int" else "float"
  | JString _ => "str"
  | JArray _ => "list"
  | JObject _ => "dict"
  end.

(** What [value.name] raises on a value that has no such attribute. *)
Definition no_attribute (value : Json) (name : string) : exn :=
  mk_exn "AttributeError"
    ("'" ++ type_name value ++ "' object has no attribute '" ++ name
     ++ "'")%string.

(** [output.get(key, default)]: only a dict has [get]. *)
Definition dict_get (output : Json) (key : string) (default : Json)
    : outcome Json :=
  match output with
  | JObject fields =>
      Ok (match find (fun kv => String.eqb (fst kv) key) fields with
          | Some kv => snd kv
          | None => default
          end)
  | _ => Raise (no_attribute output "get")
  end.

(** [try: c  except (JSONDecodeError, IndexError) as e: h e] and the like:
    an exception the clause does not name goes on. *)
Definition try_catch_when {S A} (caught : exn -> bool) (c : M S A)
    (h : exn -> M S A) : M S A :=
  fun s => match c s with
           | (Ok a, s') => (Ok a, s')
           | (Raise e, s') => if caught e then h e s' else (Raise e, s')
           end.

Definition newline : string := String (ascii_of_nat 10) EmptyString.

Section Tasks.

Context {W : Type}.

(** The text of the script run in the version's environment, for a URL. *)
Variable test_script : string -> string.
(** [subprocess.run(argv, timeout=120, ...)] *)
Variable subprocess_run : list string -> M W CompletedProcess.
(** [text.strip().split(newline)[-1]] *)
Variable last_line : string -> string.
(** [json.loads] *)
Variable json_loads : string -> outcome Json.
(** [Pool(processes=n)] *)
Variable Pool : Z -> M W unit.
(** [pool.imap(f, tasks)], iterated to the end. *)
Variable imap : (Task -> M W ValidationResult) -> list Task
                -> M W (list ValidationResult).

Definition ValueError (message : string) : exn := mk_exn "ValueError" message.



Definition failed (dataset : Dataset) (version kind message : string)
    : ValidationResult :=
  mk_ValidationResult (name dataset) (url dataset) version (JBool false)
    (JString kind) (JString message) JNull JNull.

(** Lines 159-171: the parsed output turned into a result. *)
Definition parse_output (dataset : Dataset) (version : string)
    (result : CompletedProcess) : outcome ValidationResult :=
  match json_loads (last_line (stdout result)) with
  | Raise e => Raise e
  | Ok output =>
      match dict_get output "success" (JBool false) with
      | Raise e => Raise e
      | Ok s =>
      match dict_get output "error_type" JNull with
      | Raise e => Raise e
      | Ok et =>
      match dict_get output "error_message" JNull with
      | Raise e => Raise e
      | Ok em =>
      match dict_get output "elements" JNull with
      | Raise e => Raise e
      | Ok els =>
      match dict_get output "coordinate_systems" JNull with
      | Raise e => Raise e
      | Ok cs =>
          Ok (mk_ValidationResult (name dataset) (url dataset) version
                                  s et em els cs)
      end end end end end
  end.

Definition is_parse_failure (e : exn) : bool :=
  orb (String.eqb (exn_type e) "JSONDecodeError")
      (String.eqb (exn_type e) "IndexError").

Definition is_timeout (e : exn) : bool :=
  String.eqb (exn_type e) "TimeoutExpired".

(** Lines 89 and 152: the command line of the subprocess. *)
Definition run_argv (dataset : Dataset) (version project_root : string)
    : list string :=
  let env_dir := (project_root ++ "/python/v" ++ version)%string in
  ["uv"; "run"; "--directory"; env_dir; "python"; "-c";
   test_script (url dataset)].

(** Lines 83-200.  The progress lines printed to stderr are left out. *)
Definition validate_with_version (dataset : Dataset) (version : string)
    (project_root : string) (verbose : bool) : M W ValidationResult :=
  try_catch
    (result <- subprocess_run (run_argv dataset version project_root) ;;
     try_catch_when is_parse_failure
       (lift_outcome (parse_output dataset version result))
       (fun _ =>
          ret (failed dataset version "ParseError"
                 ("Could not parse output: " ++ stdout result ++ newline
                  ++ "Stderr: " ++ stderr result)%string)))%py
    (fun e =>
       if is_timeout e then
         ret (failed dataset version "TimeoutError"
                     "Dataset loading timed out after 120 seconds")
       else ret (failed dataset version (exn_type e) (exn_msg e))).

(** Lines 329-332. *)
Definition validate_single (args_tuple : Task) : M W ValidationResult :=
  validate_with_version (t_dataset args_tuple) (t_version args_tuple)
                        (t_project_root args_tuple) (t_verbose args_tuple).

(** Lines 430-434. *)
Definition validation_tasks (datasets : list Dataset) (versions : list string)
    (project_root : string) (verbose : bool) : list Task :=
  flat_map (fun dataset =>
              map (fun version => mk_Task dataset version project_root verbose)
                  versions)
           datasets.

(** Lines 436-449: the sequential loop, [results] being the state. *)
Fixpoint run_sequential (tasks : list Task) (results : list ValidationResult)
    : M W (list ValidationResult) :=
  match tasks with
  | [] => ret results
  | task :: rest =>
      (result <- validate_with_version (t_dataset task) (t_version task)
                   (t_project_root task) (t_verbose task) ;;
       run_sequential rest (results ++ [result]))%py
  end.

(** Lines 416 and 436-463: [results] after either branch of [main]. *)
Definition collect_results (no_parallel : bool) (workers : Z)
    (tasks : list Task) : M W (list ValidationResult) :=
  if no_parallel then run_sequential tasks []
  else (Pool workers ;;;
        yielded <- imap validate_single tasks ;;
        ret (fold_left (fun results result => results ++ [result])
                       yielded []))%py.



End Tasks.

End ValidateDatasets.

(** * Reports (checker.py, lines 43-53 and 65-85) *)

Definition line_break : string := String (ascii_of_nat 10) EmptyString.

(** [sep.join(items)] *)
Fixpoint join (sep : string) (items : list string) : string :=
  match items with
  | [] => ""
  | [x] => x
  | x :: rest => (x ++ sep ++ join sep rest)%string
  end.

Definition upper_ascii (c : ascii) : ascii :=
  let n := nat_of_ascii c in
  if andb (Nat.leb 97 n) (Nat.leb n 122) then ascii_of_nat (n - 32) else c.

(** [s.capitalize()] on ASCII text *)
Definition capitalize (s : string) : string :=
  match s with
  | EmptyString => EmptyString
  | String c rest => String (upper_ascii c) (lower rest)
  end.

(** [str(n)] of an integer *)
Definition str_of_Z (z : Z) : string := NilEmpty.string_of_int (Z.to_int z).

(** [str(t)] of a tuple, from the [repr] of its items. *)
Definition tuple_str (items : list string) : string :=
  match items with
  | [] => "()"
  | [x] => ("(" ++ x ++ ",)")%string
  | _ => ("(" ++ join ", " items ++ ")")%string
  end.

Section Reports.

(** [repr] of a [str] is library code. *)
Variable repr_str : string -> string.

Definition chunk_index_str (i : chunk_index_t) : string :=
  match i with
  | Coords c => tuple_str (map str_of_Z c)
  | LevelName scale_name => tuple_str [repr_str scale_name]
  end.

(** [ElementResult.__str__], lines 43-53. *)
Definition element_str (r : ElementResult) : string :=
  let status := if is_valid r then "✓" else "✗" in
  let msg := (status ++ " " ++ capitalize (element_type r) ++ ": '"
              ++ element_name r ++ "'")%string in
  let msg := if Nat.ltb 0 (chunks_checked r)
             then (msg ++ " (" ++ str_of_nat (chunks_checked r)
                   ++ " chunks checked)")%string
             else msg in
  let msg := match warning r with
             | Some text =>
                 if String.eqb text "" then msg
                 else (msg ++ " - Warning: " ++ text)%string
             | None => msg
             end in
  fold_left (fun msg error =>
               (msg ++ line_break ++ "  - Error at chunk "
                ++ chunk_index_str (chunk_index error) ++ ": "
                ++ error_type error)%string)
            (errors r) msg.

(** Line 82: the number of element results that are not valid. *)
Definition error_count (r : IntegrityResult) : nat :=
  length (filter (fun e => negb (is_valid e)) (ir_elements r)).

Definition summary_line (r : IntegrityResult) : string :=
  ("Summary: " ++ str_of_nat (error_count r) ++ " error(s) found in "
   ++ str_of_nat (length (ir_elements r)) ++ " element(s)")%string.

(** [IntegrityResult.__str__], lines 65-85: the lines of the report. *)
Definition report_lines (r : IntegrityResult) : list string :=
  [match ir_path r with
   | Some path =>
       if String.eqb path "" then "Checking SpatialData object"
       else ("Checking SpatialData object: " ++ path)%string
   | None => "Checking SpatialData object"
   end]
  ++ map (fun element => ("  " ++ element_str element)%string) (ir_elements r)
  ++ (if is_nil (ir_errors r) then []
      else [""; "Errors encountered:"]
           ++ map (fun error => ("  - " ++ error)%string) (ir_errors r))
  ++ [""; summary_line r].

Definition result_str (r : IntegrityResult) : string :=
  join line_break (report_lines r).

End Reports.

(** * spatialdata_integrity/cli.py *)

Module Cli.

Definition NameError (name : string) : exn :=
  mk_exn "NameError" ("name '" ++ name ++ "' is not defined")%string.

(** The name [element] in [format_json_result]: nothing binds it, in the
    function, in the module or among the builtins. *)
Definition element : outcome ElementResult := Raise (NameError "element").

Definition optional_str (s : option string) : ValidateDatasets.Json :=
  match s with
  | Some text => ValidateDatasets.JString text
  | None => ValidateDatasets.JNull
  end.

Definition number_of_Z (z : Z) : ValidateDatasets.Json :=
  ValidateDatasets.JNumber (str_of_Z z).

(** [list(e.chunk_index)] *)
Definition chunk_index_json (i : chunk_index_t) : ValidateDatasets.Json :=
  match i with
  | Coords c => ValidateDatasets.JArray (map number_of_Z c)
  | LevelName scale_name =>
      ValidateDatasets.JArray [ValidateDatasets.JString scale_name]
  end.

(** Lines 24-30: the dict of one error. *)
Definition error_json (e : ChunkError) : ValidateDatasets.Json :=
  ValidateDatasets.JObject
    [("chunk_index", chunk_index_json (chunk_index e));
     ("error_type", ValidateDatasets.JString (error_type e));
     ("error_message", ValidateDatasets.JString (error_message e));
     ("array_path", optional_str (array_path e))].

(** Lines 19-34: the dict of one element result [e]; its errors are taken
    from [element], not from [e]. *)
Definition element_json (e : ElementResult) : outcome ValidateDatasets.Json :=
  match element with
  | Raise x => Raise x
  | Ok element =>
      Ok (ValidateDatasets.JObject
            [("element_type", ValidateDatasets.JString (element_type e));
             ("element_name", ValidateDatasets.JString (element_name e));
             ("is_valid", ValidateDatasets.JBool (is_valid e));
             ("chunks_checked",
              number_of_Z (Z.of_nat (chunks_checked e)));
             ("errors",
              ValidateDatasets.JArray (map error_json (errors element)));
             ("warning", optional_str (warning e))])
  end.

(** A list comprehension whose item expression may raise. *)
Fixpoint comprehension {A B} (f : A -> outcome B) (l : list A)
    : outcome (list B) :=
  match l with
  | [] => Ok []
  | x :: rest =>
      match f x with
      | Raise e => Raise e
      | Ok y =>
          match comprehension f rest with
          | Raise e => Raise e
          | Ok ys => Ok (y :: ys)
          end
      end
  end.

(** Lines 15-38: the value handed to [json.dumps]. *)
Definition json_output (result : IntegrityResult)
    : outcome ValidateDatasets.Json :=
  match comprehension element_json (ir_elements result) with
  | Raise e => Raise e
  | Ok elements =>
      Ok (ValidateDatasets.JObject
            [("path", optional_str (ir_path result));
             ("is_valid", ValidateDatasets.JBool (ir_is_valid result));
             ("elements", ValidateDatasets.JArray elements);
             ("errors",
              ValidateDatasets.JArray
                (map ValidateDatasets.JString (ir_errors result)))])
  end.

(** The parsed command line. *)
Record Args : Type := mk_Args {
  arg_path : string;
  arg_elements : option (list string);
  arg_verbose : bool;
  arg_output : option string;
  arg_format : string
}.

Section Main.

Context {W : Type}.

Variable random_sample : list (list Z) -> nat -> M W (list (list Z)).
Variable read_zarr : string -> M W (SpatialData (W := W)).
Variable format_exc : exn -> string.
Variable repr_str : string -> string.
(** [json.dumps(value, indent=2)] *)
Variable json_dumps : ValidateDatasets.Json -> string.
(** [str(Path(text))] *)
Variable path_str : string -> string.
(** [Path(text).exists()] *)
Variable path_exists : string -> M W bool.
(** [print(text)] and [print(text, file=sys.stderr)] *)
Variable print_out : string -> M W unit.
Variable print_err : string -> M W unit.
(** [traceback.print_exc()] *)
Variable print_exc : exn -> M W unit.
(** [path.parent.mkdir(parents=True, exist_ok=True)] and
    [path.write_text(text)] *)
Variable write_text : string -> string -> M W unit.

(** Lines 15-40. *)
Definition format_json_result (result : IntegrityResult) : outcome string :=
  match json_output result with
  | Raise e => Raise e
  | Ok output => Ok (json_dumps output)
  end.

(** [if args.output:] *)
Definition output_given (output : option string) : option string :=
  match output with
  | Some text => if String.eqb text "" then None else Some text
  | None => None
  end.

(** Lines 43-141.  The value is the exit status: [sys.exit(1)] ends the
    run with 1, falling off the end with 0; an exception that leaves
    [main] is raised. *)
Definition main (args : Args) : M W Z :=
  let path := path_str (arg_path args) in
  (found <- path_exists path ;;
   if negb found then
     print_err ("Error: Path does not exist: " ++ path)%string ;;;
     ret 1
   else
     checked <-
       try_catch
         (result <- check_spatialdata random_sample read_zarr format_exc
                      (Location path) (arg_elements args) (arg_verbose args) ;;
          ret (inl result))
         (fun e =>
            print_err ("Error: Failed to check SpatialData object: "
                       ++ exn_msg e)%string ;;;
            (if arg_verbose args then print_exc e else ret tt) ;;;
            ret (inr 1)) ;;
     match checked with
     | inr status => ret status
     | inl result =>
         output <- lift_outcome
                     (if String.eqb (arg_format args) "json"
                      then format_json_result result
                      else Ok (result_str repr_str result)) ;;
         match output_given (arg_output args) with
         | Some file =>
             write_text file output ;;;
             print_err ("Results written to: " ++ path_str file)%string
         | None => print_out output
         end ;;;
         ret (if ir_is_valid result then 0 else 1)
     end)%py.

End Main.

End Cli.

(** * scripts/generate_fixtures.py *)

Module GenerateFixtures.

Section Main.

Context {W : Type}.

(** [a / b] on paths, and [str] of a path. *)
Variable path_join : string -> string -> string.
(** [path.exists()] *)
Variable path_exists : string -> M W bool.
(** [subprocess.run(argv, ...).returncode] *)
Variable run_returncode : list string -> M W Z.

(** The world and the local [success]. *)
Record Run : Type := mk_Run {
  g_world : W;
  g_success : bool
}.

Definition in_world_g {A} (c : M W A) : M Run A :=
  fun s => match c (g_world s) with
           | (o, w') => (o, mk_Run w' (g_success s))
           end.

(** [success = False] *)
Definition fail : M Run unit :=
  modify (fun s => mk_Run (g_world s) false).

Definition env_dir (project_root version : string) : string :=
  path_join (path_join project_root "python") ("v" ++ version)%string.

Definition version_script (project_root version : string) : string :=
  path_join (env_dir project_root version) "generate_fixtures.py".

Definition sync_argv (project_root version : string) : list string :=
  ["uv"; "sync"; "--directory"; env_dir project_root version].

Definition run_argv (project_root output_dir version : string)
    : list string :=
  ["uv"; "run"; "--directory"; env_dir project_root version;
   version_script project_root version; "--output-dir"; output_dir].

(** Lines 42-83: the body of the loop, for one version.  The lines printed
    are left out. *)
Definition generate_version (project_root output_dir version : string)
    : M Run unit :=
  (found <- in_world_g (path_exists (version_script project_root version)) ;;
   if negb found then fail
   else
     synced <- in_world_g (run_returncode (sync_argv project_root version)) ;;
     if negb (synced =? 0) then fail
     else
       returned <- in_world_g
                     (run_returncode
                        (run_argv project_root output_dir version)) ;;
       if negb (returned =? 0) then fail else ret tt)%py.

(** [[args.version] if args.version else ["0.5.0", "0.6.1"]] *)
Definition versions_of (version : option string) : list string :=
  match version with
  | Some v => if String.eqb v "" then ["0.5.0"; "0.6.1"] else [v]
  | None => ["0.5.0"; "0.6.1"]
  end.

(** Lines 15-97.  The value is the exit status. *)
Definition main (project_root : string) (arg_version : option string)
    (arg_output_dir : string) : M W Z :=
  fun w =>
    let output_dir := path_join project_root arg_output_dir in
    match for_each (versions_of arg_version)
                   (generate_version project_root output_dir)
                   (mk_Run w true) with
    | (Ok _, s) => (Ok (if g_success s then 0 else 1), g_world s)
    | (Raise e, s) => (Raise e, g_world s)
    end.

End Main.

End GenerateFixtures.

(** * Vocabulary of the properties *)

(** ceil(s / c), as the specification writes the number of chunks of a
    dimension: the quotient, and one more when the division is not exact. *)
Definition ceil_div (s c : Z) : Z :=
  s / c + (if s mod c =? 0 then 0 else 1).

(** The ranges built by the loop of lines 136-138 when no chunk size is
    zero. *)
Definition dim_range (d : Z * Z) : list Z :=
  py_range ((fst d + snd d - 1) / snd d).

(** [a <= b] on tuples of integers, as Python compares them. *)
Fixpoint lex_le (a b : list Z) : bool :=
  match a, b with
  | [], _ => true
  | _ :: _, [] => false
  | x :: a', y :: b' =>
      if x <? y then true else if x =? y then lex_le a' b' else false
  end.

Section Vocabulary.

Context {W : Type}.

(** What the store answers when every region of a list is asked for, one
    after the other, whatever the answers are. *)
Fixpoint attempts (array : ArrayObj) (regions : list (list index)) (w : W)
    : list (outcome (Sample (W := W))) * W :=
  match regions with
  | [] => ([], w)
  | region :: rest =>
      let (o, w1) := a_getitem array region w in
      let (os, w2) := attempts array rest w1 in
      (o :: os, w2)
  end.

(** The errors of the failed answers, each under its own coordinate. *)
Fixpoint chunk_errors (array_path : option string) (coords : list (list Z))
    (answers : list (outcome (Sample (W := W)))) : list ChunkError :=
  match coords, answers with
  | c :: coords', Raise e :: answers' =>
      mk_ChunkError (Coords c) (classify e) (exn_msg e) array_path
        :: chunk_errors array_path coords' answers'
  | _ :: coords', Ok _ :: answers' => chunk_errors array_path coords' answers'
  | _, _ => []
  end.

(** The record of a failed probe of an array without a chunk grid. *)
Definition probe_error (shape : list Z) (array_path : option string) (e : exn)
    : ChunkError :=
  mk_ChunkError (Coords (repeat 0 (length shape))) (exn_type e) (exn_msg e)
                array_path.

(** The locals of a scan are untouched. *)
Definition same_counts (s s' : Scan (W := W)) : Prop :=
  st_errors s' = st_errors s /\
  st_chunks_checked s' = st_chunks_checked s /\
  st_warning s' = st_warning s.

(** One more unit is counted and nothing else changes. *)
Definition one_more (s s' : Scan (W := W)) : Prop :=
  st_errors s' = st_errors s /\
  st_chunks_checked s' = (st_chunks_checked s + 1)%nat /\
  st_warning s' = st_warning s.

(** The shape and the chunk shape of the array can be read and no chunk
    size is zero: the body of [check_zarr_array] gets to its reads. *)
Definition metadata_ok (array : ArrayObj (W := W)) : bool :=
  match a_shape array, a_chunks array with
  | Present _, Present None => true
  | Present shape, Present (Some chunks) =>
      match all_chunk_coords shape chunks with
      | Ok _ => true
      | Raise _ => false
      end
  | _, _ => false
  end.

(** The chunked array that lines 278-289 find behind a level, if any. *)
Definition level_zarr (scale_data : ScaleData (W := W))
    : option (ArrayObj (W := W)) :=
  match sd_store scale_data with
  | Present (Present (Some zarr_array)) => Some zarr_array
  | _ => None
  end.

(** No getter asked about a level outside a probe fails, and the array
    behind it, if it is checked as a zarr array, has readable metadata. *)
Definition level_ok (scale_data : ScaleData (W := W)) : bool :=
  match sd_store scale_data with
  | Failing _ => false
  | _ =>
      match level_zarr scale_data with
      | Some zarr_array =>
          match a_chunks zarr_array with
          | Failing _ => false
          | Absent => true
          | Present _ => metadata_ok zarr_array
          end
      | None => true
      end
  end.

(** The same for a data object: for each of its levels, or for the object
    itself when it is checked as one array. *)
Definition data_ok (data : Data (W := W)) : bool :=
  match scale_levels data with
  | Some (item :: items) =>
      forallb (fun entry => level_ok (level_data entry))
              (enumerate (item :: items))
  | _ =>
      match a_chunks (d_array data) with
      | Failing _ => false
      | Absent => true
      | Present _ => metadata_ok (d_array data)
      end
  end.

(** Nothing fails outside a chunk or probe read while the element is
    checked as [element_type]. *)
Definition introspection_ok (element_type : string)
    (element : Element (W := W)) : bool :=
  if orb (String.eqb element_type "images") (String.eqb element_type "labels")
  then match el_data element with
       | Failing _ => false
       | Absent => true
       | Present data => data_ok data
       end
  else true.

(** The errors added between two states are no more than the units
    counted between them. *)
Definition accounted (s s' : Scan (W := W)) : Prop :=
  exists errs k,
    st_errors s' = st_errors s ++ errs /\
    st_chunks_checked s' = (st_chunks_checked s + k)%nat /\
    (length errs <= k)%nat.





(** [pat in msg.lower()] *)
Definition mentions (pat msg : string) : bool := contains pat (lower msg).

(** The kind the specification asks for: the decompression kind when the
    message mentions "blosc" or "decompression", the exception's own type
    name otherwise. *)
Definition kind_by_message (e : exn) (kind : string) : Prop :=
  (mentions "blosc" (exn_msg e) = true \/
   mentions "decompression" (exn_msg e) = true ->
   kind = BloscDecompressionError) /\
  (mentions "blosc" (exn_msg e) = false ->
   mentions "decompression" (exn_msg e) = false ->
   kind = exn_type e).

(** The end of a points, shapes or table probe that failed with [e] in
    state [s1]: the failure is recorded under its type name and the count
    is set to one. *)
Definition recorded_under_type_name (element_name : string) (e : exn)
    (s1 : Scan (W := W)) (r : outcome unit * Scan (W := W)) : Prop :=
  r = (Ok tt,
       mk_Scan (st_world s1)
         (st_errors s1 ++
            [mk_ChunkError (Coords []) (exn_type e) (exn_msg e)
                           (Some element_name)])
         1 (st_warning s1)).

End Vocabulary.

(** * Vocabulary of further properties *)

(** A position of the array lies in the region of a subscript. *)
Fixpoint in_region (position : list Z) (region : list index) : Prop :=
  match position, region with
  | [], [] => True
  | p :: ps, Slice start stop :: rs => start <= p < stop /\ in_region ps rs
  | p :: ps, Index i :: rs => p = i /\ in_region ps rs
  | _, _ => False
  end.

(** A slice of one dimension [d = (dim_size, chunk_size)] lies in the
    dimension, is not empty and is no longer than a chunk. *)
Definition slice_in_bounds (region : index) (d : Z * Z) : Prop :=
  exists start stop,
    region = Slice start stop /\
    0 <= start < stop /\ stop <= fst d /\ stop - start <= snd d.

(** The answer of a read is a value. *)
Definition answered {A} (o : outcome A) : bool :=
  match o with
  | Ok _ => true
  | Raise _ => false
  end.

Section MoreVocabulary.

Context {W : Type}.

(** A level that shows no chunked zarr array and whose getters do not fail:
    lines 297-340 probe it. *)
Definition falls_back (scale_data : ScaleData (W := W)) : bool :=
  match sd_store scale_data with
  | Failing _ => false
  | _ =>
      match level_zarr scale_data with
      | None => true
      | Some zarr_array =>
          match a_chunks zarr_array with
          | Absent => true
          | _ => false
          end
      end
  end.

(** The getter of an attribute raises something other than
    AttributeError. *)
Definition getter_fails {A} (a : attr A) : bool :=
  match a with
  | Failing _ => true
  | _ => false
  end.

(** The (type, name) pairs under which the elements of one type are
    checked: the keys of a mapping, or the type itself for a single
    element (lines 512-531). *)
Definition listed (sdata : SpatialData (W := W)) (element_type : string)
    : list (string * string) :=
  match sdata_attr sdata element_type with
  | Present (ElementsDict items) =>
      map (fun entry => (element_type, fst entry)) items
  | Present (ElementsOne _) => [(element_type, element_type)]
  | _ => []
  end.

(** The type and the name an element result is filed under. *)
Definition filed_under (r : ElementResult) : string * string :=
  (element_type r, element_name r).

(** The element types that are looked at (lines 497-498). *)
Definition requested (element_types : option (list string)) : list string :=
  match element_types with
  | Some l => l
  | None => default_element_types
  end.

End MoreVocabulary.

Section FixtureVocabulary.

Import GenerateFixtures.

Context {W : Type}.
Variable path_join : string -> string -> string.
Variable path_exists : string -> M W bool.
Variable run_returncode : list string -> M W Z.

(** The three steps of a version went well, one after the other: its
    script was found, its environment sync returned 0 and so did its
    run. *)
Definition generated (project_root output_dir version : string) : Prop :=
  exists w1 w2 w3 w4,
    path_exists (version_script path_join project_root version) w1
      = (Ok true, w2) /\
    run_returncode (sync_argv path_join project_root version) w2
      = (Ok 0, w3) /\
    run_returncode (run_argv path_join project_root output_dir version) w3
      = (Ok 0, w4).

(** Whether the three steps of a version go well, each asked only when
    the one before it went well. *)
Definition version_passes (project_root output_dir version : string)
    : M W bool :=
  (found <- path_exists (version_script path_join project_root version) ;;
   if negb found then ret false
   else
     synced <- run_returncode (sync_argv path_join project_root version) ;;
     if negb (synced =? 0) then ret false
     else
       returned <- run_returncode
                     (run_argv path_join project_root output_dir version) ;;
       ret (returned =? 0))%py.

(** The versions taken one after the other, whether or not the earlier
    ones went well. *)
Fixpoint versions_pass (project_root output_dir : string)
    (versions : list string) : M W (list bool) :=
  match versions with
  | [] => ret []
  | version :: rest =>
      (passed <- version_passes project_root output_dir version ;;
       others <- versions_pass project_root output_dir rest ;;
       ret (passed :: others))%py
  end.

End FixtureVocabulary.

Section ProbeVocabulary.

Context {W : Type}.

(** What a points, shapes or table check asks of the element, in order:
    [head(10)] and, for a lazy frame, [compute] of the sample if it has
    one; [len]; [shape] and then [X]. *)
Definition asked (element_type : string) (element : Element (W := W))
    : M W unit :=
  if String.eqb element_type "points" then
    (sample <- el_head element 10 ;;
     if el_has_compute element
     then match s_compute sample with
          | Some compute => compute
          | None => ret tt
          end
     else ret tt)%py
  else if String.eqb element_type "shapes" then
    (_ <- el_len element ;; ret tt)%py
  else
    (el_shape element ;;; el_X element)%py.

(** The subscript with which a level without a chunk grid is probed, and
    whether the sample read is computed: the first 10 items along the
    first two dimensions and item 0 along the others; item 0 of a
    non-empty sequence; item 0 of an object that has no shape but can be
    subscripted.  [None] when nothing is read. *)
Definition probe_request (scale_data : ArrayObj (W := W))
    : outcome (option (list index * bool)) :=
  match a_shape scale_data with
  | Failing e => Raise e
  | Absent =>
      Ok (if a_has_getitem scale_data then Some ([Index 0], false) else None)
  | Present [] => Raise IndexError
  | Present [s0] => Ok (if 0 <? s0 then Some ([Index 0], false) else None)
  | Present (s0 :: s1 :: rest) =>
      Ok (Some (Slice 0 (Z.min 10 s0) :: Slice 0 (Z.min 10 s1)
                :: repeat (Index 0) (length rest), true))
  end.

(** What the probe of a level comes to in world [w]. *)
Definition level_answer (scale_data : ArrayObj (W := W)) (w : W)
    : outcome unit * W :=
  match probe_request scale_data with
  | Raise e => (Raise e, w)
  | Ok None => (Ok tt, w)
  | Ok (Some (region, computed)) =>
      match a_getitem scale_data region w with
      | (Raise e, w1) => (Raise e, w1)
      | (Ok sample, w1) =>
          match s_compute sample with
          | Some compute => if computed : bool then compute w1 else (Ok tt, w1)
          | None => (Ok tt, w1)
          end
      end
  end.

(** The answers of the levels probed one after the other, whatever the
    answers are. *)
Fixpoint level_answers (entries : list (nat * ScaleItem (W := W))) (w : W)
    : list (outcome unit) * W :=
  match entries with
  | [] => ([], w)
  | entry :: rest =>
      let (o, w1) := level_answer (sd_array (level_data entry)) w in
      let (os, w2) := level_answers rest w1 in
      (o :: os, w2)
  end.

(** The errors of the failed probes, each under the name and the path of
    its level. *)
Fixpoint level_errors (element_name : string)
    (entries : list (nat * ScaleItem (W := W)))
    (answers : list (outcome unit)) : list ChunkError :=
  match entries, answers with
  | entry :: entries', Raise e :: answers' =>
      mk_ChunkError (LevelName (level_name entry)) (classify e) (exn_msg e)
        (Some (element_name ++ "/" ++ level_name entry)%string)
        :: level_errors element_name entries' answers'
  | _ :: entries', Ok _ :: answers' =>
      level_errors element_name entries' answers'
  | _, _ => []
  end.

End ProbeVocabulary.

Section TaskVocabulary.

Import ValidateDatasets.

Context {W : Type}.
Variable test_script : string -> string.
Variable subprocess_run : list string -> M W CompletedProcess.
Variable last_line : string -> string.
Variable json_loads : string -> outcome Json.



End TaskVocabulary.

(** * Concrete runs *)

(** The world of the examples counts the requests made to the store. *)

(** A sampler that takes the first [k] items of the population. *)
Definition take_sample (population : list (list Z)) (k : nat)
    : M nat (list (list Z)) :=
  ret (firstn k population).

Definition eager : Sample (W := nat) := mk_Sample None.

Definition read_ok (region : list index) : M nat (Sample (W := nat)) :=
  fun w => (Ok eager, S w).

Definition blosc_failure : exn :=
  mk_exn "RuntimeError" "Blosc decompression failed".

Definition read_fails (e : exn) (region : list index)
    : M nat (Sample (W := nat)) :=
  fun w => (Raise e, S w).

(** A store whose chunks starting at offset 0 of the first dimension are
    corrupt. *)
Definition read_flaky (region : list index) : M nat (Sample (W := nat)) :=
  match region with
  | Slice 0 _ :: _ => read_fails blosc_failure region
  | _ => read_ok region
  end.

Definition flaky_array : ArrayObj (W := nat) :=
  mk_ArrayObj (Present [4]) (Present (Some [2])) true read_flaky.

Definition grid_array : ArrayObj (W := nat) :=
  mk_ArrayObj (Present [100; 100]) (Present (Some [10; 10])) true read_ok.

Definition unchunked_array : ArrayObj (W := nat) :=
  mk_ArrayObj (Present [20; 5; 7]) (Present None) true
              (read_fails blosc_failure).

Definition broken_array : ArrayObj (W := nat) :=
  mk_ArrayObj (Failing (mk_exn "OSError" "cannot read array metadata"))
              (Present (Some [2])) true read_ok.


(** A points element whose [head] fails on a corrupt record batch. *)
Definition corrupt_points : Element (W := nat) :=
  mk_Element Absent true (fun _ w => (Raise blosc_failure, S w))
             (raise (mk_exn "TypeError" "object has no len()"))
             (raise (AttributeError "shape")) (raise (AttributeError "X")).

(** An image whose data is a plain array-like object that reads well. *)
Definition plain_image : Element (W := nat) :=
  mk_Element
    (Present (mk_Data NoLevels
                (mk_ArrayObj (Present [30; 30]) Absent true read_ok)))
    false (fun _ => raise (AttributeError "head"))
    (raise (mk_exn "TypeError" "object has no len()"))
    (raise (AttributeError "shape")) (raise (AttributeError "X")).

Definition missing_store (path : string) : M nat (SpatialData (W := nat)) :=
  raise (mk_exn "FileNotFoundError" "no such store").

Definition no_traceback (e : exn) : string := "".

(** A pool of one worker: the tasks are run one after the other. *)
Fixpoint serial_imap (f : ValidateDatasets.Task
                          -> M nat ValidateDatasets.ValidationResult)
    (tasks : list ValidateDatasets.Task)
    : M nat (list ValidateDatasets.ValidationResult) :=
  match tasks with
  | [] => ret []
  | t :: rest =>
      (r <- f t ;; rs <- serial_imap f rest ;; ret (r :: rs))%py
  end.

(** A pool in one process, which asks for one worker at least. *)
Definition local_pool (processes : Z) : M nat unit :=
  if processes <? 1
  then raise (ValidateDatasets.ValueError
                "Number of processes must be at least 1")
  else ret tt.

(** A subprocess that always runs into its timeout. *)
Definition hanging_subprocess (argv : list string)
    : M nat ValidateDatasets.CompletedProcess :=
  fun w => (Raise (mk_exn "TimeoutExpired" "timed out after 120 seconds"), S w).

Definition no_json (text : string) : outcome ValidateDatasets.Json :=
  Raise (mk_exn "JSONDecodeError" "Expecting value").

Definition two_tasks : list ValidateDatasets.Task :=
  ValidateDatasets.validation_tasks
    [ValidateDatasets.mk_Dataset "MERFISH (Mouse brain)" "merfish.zarr"]
    ["0.5.0"; "0.6.1"] "/repo" false.

Definition grid_coords : list (list Z) := product [py_range 10; py_range 10].

Definition five_coords : list (list Z) := product [py_range 5].

Definition twelve_coords : list (list Z) := product [py_range 12].

(** An array of shape (4, 3) in chunks of (2, 2): the last column of
    chunks is half full, and the chunks at offset 0 of the first dimension
    are corrupt. *)
Definition ragged_array : ArrayObj (W := nat) :=
  mk_ArrayObj (Present [4; 3]) (Present (Some [2; 2])) true read_flaky.

Definition ragged_coords : list (list Z) := product [py_range 2; py_range 2].

Definition zero_chunk_array : ArrayObj (W := nat) :=
  mk_ArrayObj (Present [4; 3]) (Present (Some [2; 0])) true read_ok.

Definition empty_array : ArrayObj (W := nat) :=
  mk_ArrayObj (Present [0; 3]) (Present (Some [2; 2])) true read_ok.

(** A level of a pyramid that shows no store. *)
Definition plain_level (read : list index -> M nat (Sample (W := nat)))
    : ScaleData (W := nat) :=
  mk_ScaleData Absent (mk_ArrayObj (Present [30; 30]) Absent true read).

(** A level whose [store] getter fails. *)
Definition store_failure : exn := mk_exn "OSError" "store is gone".

Definition broken_level : ScaleData (W := nat) :=
  mk_ScaleData (Failing store_failure)
               (mk_ArrayObj (Present [30; 30]) Absent true read_ok).

Definition pyramid (levels : list (ScaleItem (W := nat)))
    : Element (W := nat) :=
  mk_Element
    (Present (mk_Data (ViaValues (Ok levels))
                (mk_ArrayObj (Present [30; 30]) Absent true read_ok)))
    false (fun _ => raise (AttributeError "head"))
    (raise (mk_exn "TypeError" "object has no len()"))
    (raise (AttributeError "shape")) (raise (AttributeError "X")).

Definition two_levels : list (ScaleItem (W := nat)) :=
  [ItemPair "scale0" (plain_level (read_fails blosc_failure));
   ItemPlain (plain_level read_ok)].

(** A container with one image and one corrupt points element. *)
Definition small_container : SpatialData (W := nat) :=
  mk_SpatialData
    (fun element_type =>
       if String.eqb element_type "images"
       then Present (ElementsDict [("img", plain_image)])
       else if String.eqb element_type "points"
       then Present (ElementsDict [("pts", corrupt_points)])
       else Absent).

(** The same container, whose [labels] getter fails. *)
Definition broken_container : SpatialData (W := nat) :=
  mk_SpatialData
    (fun element_type =>
       if String.eqb element_type "labels" then Failing store_failure
       else sdata_attr small_container element_type).

(** A container with one image that reads well. *)
Definition sound_container : SpatialData (W := nat) :=
  mk_SpatialData
    (fun element_type =>
       if String.eqb element_type "images"
       then Present (ElementsDict [("img", plain_image)])
       else Absent).

Definition open_store (path : string) : M nat (SpatialData (W := nat)) :=
  ret sound_container.

(** A subprocess that prints a JSON array. *)
Definition listing_subprocess (argv : list string)
    : M nat ValidateDatasets.CompletedProcess :=
  fun w => (Ok (ValidateDatasets.mk_CompletedProcess "[]" ""), S w).

Definition array_json (text : string) : outcome ValidateDatasets.Json :=
  Ok (ValidateDatasets.JArray []).

(** A file system on which every path exists, and a terminal. *)
Definition any_path_exists (path : string) : M nat bool := ret true.

Definition terminal (text : string) : M nat unit := ret tt.

Definition text_args : Cli.Args :=
  Cli.mk_Args "store.zarr" None false None "text".

Definition json_args : Cli.Args :=
  Cli.mk_Args "store.zarr" None false None "json".

Definition slash_join (a b : string) : string := (a ++ "/" ++ b)%string.

(** Of the two environments only that of 0.6.1 is there. *)
Definition only_second_exists (path : string) : M nat bool :=
  ret (contains "v0.6.1" path).

(** Every subprocess returns 0. *)
Definition run_well (argv : list string) : M nat Z :=
  fun w => (Ok 0, S w).

(** * Properties *)

(** ** The ceiling of a quotient, as the specification words it *)

Lemma ceil_div_is_ceiling (s c : Z) :
  0 < c -> c * (ceil_div s c - 1) < s <= c * ceil_div s c.
Proof.
  intros Hc. unfold ceil_div.
  pose proof (Z.div_mod s c ltac:(lia)) as Hdm.
  pose proof (Z.mod_pos_bound s c Hc) as Hb.
  destruct (Z.eqb_spec (s mod c) 0); nia.
Qed.

Lemma num_chunks_ceil (s c : Z) :
  0 < c -> num_chunks s c = Ok (ceil_div s c).
Proof.
  intros Hc. unfold num_chunks.
  destruct (Z.eqb_spec c 0); [lia|]. f_equal.
  pose proof (ceil_div_is_ceiling s c Hc) as [Hlo Hhi].
  symmetry. apply Z.div_unique with (r := s + c - 1 - c * ceil_div s c); lia.
Qed.

(** ** Ranges and products *)

Lemma In_py_range (n x : Z) : In x (py_range n) <-> 0 <= x < n.
Proof.
  unfold py_range. rewrite in_map_iff. split.
  - intros (k & <- & Hk). apply in_seq in Hk. lia.
  - intros Hx. exists (Z.to_nat x). split; [lia|]. apply in_seq. lia.
Qed.

Lemma length_py_range (n : Z) : length (py_range n) = Z.to_nat n.
Proof. unfold py_range. now rewrite length_map, length_seq. Qed.

Lemma NoDup_py_range (n : Z) : NoDup (py_range n).
Proof.
  unfold py_range. apply Finite.Injective_map_NoDup.
  - intros a b H. lia.
  - apply seq_NoDup.
Qed.

Lemma length_product {A} (ranges : list (list A)) :
  length (product ranges) = fold_right Nat.mul 1%nat (map (@length A) ranges).
Proof.
  induction ranges as [|r rest IH]; simpl; [reflexivity|].
  rewrite <- IH. clear IH.
  induction r as [|x r IHr]; simpl; [reflexivity|].
  now rewrite length_app, length_map, IHr.
Qed.

Lemma In_product {A} (ranges : list (list A)) (c : list A) :
  In c (product ranges) <-> Forall2 (fun x r => In x r) c ranges.
Proof.
  revert c. induction ranges as [|r rest IH]; intros c; simpl.
  - split.
    + intros [<-|[]]. constructor.
    + intros H. inversion H. now left.
  - rewrite in_flat_map. split.
    + intros (x & Hx & Hc). apply in_map_iff in Hc as (c' & <- & Hc').
      constructor; [assumption|]. now apply IH.
    + intros H. inversion H as [|x r' c' rest' Hx Hc']; subst.
      exists x. split; [assumption|]. apply in_map. now apply IH.
Qed.

Lemma NoDup_product {A} (ranges : list (list A)) :
  Forall (@NoDup A) ranges -> NoDup (product ranges).
Proof.
  induction 1 as [|r rest Hr _ IH]; simpl.
  - constructor; [intros []|constructor].
  - induction Hr as [|x r Hx _ IHr]; simpl; [constructor|].
    apply NoDup_app.
    + apply Finite.Injective_map_NoDup; [|assumption].
      intros a b Hab. now inversion Hab.
    + assumption.
    + intros c Hc Hc'. apply in_map_iff in Hc as (c1 & <- & _).
      apply in_flat_map in Hc' as (y & Hy & Hc').
      apply in_map_iff in Hc' as (c2 & Heq & _).
      inversion Heq; subst. contradiction.
Qed.

Lemma chunk_indices_ok (dims : list (Z * Z)) :
  Forall (fun d => snd d <> 0) dims ->
  chunk_indices dims = Ok (map dim_range dims).
Proof.
  induction 1 as [|[s c] rest Hc _ IH]; simpl in *; [reflexivity|].
  unfold num_chunks. destruct (Z.eqb_spec c 0); [contradiction|].
  now rewrite IH.
Qed.

Lemma chunk_indices_inv (dims : list (Z * Z)) (ranges : list (list Z)) :
  chunk_indices dims = Ok ranges -> ranges = map dim_range dims.
Proof.
  revert ranges. induction dims as [|[s c] rest IH]; simpl; intros ranges H.
  - now inversion H.
  - unfold num_chunks in H. destruct (Z.eqb_spec c 0); [discriminate|].
    destruct (chunk_indices rest) as [rs|]; [|discriminate].
    inversion H. f_equal. now apply IH.
Qed.

Lemma all_chunk_coords_inv (shape chunks : list Z) (coords : list (list Z)) :
  all_chunk_coords shape chunks = Ok coords ->
  coords = product (map dim_range (combine shape chunks)).
Proof.
  unfold all_chunk_coords. intros H.
  destruct (chunk_indices (combine shape chunks)) as [rs|] eqn:E;
    [|discriminate].
  apply chunk_indices_inv in E. inversion H. now subst.
Qed.

Lemma dim_range_ceil (d : Z * Z) :
  0 < snd d -> dim_range d = py_range (ceil_div (fst d) (snd d)).
Proof.
  intros Hc. unfold dim_range.
  pose proof (num_chunks_ceil (fst d) (snd d) Hc) as H. unfold num_chunks in H.
  destruct (Z.eqb_spec (snd d) 0); [lia|]. now inversion H.
Qed.

Lemma ceil_div_nonneg (s c : Z) : 0 < s -> 0 < c -> 0 < ceil_div s c.
Proof.
  intros Hs Hc. pose proof (ceil_div_is_ceiling s c Hc). nia.
Qed.

Lemma positive_dims (shape chunks : list Z) :
  Forall (fun s => 0 < s) shape -> Forall (fun c => 0 < c) chunks ->
  Forall (fun d => 0 < fst d /\ 0 < snd d) (combine shape chunks).
Proof.
  intros Hs. revert chunks.
  induction Hs as [|s shape Hs _ IH]; intros chunks Hc.
  - constructor.
  - destruct Hc as [|c chunks Hc Hcs]; simpl; constructor; auto.
Qed.

(** C3. For a shape and a chunk shape of equal length with positive
    entries, the enumeration of lines 134-143 succeeds, the number of chunk
    coordinates is the product over the dimensions of ceil(S[i] / C[i]), and
    the coordinates are exactly the tuples of the Cartesian product of the
    ranges [0, ceil(S[i] / C[i])). *)
Theorem enumerated_count_is_product_of_ceilings (shape chunks : list Z) :
  length shape = length chunks ->
  Forall (fun s => 0 < s) shape ->
  Forall (fun c => 0 < c) chunks ->
  exists coords,
    all_chunk_coords shape chunks = Ok coords /\
    Z.of_nat (length coords) =
      fold_right Z.mul 1
        (map (fun d => ceil_div (fst d) (snd d)) (combine shape chunks)) /\
    forall coord,
      In coord coords <->
      Forall2 (fun x d => 0 <= x < ceil_div (fst d) (snd d))
              coord (combine shape chunks).
Proof.
  intros _ Hs Hc.
  pose proof (positive_dims shape chunks Hs Hc) as Hd.
  unfold all_chunk_coords.
  set (dims := combine shape chunks) in *. clearbody dims.
  exists (product (map dim_range dims)). split; [|split].
  - rewrite chunk_indices_ok; [reflexivity|].
    eapply Forall_impl; [|exact Hd]. simpl. intros d [_ H]. lia.
  - rewrite length_product.
    induction Hd as [|d rest [Hds Hdc] _ IH]; simpl; [reflexivity|].
    rewrite Nat2Z.inj_mul, IH, dim_range_ceil, length_py_range by assumption.
    pose proof (ceil_div_nonneg _ _ Hds Hdc). rewrite Z2Nat.id by lia.
    reflexivity.
  - intros coord. rewrite In_product. revert coord.
    induction Hd as [|d rest [Hds Hdc] _ IH]; intros coord; simpl.
    + split; intros H; inversion H; constructor.
    + split; intros H; inversion H as [|x r c' rs' Hx Hrest]; subst;
        constructor; try (now apply IH).
      * rewrite dim_range_ceil in Hx by assumption. now apply In_py_range.
      * rewrite dim_range_ceil by assumption. now apply In_py_range.
Qed.

(** ** Order of the enumeration *)

Lemma pointwise_le_lex (a b : list Z) :
  Forall2 Z.le a b -> lex_le a b = true.
Proof.
  induction 1 as [|x y a b Hxy _ IH]; simpl; [reflexivity|].
  destruct (Z.ltb_spec x y); [reflexivity|].
  destruct (Z.eqb_spec x y); [assumption|lia].
Qed.

Lemma product_nonempty {A} (ranges : list (list A)) :
  Forall (fun r => r <> []) ranges -> product ranges <> [].
Proof.
  induction 1 as [|r rest Hr _ IH]; simpl; [discriminate|].
  destruct r as [|x r]; [contradiction|]. simpl.
  destruct (product rest); [contradiction|discriminate].
Qed.

Lemma product_empty_range {A} (ranges : list (list A)) :
  Exists (fun r => r = []) ranges -> product ranges = [].
Proof.
  induction 1 as [r rest Hr|r rest _ IH]; simpl.
  - now subst.
  - rewrite IH. clear. induction r; simpl; auto.
Qed.

Lemma hd_product {A} (a : A) (ranges : list (list A)) :
  Forall (fun r => r <> []) ranges ->
  hd [] (product ranges) = map (hd a) ranges.
Proof.
  induction 1 as [|r rest Hr Hrest IH]; simpl; [reflexivity|].
  destruct r as [|x r]; [contradiction|]. simpl.
  pose proof (product_nonempty rest Hrest) as Hne.
  destruct (product rest) as [|c cs]; [contradiction|].
  simpl in *. now rewrite IH.
Qed.

Lemma last_app_nonempty {A} (l1 l2 : list A) (d : A) :
  l2 <> [] -> last (l1 ++ l2) d = last l2 d.
Proof.
  intros Hne. induction l1 as [|x l1 IH]; simpl; [reflexivity|].
  destruct (l1 ++ l2) eqn:E; [|assumption].
  apply app_eq_nil in E as [_ ->]. contradiction.
Qed.

Lemma last_map_cons {A} (x : A) (l : list (list A)) :
  l <> [] -> last (map (cons x) l) [] = x :: last l [].
Proof.
  induction l as [|c l IH]; [contradiction|]. intros _.
  destruct l as [|c' l]; [reflexivity|].
  change (last (map (cons x) (c' :: l)) [] = x :: last (c' :: l) []).
  apply IH. discriminate.
Qed.

Lemma last_product {A} (a : A) (ranges : list (list A)) :
  Forall (fun r => r <> []) ranges ->
  last (product ranges) [] = map (fun r => last r a) ranges.
Proof.
  induction 1 as [|r rest Hr Hrest IH]; simpl; [reflexivity|].
  pose proof (product_nonempty rest Hrest) as Hne.
  destruct (exists_last Hr) as (r0 & x & ->).
  rewrite flat_map_app. simpl. rewrite app_nil_r, (last_last r0 x a).
  rewrite last_app_nonempty.
  - now rewrite last_map_cons, IH.
  - destruct (product rest); [contradiction|discriminate].
Qed.

Lemma hd_py_range (n : Z) : 0 < n -> hd 0 (py_range n) = 0.
Proof.
  intros Hn. unfold py_range.
  destruct (Z.to_nat n) eqn:E; [lia|reflexivity].
Qed.

Lemma last_py_range (n : Z) : 0 < n -> last (py_range n) 0 = n - 1.
Proof.
  intros Hn. unfold py_range.
  destruct (Z.to_nat n) as [|k] eqn:E; [lia|].
  rewrite seq_S, map_app. cbn [map Nat.add]. rewrite last_last. lia.
Qed.

(** In a non-empty enumeration, the first coordinate is the least and the
    last one the greatest tuple. *)
Lemma enumeration_bounds (ns : list Z) (c : list Z) :
  In c (product (map py_range ns)) ->
  lex_le (hd [] (product (map py_range ns))) c = true /\
  lex_le c (last (product (map py_range ns)) []) = true.
Proof.
  intros Hc.
  assert (Hpos : Forall (fun n => 0 < n) ns).
  { apply Forall_forall. intros n Hn.
    destruct (Z.ltb_spec 0 n) as [|Hle]; [assumption|]. exfalso.
    rewrite product_empty_range in Hc; [contradiction|].
    apply Exists_exists. exists (py_range n). split; [now apply in_map|].
    unfold py_range. replace (Z.to_nat n) with 0%nat by lia. reflexivity. }
  assert (Hne : Forall (fun r : list Z => r <> []) (map py_range ns)).
  { apply Forall_forall. intros r Hr. apply in_map_iff in Hr as (n & <- & Hn).
    rewrite Forall_forall in Hpos. specialize (Hpos n Hn).
    intros E. apply (f_equal (@length Z)) in E.
    rewrite length_py_range in E. simpl in E. lia. }
  rewrite (hd_product 0), (last_product 0) by assumption.
  apply In_product in Hc. clear Hne.
  split; apply pointwise_le_lex; revert c Hc;
    induction Hpos as [|n ns Hn _ IH]; intros c Hc;
    inversion Hc as [|x r c' rs Hx Hrest]; subst; simpl; constructor;
    try (now apply IH); apply In_py_range in Hx.
  - rewrite hd_py_range by assumption. lia.
  - rewrite last_py_range by assumption. lia.
Qed.

(** ** Slicing *)

Lemma slice_to_all {A} (m : Z) (l : list A) :
  Z.of_nat (length l) <= m -> slice_to m l = l.
Proof.
  intros H. unfold slice_to. destruct (Z.ltb_spec m 0); [lia|].
  apply firstn_all2. lia.
Qed.

Lemma ends_and_interior {A} (d : A) (l : list A) :
  (2 <= length l)%nat -> l = hd d l :: interior l ++ [last l d].
Proof.
  intros H. destruct l as [|x l]; [simpl in H; lia|].
  destruct l as [|y l]; [simpl in H; lia|].
  unfold interior. simpl hd. simpl tl.
  assert (Hne : y :: l <> []) by discriminate.
  rewrite (app_removelast_last d Hne) at 1.
  change (last (x :: y :: l) d) with (last (y :: l) d). reflexivity.
Qed.

Lemma NoDup_firstn {A} (n : nat) (l : list A) : NoDup l -> NoDup (firstn n l).
Proof.
  intros H. rewrite <- (firstn_skipn n l) in H.
  now apply NoDup_app_remove_r in H.
Qed.

Lemma incl_firstn {A} (n : nat) (l : list A) : incl (firstn n l) l.
Proof.
  intros x Hx. rewrite <- (firstn_skipn n l). apply in_or_app. now left.
Qed.

Lemma NoDup_enumeration (shape chunks : list Z) (coords : list (list Z)) :
  all_chunk_coords shape chunks = Ok coords -> NoDup coords.
Proof.
  intros H. apply all_chunk_coords_inv in H. subst.
  apply NoDup_product, Forall_forall. intros r Hr.
  apply in_map_iff in Hr as (d & <- & _). apply NoDup_py_range.
Qed.

(** What [samples] of lines 149-157 is made of, whatever the interior
    sample: the two ends, then distinct interior coordinates. *)
Lemma ends_then_sample {A} (d : A) (l picked rest : list A) :
  NoDup l -> (2 <= length l)%nat ->
  Permutation (picked ++ rest) (interior l) ->
  NoDup (hd d l :: last l d :: picked) /\
  incl (hd d l :: last l d :: picked) l.
Proof.
  intros Hnd Hlen Hperm.
  pose proof (ends_and_interior d l Hlen) as Hl.
  set (first := hd d l) in *. set (lst := last l d) in *.
  set (mid := interior l) in *. clearbody first lst mid.
  subst l. apply NoDup_cons_iff in Hnd as [Hfirst Hnd].
  assert (Hin : forall x, In x picked -> In x mid).
  { intros x Hx. eapply Permutation_in; [exact Hperm|].
    apply in_or_app. now left. }
  assert (Hmid : NoDup mid) by now apply NoDup_app_remove_r in Hnd.
  assert (Hlast : ~ In lst mid).
  { apply NoDup_remove_2 in Hnd. now rewrite app_nil_r in Hnd. }
  assert (Hpicked : NoDup picked).
  { apply Permutation_sym in Hperm.
    apply (Permutation_NoDup Hperm) in Hmid.
    now apply NoDup_app_remove_r in Hmid. }
  split.
  - constructor.
    + intros [E|Hx].
      * apply Hfirst. apply in_or_app. right. now left.
      * apply Hfirst. apply in_or_app. left. now apply Hin.
    + constructor; [|assumption]. intros Hx. now apply Hlast, Hin.
  - intros x [<-|[<-|Hx]].
    + now left.
    + right. apply in_or_app. right. now left.
    + right. apply in_or_app. left. now apply Hin.
Qed.

Lemma length_interior {A} (l : list A) :
  (2 <= length l)%nat -> length (interior l) = (length l - 2)%nat.
Proof.
  intros H. destruct l as [|d l]; [simpl in H; lia|].
  pose proof (ends_and_interior d (d :: l) H) as E.
  apply (f_equal (@length A)) in E. simpl in E.
  rewrite length_app in E. simpl in *. lia.
Qed.

(** Symbolic runs of the monadic code: the operations are unfolded and
    the answers of the store are split into their cases. *)
Ltac is_run c :=
  lazymatch c with
  | a_getitem _ _ _ => idtac
  | el_head _ _ _ => idtac
  | el_len _ _ => idtac
  | el_shape _ _ => idtac
  | el_X _ _ => idtac
  | select_chunks _ _ _ _ _ => idtac
  | ?f _ => is_var f
  end.

Ltac run_step :=
  match goal with
  | |- context [match ?c with pair _ _ => _ end] =>
      is_run c;
      let o := fresh "o" in let w := fresh "w" in
      destruct c as [[o|o] w]
  | |- context [s_compute ?x] => destruct (s_compute x)
  end.

Ltac run :=
  repeat (cbv beta iota zeta delta
            [touch_first force hasattr getattr bind ret raise try_catch
             in_world lift_outcome add_checked set_checked set_warning
             append_error extend_errors modify];
          cbn [st_world st_errors st_chunks_checked st_warning fst snd];
          try run_step).

Section ScannerFacts.

Context {W : Type}.
Variable random_sample : list (list Z) -> nat -> M W (list (list Z)).
Variable read_zarr : string -> M W (SpatialData (W := W)).
Variable format_exc : exn -> string.

(** C9, amended. The budget is fixed at 10 (lines 145-154) and
    [max_chunks_to_check] only truncates (line 163).  A coordinate set of
    at most 10 members is selected whole and in its order, in either mode,
    without a cap or under a cap of at least its size; selecting again
    from the selection changes nothing. *)
Theorem small_sets_are_selected_whole (sample_chunks : bool)
    (max_chunks_to_check : option Z) (coords : list (list Z)) (w : W) :
  (length coords <= 10)%nat ->
  (forall m, max_chunks_to_check = Some m -> Z.of_nat (length coords) <= m) ->
  select_chunks random_sample sample_chunks max_chunks_to_check coords w
    = (Ok coords, w) /\
  bind (select_chunks random_sample sample_chunks max_chunks_to_check coords)
       (select_chunks random_sample sample_chunks max_chunks_to_check) w
    = (Ok coords, w).
Proof.
  intros Hn Hmax.
  assert (E : select_chunks random_sample sample_chunks max_chunks_to_check
                coords w = (Ok coords, w)).
  { unfold select_chunks, bind.
    replace (Nat.ltb 10 (length coords)) with false
      by (symmetry; apply Nat.ltb_ge; lia).
    rewrite andb_false_r. unfold ret.
    destruct max_chunks_to_check as [m|]; [|reflexivity].
    now rewrite slice_to_all by (apply Hmax; reflexivity). }
  split; [exact E|]. unfold bind at 1. now rewrite E.
Qed.

(** C2, amended. The sampling budget is fixed at 10.  For an enumerated
    coordinate set of more than 10 members, sampling mode with a cap [b]
    between 2 and 10 ([b] = 10 without a cap) selects exactly [b]
    coordinates, among them the first and the last of the enumeration,
    which are its least and greatest tuples, without duplicates and all
    from the enumeration. *)
Theorem sampled_selection_keeps_both_ends (shape chunks : list Z)
    (coords : list (list Z)) (max_chunks_to_check : option Z) (w : W) :
  sample_contract random_sample ->
  all_chunk_coords shape chunks = Ok coords ->
  (10 < length coords)%nat ->
  (forall m, max_chunks_to_check = Some m -> 2 <= m <= 10) ->
  exists selected w',
    select_chunks random_sample true max_chunks_to_check coords w
      = (Ok selected, w') /\
    In (hd [] coords) selected /\
    In (last coords []) selected /\
    (forall c, In c coords ->
       lex_le (hd [] coords) c = true /\ lex_le c (last coords []) = true) /\
    length selected = match max_chunks_to_check with
                      | Some m => Z.to_nat m
                      | None => 10%nat
                      end /\
    NoDup selected /\
    incl selected coords.
Proof.
  intros Hsample Hcoords Hn Hmax.
  pose proof (NoDup_enumeration _ _ _ Hcoords) as Hnd.
  assert (Hbounds : forall c, In c coords ->
            lex_le (hd [] coords) c = true /\ lex_le c (last coords []) = true).
  { apply all_chunk_coords_inv in Hcoords. subst coords.
    unfold dim_range. rewrite <- map_map with (g := py_range).
    intros c. apply enumeration_bounds. }
  destruct (Hsample (interior coords) (Nat.min 8 (length coords - 2)) w)
    as (picked & w' & Erun & Hlen & rest & Hperm).
  { rewrite length_interior by lia. lia. }
  destruct (ends_then_sample [] coords picked rest Hnd ltac:(lia) Hperm)
    as [Hnd' Hincl].
  assert (Esel : select_chunks random_sample true None coords w
                 = (Ok (hd [] coords :: last coords [] :: picked), w')).
  { unfold select_chunks, bind.
    replace (Nat.ltb 10 (length coords)) with true
      by (symmetry; apply Nat.ltb_lt; lia).
    replace (Nat.ltb 2 (length coords)) with true
      by (symmetry; apply Nat.ltb_lt; lia).
    cbn [andb]. rewrite Erun. reflexivity. }
  replace (Nat.min 8 (length coords - 2)) with 8%nat in Hlen by lia.
  destruct max_chunks_to_check as [m|].
  - specialize (Hmax m eq_refl).
    exists (firstn (Z.to_nat m) (hd [] coords :: last coords [] :: picked)), w'.
    assert (Em : exists k, Z.to_nat m = S (S k))
      by (exists (Z.to_nat m - 2)%nat; lia).
    destruct Em as (k & Em).
    split; [|split; [|split; [|split; [|split; [|split]]]]].
    + unfold select_chunks, bind in *.
      destruct (if (true && Nat.ltb 10 (length coords))%bool then _ else _)
        as [[sel|e] w1]; inversion Esel; subst.
      unfold ret, slice_to. destruct (Z.ltb_spec m 0); [lia|]. reflexivity.
    + rewrite Em. simpl. now left.
    + rewrite Em. simpl. right. now left.
    + exact Hbounds.
    + rewrite length_firstn. simpl. lia.
    + now apply NoDup_firstn.
    + intros x Hx. apply Hincl. eapply incl_firstn. exact Hx.
  - exists (hd [] coords :: last coords [] :: picked), w'.
    split; [exact Esel|]. split; [now left|]. split; [right; now left|].
    split; [exact Hbounds|]. split; [simpl; lia|]. split; assumption.
Qed.

(** ** The chunk loop *)

Lemma length_attempts (array : ArrayObj (W := W))
    (regions : list (list index)) (w : W) :
  length (fst (attempts array regions w)) = length regions.
Proof.
  revert w. induction regions as [|r rest IH]; intros w; simpl; [reflexivity|].
  destruct (a_getitem array r w) as [o w1]. specialize (IH w1).
  destruct (attempts array rest w1) as [os w2]. simpl in *. now rewrite IH.
Qed.

Lemma length_chunk_errors (array_path : option string) (coords : list (list Z))
    (answers : list (outcome (Sample (W := W)))) :
  (length (chunk_errors array_path coords answers) <= length coords)%nat.
Proof.
  revert answers. induction coords as [|c coords IH]; intros answers; simpl.
  - lia.
  - destruct answers as [|[smp|e] answers]; simpl; try lia;
      specialize (IH answers); lia.
Qed.

Lemma chunk_loop (array : ArrayObj (W := W)) (shape chunks : list Z)
    (array_path : option string) (selected : list (list Z))
    (s : Scan (W := W)) :
  for_each selected (check_chunk array shape chunks array_path) s =
  (Ok tt,
   mk_Scan
     (snd (attempts array
             (map (fun c => chunk_slices c shape chunks) selected)
             (st_world s)))
     (st_errors s ++
        chunk_errors array_path selected
          (fst (attempts array
                  (map (fun c => chunk_slices c shape chunks) selected)
                  (st_world s))))
     (st_chunks_checked s + length selected)
     (st_warning s)).
Proof.
  revert s. induction selected as [|c rest IH]; intros s; simpl.
  - unfold ret. rewrite app_nil_r, Nat.add_0_r. now destruct s.
  - unfold bind at 1. unfold check_chunk, try_catch, bind, in_world.
    destruct (a_getitem array (chunk_slices c shape chunks) (st_world s))
      as [[smp|e] w1]; simpl; rewrite IH; simpl;
      destruct (attempts array _ w1) as [os w2]; simpl;
      rewrite <- ?app_assoc; simpl; f_equal; f_equal; lia.
Qed.

(** ** check_zarr_array *)

Lemma check_zarr_array_returns (array : ArrayObj (W := W))
    (sample_chunks : bool)
    (max_chunks_to_check : option Z) (array_path : option string) (w : W) :
  exists r w',
    check_zarr_array random_sample array sample_chunks max_chunks_to_check
                     array_path w = (Ok r, w').
Proof.
  unfold check_zarr_array, try_catch.
  destruct (check_zarr_array_body _ _ _ _ _ _) as [[u|e] s]; simpl; eauto.
Qed.

(** The run of the chunked branch, once the selection is known. *)
Lemma check_zarr_array_chunked (array : ArrayObj (W := W))
    (sample_chunks : bool)
    (max_chunks_to_check : option Z) (array_path : option string) (w w1 : W)
    (shape chunks : list Z) (coords selected : list (list Z)) :
  a_shape array = Present shape ->
  a_chunks array = Present (Some chunks) ->
  all_chunk_coords shape chunks = Ok coords ->
  select_chunks random_sample sample_chunks max_chunks_to_check coords w
    = (Ok selected, w1) ->
  let regions := map (fun c => chunk_slices c shape chunks) selected in
  let errs :=
    chunk_errors array_path selected (fst (attempts array regions w1)) in
  check_zarr_array random_sample array sample_chunks max_chunks_to_check
                   array_path w
  = (Ok (mk_ElementResult "array" (path_or_unknown array_path) (is_nil errs)
                          (length selected) errs None),
     snd (attempts array regions w1)).
Proof.
  intros Hshape Hchunks Hcoords Hsel regions errs.
  unfold check_zarr_array, try_catch, check_zarr_array_body.
  rewrite Hshape, Hchunks. unfold getattr, bind at 1, ret.
  unfold bind at 1. unfold bind at 1. rewrite Hcoords. unfold lift_outcome.
  unfold bind at 1. unfold in_world. simpl st_world. rewrite Hsel.
  rewrite chunk_loop. reflexivity.
Qed.

(** C5. [check_zarr_array] returns an ElementResult on every input and in
    every world.  On a chunked array every selected chunk is read, in
    order and whatever the earlier reads answered; the result counts all
    of them as checked and holds one ChunkError, under the chunk's own
    coordinate, for each read that failed. *)
Theorem chunk_failures_are_isolated (array : ArrayObj (W := W))
    (sample_chunks : bool)
    (max_chunks_to_check : option Z) (array_path : option string) (w : W) :
  (exists r w',
     check_zarr_array random_sample array sample_chunks max_chunks_to_check
                      array_path w = (Ok r, w')) /\
  (forall shape chunks coords selected w1,
     a_shape array = Present shape ->
     a_chunks array = Present (Some chunks) ->
     all_chunk_coords shape chunks = Ok coords ->
     select_chunks random_sample sample_chunks max_chunks_to_check coords w
       = (Ok selected, w1) ->
     let regions := map (fun c => chunk_slices c shape chunks) selected in
     exists r,
       check_zarr_array random_sample array sample_chunks max_chunks_to_check
                        array_path w
         = (Ok r, snd (attempts array regions w1)) /\
       length (fst (attempts array regions w1)) = length selected /\
       chunks_checked r = length selected /\
       errors r = chunk_errors array_path selected
                    (fst (attempts array regions w1)) /\
       is_valid r = is_nil (errors r)).
Proof.
  split; [apply check_zarr_array_returns|].
  intros shape chunks coords selected w1 Hshape Hchunks Hcoords Hsel regions.
  eexists. split; [|split; [|split; [|split]]].
  - now apply (check_zarr_array_chunked _ _ _ _ _ _ _ _ _ _
                 Hshape Hchunks Hcoords Hsel).
  - unfold regions. now rewrite length_attempts, length_map.
  - reflexivity.
  - reflexivity.
  - reflexivity.
Qed.

Lemma check_zarr_array_unchunked (array : ArrayObj (W := W))
    (sample_chunks : bool)
    (max_chunks_to_check : option Z) (array_path : option string) (w : W)
    (shape : list Z) :
  a_shape array = Present shape ->
  a_chunks array = Present None ->
  let probe := a_getitem array (map (fun s => Slice 0 (Z.min 10 s)) shape) w in
  let errs := match fst probe with
              | Ok _ => []
              | Raise e => [probe_error shape array_path e]
              end in
  check_zarr_array random_sample array sample_chunks max_chunks_to_check
                   array_path w
  = (Ok (mk_ElementResult "array" (path_or_unknown array_path) (is_nil errs)
                          1 errs None),
     snd probe).
Proof.
  intros Hshape Hchunks probe errs.
  unfold check_zarr_array, try_catch, check_zarr_array_body.
  rewrite Hshape, Hchunks. unfold getattr, bind at 1, ret.
  unfold bind at 1. unfold check_unchunked, try_catch, bind, in_world.
  simpl st_world. rewrite map_map. subst errs probe.
  destruct (a_getitem array _ w) as [[smp|e] w1]; reflexivity.
Qed.

(** C8. An array whose [chunks] is None is probed by one read, of the
    region [0, min(10, dim)) along every dimension, so along the first two;
    nothing else is asked of the store, and the result counts exactly one
    chunk checked whether that read succeeds or fails. *)
Theorem unchunked_array_is_probed_once (array : ArrayObj (W := W))
    (sample_chunks : bool)
    (max_chunks_to_check : option Z) (array_path : option string) (w : W)
    (shape : list Z) :
  a_shape array = Present shape ->
  a_chunks array = Present None ->
  let region := map (fun s => Slice 0 (Z.min 10 s)) shape in
  (forall i dim, (i < 2)%nat -> nth_error shape i = Some dim ->
     nth_error region i = Some (Slice 0 (Z.min 10 dim))) /\
  exists r,
    check_zarr_array random_sample array sample_chunks max_chunks_to_check
                     array_path w
      = (Ok r, snd (a_getitem array region w)) /\
    chunks_checked r = 1%nat /\
    errors r = match fst (a_getitem array region w) with
               | Ok _ => []
               | Raise e => [probe_error shape array_path e]
               end.
Proof.
  intros Hshape Hchunks region. split.
  - intros i dim _ Hi. unfold region. rewrite nth_error_map, Hi. reflexivity.
  - eexists. split; [|split].
    + now apply check_zarr_array_unchunked.
    + reflexivity.
    + reflexivity.
Qed.

(** ** Accounting of the probes *)

Lemma probe_level_counts (a : ArrayObj (W := W)) (s : Scan (W := W)) :
  match probe_level a s with
  | (Ok _, s') => one_more s s'
  | (Raise _, s') => same_counts s s'
  end.
Proof.
  unfold probe_level, one_more, same_counts.
  destruct (a_shape a) as [|e|shape]; run; auto.
  - destruct (a_has_getitem a); run; auto.
  - destruct (Nat.leb 2 (length shape)); run; auto.
    destruct shape as [|s0 ?]; [|destruct (0 <? s0)]; run; auto.
Qed.

Lemma probe_array_like_counts (a : ArrayObj (W := W)) (s : Scan (W := W)) :
  match probe_array_like a s with
  | (Ok _, s') =>
      match a_shape a with
      | Absent =>
          st_errors s' = st_errors s /\
          st_chunks_checked s' = st_chunks_checked s /\
          st_world s' = st_world s /\
          st_warning s' =
            Some "Could not determine array structure - no shape attribute"
      | _ => one_more s s'
      end
  | (Raise _, s') => same_counts s s'
  end.
Proof.
  unfold probe_array_like, one_more, same_counts.
  destruct (a_shape a) as [|e|shape]; run; auto.
  destruct (Nat.leb 2 (length shape)); run; auto.
  destruct shape as [|s0 ?]; [|destruct (0 <? s0)]; run; auto.
Qed.

(** ** When the metadata can be read *)

Lemma select_chunks_returns (sample_chunks : bool)
    (max_chunks_to_check : option Z) (coords : list (list Z)) (w : W) :
  sample_contract random_sample ->
  exists selected w1,
    select_chunks random_sample sample_chunks max_chunks_to_check coords w
      = (Ok selected, w1).
Proof.
  intros Hsample. unfold select_chunks, bind, ret.
  destruct (sample_chunks && Nat.ltb 10 (length coords))%bool eqn:E.
  - apply andb_prop in E as [_ E]. apply Nat.ltb_lt in E.
    replace (Nat.ltb 2 (length coords)) with true
      by (symmetry; apply Nat.ltb_lt; lia).
    destruct (Hsample (interior coords) (Nat.min 8 (length coords - 2)) w)
      as (picked & w' & -> & _).
    { rewrite length_interior by lia. lia. }
    destruct max_chunks_to_check; eauto.
  - destruct max_chunks_to_check; eauto.
Qed.

Lemma zarr_counts (array : ArrayObj (W := W))
    (sample_chunks : bool)
    (max_chunks_to_check : option Z) (array_path : option string) (w : W) :
  sample_contract random_sample ->
  metadata_ok array = true ->
  exists r w',
    check_zarr_array random_sample array sample_chunks max_chunks_to_check
                     array_path w = (Ok r, w') /\
    (length (errors r) <= chunks_checked r)%nat.
Proof.
  intros Hsample Hok. unfold metadata_ok in Hok.
  destruct (a_shape array) as [| |shape] eqn:Hshape; try discriminate.
  destruct (a_chunks array) as [| |[chunks|]] eqn:Hchunks; try discriminate.
  - destruct (all_chunk_coords shape chunks) as [coords|] eqn:Hcoords;
      [|discriminate].
    destruct (select_chunks_returns sample_chunks max_chunks_to_check coords w
                Hsample) as (selected & w1 & Hsel).
    pose proof (check_zarr_array_chunked array sample_chunks
                  max_chunks_to_check array_path w w1 shape chunks coords
                  selected Hshape Hchunks Hcoords Hsel) as E.
    cbv zeta in E. rewrite E. eexists. eexists. split; [reflexivity|].
    simpl. apply length_chunk_errors.
  - pose proof (check_zarr_array_unchunked array sample_chunks
                  max_chunks_to_check array_path w shape Hshape Hchunks) as E.
    cbv zeta in E. rewrite E. eexists. eexists. split; [reflexivity|].
    simpl. destruct (fst _); simpl; lia.
Qed.

Lemma zarr_metadata_failure (array : ArrayObj (W := W))
    (sample_chunks : bool)
    (max_chunks_to_check : option Z) (array_path : option string) (w : W) :
  metadata_ok array = false ->
  exists r,
    check_zarr_array random_sample array sample_chunks max_chunks_to_check
                     array_path w = (Ok r, w) /\
    chunks_checked r = 0%nat /\ length (errors r) = 1%nat /\
    is_valid r = false.
Proof.
  intros Hbad. unfold metadata_ok in Hbad.
  unfold check_zarr_array, check_zarr_array_body, metadata_error, init_scan.
  destruct (a_shape array) as [|e|shape];
    [run; eexists; split; [reflexivity|auto].. |].
  destruct (a_chunks array) as [|e|[chunks|]];
    [run; eexists; split; [reflexivity|auto].. | |discriminate].
  run. destruct (all_chunk_coords shape chunks) as [coords|e]; [discriminate|].
  run. eexists; split; [reflexivity|auto].
Qed.

Lemma accounted_refl (s : Scan (W := W)) : accounted s s.
Proof. exists [], 0%nat. rewrite app_nil_r, Nat.add_0_r. auto. Qed.

Lemma accounted_trans (s1 s2 s3 : Scan (W := W)) :
  accounted s1 s2 -> accounted s2 s3 -> accounted s1 s3.
Proof.
  intros (e1 & k1 & H1 & H1' & H1'') (e2 & k2 & H2 & H2' & H2'').
  exists (e1 ++ e2), (k1 + k2)%nat. rewrite H2, H1, H2', H1', length_app.
  rewrite <- app_assoc. repeat split; lia.
Qed.

Lemma for_each_ok {A} (R : Scan -> Scan -> Prop) (xs : list A)
    (body : A -> M (Scan (W := W)) unit) :
  (forall s, R s s) ->
  (forall s1 s2 s3, R s1 s2 -> R s2 s3 -> R s1 s3) ->
  (forall x s, In x xs -> exists s', body x s = (Ok tt, s') /\ R s s') ->
  forall s, exists s', for_each xs body s = (Ok tt, s') /\ R s s'.
Proof.
  intros Hrefl Htrans. induction xs as [|x xs IH]; intros Hbody s; simpl.
  - exists s. split; [reflexivity|apply Hrefl].
  - destruct (Hbody x s (or_introl eq_refl)) as (s1 & E1 & R1).
    destruct (IH (fun y s0 Hy => Hbody y s0 (or_intror Hy)) s1)
      as (s2 & E2 & R2).
    exists s2. unfold bind. rewrite E1. split; [exact E2|eauto].
Qed.

Lemma fallback_accounted (element_name scale_name : string)
    (a : ArrayObj (W := W))
    (s : Scan (W := W)) :
  exists s',
    check_level_fallback element_name scale_name a s = (Ok tt, s') /\
    accounted s s' /\ st_warning s' = st_warning s.
Proof.
  unfold check_level_fallback, try_catch.
  pose proof (probe_level_counts a s) as H.
  destruct (probe_level a s) as [[[]|e] s1].
  - destruct H as (He & Hk & Hw). eexists. split; [reflexivity|]. split; auto.
    exists [], 1%nat. rewrite app_nil_r. auto.
  - destruct H as (He & Hk & Hw). run. eexists. split; [reflexivity|].
    split; auto.
    eexists [_], 1%nat. cbn [st_errors st_chunks_checked].
    rewrite He, Hk. auto.
Qed.

Lemma nested_zarr_accounted (array : ArrayObj (W := W)) (array_path : string)
    (s : Scan (W := W)) :
  sample_contract random_sample ->
  metadata_ok array = true ->
  exists s',
    check_as_zarr random_sample array array_path s = (Ok tt, s') /\
    accounted s s' /\ st_warning s' = st_warning s.
Proof.
  intros Hsample Hok.
  destruct (zarr_counts array true None (Some array_path) (st_world s)
              Hsample Hok) as (r & w' & E & Hle).
  unfold check_as_zarr, bind at 1. unfold in_world. rewrite E. run.
  eexists. split; [reflexivity|]. split; [|reflexivity].
  exists (errors r), (chunks_checked r). auto.
Qed.

Lemma check_level_accounted (element_name : string)
    (entry : nat * ScaleItem (W := W))
    (s : Scan (W := W)) :
  sample_contract random_sample ->
  level_ok (level_data entry) = true ->
  exists s',
    check_level random_sample element_name entry s = (Ok tt, s') /\
    accounted s s' /\ st_warning s' = st_warning s.
Proof.
  intros Hsample Hok. unfold level_ok, level_zarr in Hok.
  unfold check_level, underlying_zarr.
  destruct (sd_store (level_data entry)) as [|e|[|e|[z|]]];
    try discriminate; run; try apply fallback_accounted.
  destruct (a_chunks z) as [|e|c] eqn:Hc; try discriminate; run.
  - apply fallback_accounted.
  - now apply nested_zarr_accounted.
Qed.





Lemma array_like_accounted (data : ArrayObj (W := W)) (element_name : string)
    (s : Scan (W := W)) :
  exists s',
    check_array_like data element_name s = (Ok tt, s') /\ accounted s s'.
Proof.
  unfold check_array_like, try_catch.
  pose proof (probe_array_like_counts data s) as H.
  destruct (probe_array_like data s) as [[[]|e] s1].
  - eexists. split; [reflexivity|].
    destruct (a_shape data).
    + destruct H as (He & Hk & _). exists [], 0%nat.
      rewrite app_nil_r, Nat.add_0_r. auto.
    + destruct H as (He & Hk & _). exists [], 1%nat. rewrite app_nil_r. auto.
    + destruct H as (He & Hk & _). exists [], 1%nat. rewrite app_nil_r. auto.
  - destruct H as (He & Hk & Hw). run. eexists. split; [reflexivity|].
    eexists [_], 1%nat. cbn [st_errors st_chunks_checked].
    rewrite He, Hk. auto.
Qed.



Lemma image_like_accounted (element : Element (W := W)) (element_name : string)
    (s : Scan (W := W)) :
  sample_contract random_sample ->
  introspection_ok "images" element = true ->
  exists s',
    check_image_like random_sample element element_name s = (Ok tt, s') /\
    accounted s s'.
Proof.
  intros Hsample Hok. unfold introspection_ok in Hok. simpl in Hok.
  unfold check_image_like.
  destruct (el_data element) as [|e|data]; try discriminate; run.
  - eexists. split; [reflexivity|]. exists [], 0%nat.
    cbn [st_errors st_chunks_checked]. rewrite app_nil_r, Nat.add_0_r. auto.
  - unfold data_ok in Hok.
    assert (Hplain :
      match a_chunks (d_array data) with
      | Failing _ => false
      | Absent => true
      | Present _ => metadata_ok (d_array data)
      end = true ->
      exists s',
        bind (hasattr (a_chunks (d_array data)))
             (fun has_chunks : bool =>
                if has_chunks
                then check_as_zarr random_sample (d_array data) element_name
                else check_array_like (d_array data) element_name) s
        = (Ok tt, s') /\ accounted s s').
    { intros H. destruct (a_chunks (d_array data)); try discriminate; run.
      - apply array_like_accounted.
      - destruct (nested_zarr_accounted (d_array data) element_name s
                    Hsample H) as (s' & E & Ha & _). eauto. }
    destruct (scale_levels data) as [[|item items]|]; try (now apply Hplain).
    apply for_each_ok.
    + apply accounted_refl.
    + apply accounted_trans.
    + intros entry s0 Hentry.
      rewrite forallb_forall in Hok. specialize (Hok entry Hentry).
      destruct (check_level_accounted element_name entry s0 Hsample Hok)
        as (s' & E & Ha & _). eauto.
Qed.


(** The probes of points, shapes and tables, run on fresh locals. *)
Lemma plain_probe_counts (probe : M (Scan (W := W)) unit)
    (element_name : string) (w : W) :
  (forall s, match probe s with
             | (Ok _, s') =>
                 st_errors s' = st_errors s /\ st_chunks_checked s' = 1%nat /\
                 st_warning s' = st_warning s
             | (Raise _, s') => same_counts s s'
             end) ->
  exists s',
    try_catch probe (record_probe_failure element_name) (init_scan w)
      = (Ok tt, s') /\
    (length (st_errors s') <= st_chunks_checked s')%nat /\
    st_chunks_checked s' = 1%nat /\
    st_warning s' = None.
Proof.
  intros H. specialize (H (init_scan w)). unfold try_catch.
  destruct (probe (init_scan w)) as [[[]|e] s1].
  - destruct H as (He & Hk & Hw). eexists. split; [reflexivity|].
    rewrite He, Hk, Hw. simpl. auto.
  - destruct H as (He & Hk & Hw). unfold record_probe_failure. run.
    eexists. split; [reflexivity|].
    cbn [st_errors st_chunks_checked st_warning].
    rewrite He, Hw. simpl. auto.
Qed.

Lemma probe_points_counts (element : Element (W := W)) (s : Scan (W := W)) :
  match probe_points element s with
  | (Ok _, s') =>
      st_errors s' = st_errors s /\ st_chunks_checked s' = 1%nat /\
      st_warning s' = st_warning s
  | (Raise _, s') => same_counts s s'
  end.
Proof.
  unfold probe_points, same_counts.
  destruct (el_has_compute element); run; auto.
Qed.

Lemma probe_shapes_counts (element : Element (W := W)) (s : Scan (W := W)) :
  match probe_shapes element s with
  | (Ok _, s') =>
      st_errors s' = st_errors s /\ st_chunks_checked s' = 1%nat /\
      st_warning s' = st_warning s
  | (Raise _, s') => same_counts s s'
  end.
Proof. unfold probe_shapes, same_counts. run; auto. Qed.

Lemma probe_tables_counts (element : Element (W := W)) (s : Scan (W := W)) :
  match probe_tables element s with
  | (Ok _, s') =>
      st_errors s' = st_errors s /\ st_chunks_checked s' = 1%nat /\
      st_warning s' = st_warning s
  | (Raise _, s') => same_counts s s'
  end.
Proof. unfold probe_tables, same_counts. run; auto. Qed.

(** ** check_spatialdata_element *)

Lemma element_body_accounted (element : Element (W := W))
    (element_type element_name : string) (w : W) :
  sample_contract random_sample ->
  introspection_ok element_type element = true ->
  exists s',
    check_spatialdata_element_body random_sample element element_type
                                   element_name (init_scan w) = (Ok tt, s') /\
    (length (st_errors s') <= st_chunks_checked s')%nat.
Proof.
  intros Hsample Hok. unfold check_spatialdata_element_body.
  unfold introspection_ok in Hok.
  destruct (String.eqb element_type "images"
            || String.eqb element_type "labels")%bool.
  - destruct (image_like_accounted element element_name (init_scan w) Hsample)
      as (s' & E & errs & k & He & Hk & Hle); [exact Hok|].
    exists s'. split; [exact E|]. rewrite He, Hk. simpl. lia.
  - destruct (String.eqb element_type "points").
    { destruct (plain_probe_counts (probe_points element) element_name w
                  (probe_points_counts element)) as (s' & E & H & _).
      eauto. }
    destruct (String.eqb element_type "shapes").
    { destruct (plain_probe_counts (probe_shapes element) element_name w
                  (probe_shapes_counts element)) as (s' & E & H & _).
      eauto. }
    destruct (String.eqb element_type "tables").
    { destruct (plain_probe_counts (probe_tables element) element_name w
                  (probe_tables_counts element)) as (s' & E & H & _).
      eauto. }
    eexists. split; [reflexivity|]. simpl. lia.
Qed.


Lemma check_spatialdata_element_returns (element : Element (W := W))
    (element_type element_name : string) (verbose : bool) (w : W) :
  exists r w',
    check_spatialdata_element random_sample element element_type element_name
                              verbose w = (Ok r, w').
Proof.
  unfold check_spatialdata_element, try_catch.
  destruct (check_spatialdata_element_body _ _ _ _ _) as [[u|e] s]; simpl;
    eauto.
Qed.

(** C1, amended. When nothing fails outside a chunk or probe read (the
    shape and chunk shape of every array checked can be read, no chunk size
    is zero, no attribute getter fails), [chunks_checked] is at least the
    number of errors, for [check_zarr_array] and for
    [check_spatialdata_element].  When the metadata of the array cannot be
    read, [check_zarr_array] records the failure as its one error and has
    checked no chunk. *)
Theorem checked_count_bounds_errors_when_metadata_reads :
  sample_contract random_sample ->
  (forall array sample_chunks max_chunks_to_check array_path w,
     exists r w',
       check_zarr_array random_sample array sample_chunks max_chunks_to_check
                        array_path w = (Ok r, w') /\
       (metadata_ok array = true ->
        (length (errors r) <= chunks_checked r)%nat) /\
       (metadata_ok array = false ->
        chunks_checked r = 0%nat /\ length (errors r) = 1%nat)) /\
  (forall element element_type element_name verbose w,
     introspection_ok element_type element = true ->
     exists r w',
       check_spatialdata_element random_sample element element_type
                                 element_name verbose w = (Ok r, w') /\
       (length (errors r) <= chunks_checked r)%nat).
Proof.
  intros Hsample. split.
  - intros array sample_chunks max_chunks_to_check array_path w.
    destruct (metadata_ok array) eqn:Hok.
    + destruct (zarr_counts array sample_chunks max_chunks_to_check array_path
                  w Hsample Hok) as (r & w' & E & Hle).
      exists r, w'. split; [exact E|]. split; [auto|discriminate].
    + destruct (zarr_metadata_failure array sample_chunks max_chunks_to_check
                  array_path w Hok) as (r & E & Hk & He & _).
      exists r, w. split; [exact E|]. split; [discriminate|auto].
  - intros element element_type element_name verbose w Hok.
    destruct (element_body_accounted element element_type element_name w
                Hsample Hok) as (s' & E & Hle).
    unfold check_spatialdata_element, try_catch. rewrite E.
    eexists. eexists. split; [reflexivity|]. exact Hle.
Qed.


(** ** Classification of the recorded failures *)

Lemma classify_by_message (e : exn) : kind_by_message e (classify e).
Proof.
  unfold kind_by_message, classify, mentions.
  destruct (contains "blosc" (lower (exn_msg e)));
    destruct (contains "decompression" (lower (exn_msg e))); simpl;
    split; try reflexivity; try discriminate; intros [H|H]; discriminate.
Qed.

(** C4, amended. A failed read of a selected chunk, and a failed fallback
    probe of a pyramid level, are recorded with the decompression kind when
    the message mentions "blosc" or "decompression" in any letter case, and
    with the exception's type name otherwise.  A failed probe of a plain
    array-like data object is recorded with the decompression kind when
    the message mentions "blosc", and with the type name when it mentions
    neither word.  A failed probe of a points, shapes or table element is
    recorded with the type name. *)
Theorem failures_are_classified_by_message :
  (forall (array : ArrayObj (W := W)) shape chunks array_path chunk_coords
          s e w',
     a_getitem array (chunk_slices chunk_coords shape chunks) (st_world s)
       = (Raise e, w') ->
     exists err,
       check_chunk array shape chunks array_path chunk_coords s
         = (Ok tt, mk_Scan w' (st_errors s ++ [err])
                           (st_chunks_checked s + 1) (st_warning s)) /\
       chunk_index err = Coords chunk_coords /\
       error_message err = exn_msg e /\
       kind_by_message e (error_type err)) /\
  (forall element_name scale_name (scale_data : ArrayObj (W := W)) s e s1,
     probe_level scale_data s = (Raise e, s1) ->
     exists err,
       check_level_fallback element_name scale_name scale_data s
         = (Ok tt, mk_Scan (st_world s1) (st_errors s1 ++ [err])
                           (st_chunks_checked s1 + 1) (st_warning s1)) /\
       chunk_index err = LevelName scale_name /\
       error_message err = exn_msg e /\
       kind_by_message e (error_type err)) /\
  (forall (data : ArrayObj (W := W)) element_name s e s1,
     probe_array_like data s = (Raise e, s1) ->
     exists err,
       check_array_like data element_name s
         = (Ok tt, mk_Scan (st_world s1) (st_errors s1 ++ [err])
                           (st_chunks_checked s1 + 1) (st_warning s1)) /\
       error_message err = exn_msg e /\
       (mentions "blosc" (exn_msg e) = true ->
        error_type err = BloscDecompressionError) /\
       (mentions "blosc" (exn_msg e) = false ->
        mentions "decompression" (exn_msg e) = false ->
        error_type err = exn_type e)) /\
  (forall (element : Element (W := W)) element_name s e s1,
     (probe_points element s = (Raise e, s1) ->
      recorded_under_type_name element_name e s1
        (check_points element element_name s)) /\
     (probe_shapes element s = (Raise e, s1) ->
      recorded_under_type_name element_name e s1
        (check_shapes element element_name s)) /\
     (probe_tables element s = (Raise e, s1) ->
      recorded_under_type_name element_name e s1
        (check_tables element element_name s))).
Proof.
  split; [|split; [|split]].
  - intros array shape chunks array_path chunk_coords s e w' E.
    unfold check_chunk, try_catch, bind at 1. unfold in_world. rewrite E.
    eexists. split; [reflexivity|]. simpl.
    split; [reflexivity|]. split; [reflexivity|]. apply classify_by_message.
  - intros element_name scale_name scale_data s e s1 E.
    unfold check_level_fallback, try_catch. rewrite E.
    eexists. split; [reflexivity|]. simpl.
    split; [reflexivity|]. split; [reflexivity|]. apply classify_by_message.
  - intros data element_name s e s1 E.
    unfold check_array_like, try_catch. rewrite E.
    eexists. split; [reflexivity|]. simpl. split; [reflexivity|].
    unfold classify_blosc_only, mentions. split.
    + now intros ->.
    + now intros -> _.
  - intros element element_name s e s1.
    unfold check_points, check_shapes, check_tables, try_catch,
           recorded_under_type_name.
    split; [|split]; intros E; rewrite E; reflexivity.
Qed.

(** ** check_spatialdata *)

(** C6. Given a location whose load fails, [check_spatialdata] returns at
    once: the result is invalid, its one error describes the load failure,
    and it has no element result. *)
Theorem load_failure_short_circuits (path : string)
    (element_types : option (list string)) (verbose : bool) (w w' : W)
    (e : exn) :
  read_zarr path w = (Raise e, w') ->
  exists r,
    check_spatialdata random_sample read_zarr format_exc (Location path)
                      element_types verbose w = (Ok r, w') /\
    ir_path r = Some path /\
    ir_is_valid r = false /\
    ir_errors r = [("Failed to load SpatialData object: " ++ exn_type e
                    ++ ": " ++ exn_msg e)%string] /\
    ir_elements r = [].
Proof.
  intros E. unfold check_spatialdata, bind at 1.
  unfold try_catch, bind at 1. rewrite E.
  eexists. split; [reflexivity|]. simpl. auto.
Qed.

End ScannerFacts.

(** ** validate_datasets.py *)

Section ValidateFacts.

Import ValidateDatasets.

Context {W : Type}.
Variable test_script : string -> string.
Variable subprocess_run : list string -> M W CompletedProcess.
Variable last_line : string -> string.
Variable json_loads : string -> outcome Json.
Variable Pool : Z -> M W unit.
Variable imap : (Task -> M W ValidationResult) -> list Task
                -> M W (list ValidationResult).










End ValidateFacts.


Lemma take_sample_ok : sample_contract take_sample.
Proof.
  intros population k w Hk. exists (firstn k population), w.
  split; [reflexivity|]. split.
  - rewrite length_firstn. lia.
  - exists (skipn k population). now rewrite firstn_skipn.
Qed.


(** ** Two tasks that hang *)

(** Both branches of [main] report both tasks as timed out, each under
    its own dataset and version, after two calls of the subprocess; with
    no worker the pool is refused and nothing is run. *)
Example hanging_tasks_time_out :
  let merfish :=
    ValidateDatasets.mk_Dataset "MERFISH (Mouse brain)" "merfish.zarr" in
  let timed_out version :=
    ValidateDatasets.failed merfish version "TimeoutError"
      "Dataset loading timed out after 120 seconds" in
  ValidateDatasets.collect_results (fun url => url) hanging_subprocess
    (fun text => text) no_json local_pool serial_imap true 4 two_tasks 0%nat
    = (Ok [timed_out "0.5.0"; timed_out "0.6.1"], 2%nat) /\
  ValidateDatasets.collect_results (fun url => url) hanging_subprocess
    (fun text => text) no_json local_pool serial_imap false 4 two_tasks 0%nat
    = (Ok [timed_out "0.5.0"; timed_out "0.6.1"], 2%nat) /\
  ValidateDatasets.collect_results (fun url => url) hanging_subprocess
    (fun text => text) no_json local_pool serial_imap false 0 two_tasks 0%nat
    = (Raise (ValidateDatasets.ValueError
                "Number of processes must be at least 1"), 0%nat).
Proof.
  repeat split; vm_compute; reflexivity.
Qed.

(** ** A scan from end to end *)

(** An array of shape (100, 100) in chunks of (10, 10) has 100 chunks; in
    sampling mode 10 of them are read, chunk (0, 0) and chunk (9, 9) among
    them. *)
Example grid_scan_reads_ten_chunks :
  length grid_coords = 100%nat /\
  select_chunks take_sample true None grid_coords 0%nat
    = (Ok ([0; 0] :: [9; 9] :: map (fun j => [0; j]) [1; 2; 3; 4; 5; 6; 7; 8]),
       0%nat) /\
  check_zarr_array take_sample grid_array true None (Some "image") 0%nat
    = (Ok (mk_ElementResult "array" "image" true 10 [] None), 10%nat).
Proof.
  repeat split; vm_compute; reflexivity.
Qed.

(** ** Witnesses *)

Lemma enumerated_count_witness :
  exists coords,
    all_chunk_coords [100; 100] [10; 10] = Ok coords /\
    Z.of_nat (length coords) = 100 /\
    In [9; 9] coords.
Proof.
  destruct (enumerated_count_is_product_of_ceilings [100; 100] [10; 10]
              eq_refl ltac:(repeat constructor) ltac:(repeat constructor))
    as (coords & E & Hlen & Hin).
  exists coords. split; [exact E|]. split; [exact Hlen|].
  apply Hin. repeat constructor; vm_compute; congruence.
Defined.

Lemma small_sets_witness :
  select_chunks take_sample true (Some 7) five_coords 0%nat
    = (Ok five_coords, 0%nat).
Proof.
  apply (small_sets_are_selected_whole take_sample true (Some 7) five_coords
           0%nat).
  - vm_compute. lia.
  - intros m H. inversion H. vm_compute. congruence.
Defined.

Lemma sampled_selection_witness :
  exists selected w',
    select_chunks take_sample true (Some 5) grid_coords 0%nat
      = (Ok selected, w') /\
    In [0; 0] selected /\ In [9; 9] selected /\
    length selected = 5%nat /\ NoDup selected.
Proof.
  destruct (sampled_selection_keeps_both_ends take_sample [100; 100] [10; 10]
              grid_coords (Some 5) 0%nat take_sample_ok eq_refl)
    as (selected & w' & E & Hfirst & Hlast & _ & Hlen & Hnd & _).
  - vm_compute. lia.
  - intros m H. inversion H. lia.
  - exists selected, w'. auto.
Defined.

Lemma chunk_failures_witness :
  exists r,
    check_zarr_array take_sample flaky_array true None (Some "img") 0%nat
      = (Ok r, 2%nat) /\
    chunks_checked r = 2%nat /\
    errors r = [mk_ChunkError (Coords [0]) BloscDecompressionError
                  "Blosc decompression failed" (Some "img")].
Proof.
  destruct (proj2 (chunk_failures_are_isolated take_sample flaky_array true
                     None (Some "img") 0%nat)
              [4] [2] [[0]; [1]] [[0]; [1]] 0%nat
              eq_refl eq_refl eq_refl eq_refl)
    as (r & E & _ & Hk & He & _).
  exists r. split; [exact E|]. split; [exact Hk|exact He].
Defined.

Lemma unchunked_probe_witness :
  exists r,
    check_zarr_array take_sample unchunked_array true None (Some "img") 0%nat
      = (Ok r, 1%nat) /\
    chunks_checked r = 1%nat /\
    length (errors r) = 1%nat.
Proof.
  destruct (proj2 (unchunked_array_is_probed_once take_sample unchunked_array
                     true None (Some "img") 0%nat [20; 5; 7] eq_refl eq_refl))
    as (r & E & Hk & He).
  exists r. split; [exact E|]. split; [exact Hk|]. rewrite He. reflexivity.
Defined.

Lemma checked_count_witness :
  (exists r w',
     check_zarr_array take_sample flaky_array true None None 0%nat
       = (Ok r, w') /\
     (length (errors r) <= chunks_checked r)%nat) /\
  (exists r w',
     check_spatialdata_element take_sample plain_image "images" "img" false
                               0%nat = (Ok r, w') /\
     (length (errors r) <= chunks_checked r)%nat).
Proof.
  destruct (checked_count_bounds_errors_when_metadata_reads take_sample
              take_sample_ok) as [Hzarr Helement].
  split.
  - destruct (Hzarr flaky_array true None None 0%nat)
      as (r & w' & E & Hok & _).
    exists r, w'. split; [exact E|]. apply Hok. reflexivity.
  - apply Helement. reflexivity.
Defined.

Lemma classified_failure_witness :
  exists err,
    check_chunk flaky_array [4] [2] None [0] (init_scan 0%nat)
      = (Ok tt, mk_Scan 1%nat [err] 1%nat None) /\
    error_type err = BloscDecompressionError.
Proof.
  destruct (proj1 failures_are_classified_by_message flaky_array [4] [2] None
              [0] (init_scan 0%nat) blosc_failure 1%nat eq_refl)
    as (err & E & _ & _ & Hkind & _).
  exists err. split; [exact E|]. apply Hkind. left. reflexivity.
Defined.

Lemma load_failure_witness :
  exists r,
    check_spatialdata take_sample missing_store no_traceback
                      (Location "missing.zarr") None false 0%nat
      = (Ok r, 0%nat) /\
    ir_is_valid r = false /\
    length (ir_errors r) = 1%nat /\
    ir_elements r = [].
Proof.
  destruct (load_failure_short_circuits take_sample missing_store no_traceback
              "missing.zarr" None false 0%nat 0%nat
              (mk_exn "FileNotFoundError" "no such store") eq_refl)
    as (r & E & _ & Hvalid & Herrors & Helements).
  exists r. split; [exact E|]. split; [exact Hvalid|].
  split; [|exact Helements]. rewrite Herrors. reflexivity.
Defined.



(** ** Counterexamples *)

(** C1 as stated fails when the metadata of the array cannot be read: the
    failure is an error, and no chunk was checked. *)
Lemma metadata_failure_counts_no_chunk :
  exists r w',
    check_zarr_array take_sample broken_array true None None 0%nat
      = (Ok r, w') /\
    ~ (length (errors r) <= chunks_checked r)%nat.
Proof.
  eexists. eexists. split; [reflexivity|]. simpl. lia.
Qed.

(** C2 as stated fails when the budget comes from [max_chunks_to_check]:
    five coordinates under a cap of 3 lose the last one, and twelve
    coordinates under a cap of 11 give 10 coordinates. *)
Lemma cap_is_not_a_sampling_budget :
  (exists selected w',
     all_chunk_coords [5] [1] = Ok five_coords /\
     2 <= 3 /\ (3 < length five_coords)%nat /\
     select_chunks take_sample true (Some 3) five_coords 0%nat
       = (Ok selected, w') /\
     ~ In (last five_coords []) selected) /\
  (exists selected w',
     all_chunk_coords [12] [1] = Ok twelve_coords /\
     2 <= 11 /\ (11 < length twelve_coords)%nat /\
     select_chunks take_sample true (Some 11) twelve_coords 0%nat
       = (Ok selected, w') /\
     length selected <> 11%nat).
Proof.
  split; eexists; eexists.
  - split; [reflexivity|]. split; [lia|]. split; [vm_compute; lia|].
    split; [reflexivity|]. vm_compute. intros [H|[H|[H|[]]]]; discriminate.
  - split; [reflexivity|]. split; [lia|]. split; [vm_compute; lia|].
    split; [reflexivity|]. vm_compute. discriminate.
Qed.

(** C9 as stated fails under either reading of the budget.  With the
    budget given by [max_chunks_to_check], twelve coordinates under a cap
    of 12 are not returned whole: sampling starts above 10 coordinates and
    selects 10.  With the budget of 10 of line 145, five coordinates under
    a cap of 3 are cut to the first three. *)
Lemma small_set_is_not_always_whole :
  (exists selected w',
     all_chunk_coords [12] [1] = Ok twelve_coords /\
     Z.of_nat (length twelve_coords) <= 12 /\
     select_chunks take_sample true (Some 12) twelve_coords 0%nat
       = (Ok selected, w') /\
     length selected = 10%nat /\
     selected <> twelve_coords) /\
  (exists selected w',
     all_chunk_coords [5] [1] = Ok five_coords /\
     (length five_coords <= 10)%nat /\
     select_chunks take_sample true (Some 3) five_coords 0%nat
       = (Ok selected, w') /\
     selected = [[0]; [1]; [2]] /\
     selected <> five_coords).
Proof.
  split; eexists; eexists.
  - split; [reflexivity|]. split; [vm_compute; discriminate|].
    split; [reflexivity|]. split; [reflexivity|]. vm_compute. discriminate.
  - split; [reflexivity|]. split; [vm_compute; lia|].
    split; [reflexivity|]. split; [reflexivity|]. vm_compute. discriminate.
Qed.

(** C4 as stated fails on the probe of a points element: the message
    mentions "blosc" and the error is recorded under the exception's type
    name. *)
Lemma probe_failures_keep_their_type_name :
  exists r w' err,
    check_spatialdata_element take_sample corrupt_points "points" "cells"
                              false 0%nat = (Ok r, w') /\
    errors r = [err] /\
    contains "blosc" (lower (error_message err)) = true /\
    error_type err = "RuntimeError" /\
    error_type err <> BloscDecompressionError.
Proof.
  eexists; eexists; eexists;
    (split; [reflexivity|]); (split; [reflexivity|]);
    (split; [reflexivity|]); (split; [reflexivity|]); discriminate.
Qed.

(** * Further properties *)

(** ** The chunk grid *)

Lemma In_enumeration (shape chunks : list Z) (coords : list (list Z)) :
  Forall (fun d => 0 < fst d /\ 0 < snd d) (combine shape chunks) ->
  all_chunk_coords shape chunks = Ok coords ->
  forall coord,
    In coord coords <->
    Forall2 (fun x d => 0 <= x < ceil_div (fst d) (snd d))
            coord (combine shape chunks).
Proof.
  intros Hd Hcoords coord. apply all_chunk_coords_inv in Hcoords. subst coords.
  rewrite In_product.
  set (dims := combine shape chunks) in *. clearbody dims. revert coord.
  induction Hd as [|d rest [Hds Hdc] _ IH]; intros coord; simpl.
  - split; intros H; inversion H; constructor.
  - split; intros H; inversion H as [|x r c' rs' Hx Hrest]; subst;
      constructor; try (now apply IH).
    + rewrite dim_range_ceil in Hx by assumption. now apply In_py_range.
    + rewrite dim_range_ceil by assumption. now apply In_py_range.
Qed.

Lemma chunk_slice_bounds (x s c : Z) :
  0 < s -> 0 < c -> 0 <= x < ceil_div s c ->
  0 <= x * c < Z.min (x * c + c) s /\
  Z.min (x * c + c) s <= s /\
  Z.min (x * c + c) s - x * c <= c.
Proof.
  intros Hs Hc Hx. pose proof (ceil_div_is_ceiling s c Hc) as [Hlo _].
  assert (x * c < s) by nia. lia.
Qed.

(** X1. Every chunk of the grid is read through slices that lie in the array,
    are not empty and are no larger than a chunk (lines 168-173). *)
Theorem chunk_regions_are_in_bounds (shape chunks : list Z)
    (coords : list (list Z)) (coord : list Z) :
  length shape = length chunks ->
  Forall (fun s => 0 < s) shape ->
  Forall (fun c => 0 < c) chunks ->
  all_chunk_coords shape chunks = Ok coords ->
  In coord coords ->
  Forall2 slice_in_bounds (chunk_slices coord shape chunks)
          (combine shape chunks).
Proof.
  intros _ Hs Hc Hcoords Hin.
  pose proof (positive_dims shape chunks Hs Hc) as Hd.
  apply (In_enumeration shape chunks coords Hd Hcoords) in Hin.
  clear Hcoords coords Hs Hc. revert chunks coord Hd Hin.
  induction shape as [|s shape IH]; intros chunks coord Hd Hin.
  - simpl in *. inversion Hin. constructor.
  - destruct chunks as [|c chunks]; simpl in *.
    + inversion Hin. constructor.
    + inversion Hd as [|? ? [Hds Hdc] Hd']; subst.
      inversion Hin as [|x ? coord' ? Hx Hrest]; subst. simpl in *.
      constructor; [|now apply IH].
      destruct (chunk_slice_bounds x s c Hds Hdc Hx) as (H1 & H2 & H3).
      exists (x * c), (Z.min (x * c + c) s). simpl. auto.
Qed.

Lemma chunk_of_position (p s c : Z) :
  0 < c -> 0 <= p < s ->
  0 <= p / c < ceil_div s c /\
  (p / c) * c <= p < Z.min (p / c * c + c) s.
Proof.
  intros Hc Hp.
  pose proof (Z.div_mod p c ltac:(lia)) as Hdm.
  pose proof (Z.mod_pos_bound p c Hc) as Hb.
  pose proof (ceil_div_is_ceiling s c Hc) as [_ Hhi].
  assert (0 <= p / c) by (apply Z.div_pos; lia).
  split; [|nia]. split; [assumption|]. nia.
Qed.

Lemma chunk_of_position_unique (p s c x : Z) :
  0 < c -> x * c <= p < Z.min (x * c + c) s -> x = p / c.
Proof.
  intros Hc Hx. apply Z.div_unique with (r := p - x * c); lia.
Qed.

(** X2. The chunks of the grid tile the array: every position of the array
    lies in the region of exactly one enumerated chunk coordinate. *)
Theorem chunk_regions_tile_the_array (shape chunks : list Z)
    (coords : list (list Z)) (position : list Z) :
  length shape = length chunks ->
  Forall (fun s => 0 < s) shape ->
  Forall (fun c => 0 < c) chunks ->
  all_chunk_coords shape chunks = Ok coords ->
  Forall2 (fun p s => 0 <= p < s) position shape ->
  exists coord,
    In coord coords /\
    in_region position (chunk_slices coord shape chunks) /\
    forall coord',
      In coord' coords ->
      in_region position (chunk_slices coord' shape chunks) ->
      coord' = coord.
Proof.
  intros Hlen Hs Hc Hcoords Hpos.
  pose proof (positive_dims shape chunks Hs Hc) as Hd.
  assert (H : exists coord,
             Forall2 (fun x d => 0 <= x < ceil_div (fst d) (snd d))
                     coord (combine shape chunks) /\
             in_region position (chunk_slices coord shape chunks) /\
             forall coord',
               Forall2 (fun x d => 0 <= x < ceil_div (fst d) (snd d))
                       coord' (combine shape chunks) ->
               in_region position (chunk_slices coord' shape chunks) ->
               coord' = coord).
  { clear Hcoords coords Hs Hc. revert chunks position Hlen Hd Hpos.
    induction shape as [|s shape IH]; intros chunks position Hlen Hd Hpos.
    - inversion Hpos; subst. destruct chunks; [|discriminate].
      exists []. split; [constructor|]. split; [exact I|].
      intros coord' H _. now inversion H.
    - destruct chunks as [|c chunks]; [discriminate|].
      inversion Hpos as [|p ? position' ? Hp Hpos']; subst.
      simpl in Hd. inversion Hd as [|? ? [Hds Hdc] Hd']; subst. simpl in *.
      destruct (IH chunks position' ltac:(lia) Hd' Hpos')
        as (coord & Hin & Hreg & Huniq).
      destruct (chunk_of_position p s c Hdc Hp) as [Hx Hpx].
      exists (p / c :: coord). split; [constructor; assumption|].
      split; [simpl; split; assumption|].
      intros coord' Hin' Hreg'.
      inversion Hin' as [|x ? coord'' ? Hx' Hrest]; subst.
      simpl in Hreg'. destruct Hreg' as [Hpx' Hreg'].
      f_equal; [now apply (chunk_of_position_unique p s c)|].
      now apply Huniq. }
  destruct H as (coord & Hin & Hreg & Huniq).
  exists coord. split; [now apply (In_enumeration shape chunks coords Hd)|].
  split; [assumption|].
  intros coord' Hin' Hreg'. apply Huniq; [|assumption].
  now apply (In_enumeration shape chunks coords Hd).
Qed.

(** X3. A shape and a chunk shape of different ranks are not rejected: the
    dimensions are paired as far as both go, and every coordinate and every
    region has the rank of the shorter one (lines 136 and 170). *)
Theorem rank_is_that_of_the_shorter_tuple (shape chunks : list Z)
    (coords : list (list Z)) (coord : list Z) :
  all_chunk_coords shape chunks = Ok coords ->
  In coord coords ->
  length coord = Nat.min (length shape) (length chunks) /\
  length (chunk_slices coord shape chunks)
    = Nat.min (length shape) (length chunks).
Proof.
  intros Hcoords Hin. apply all_chunk_coords_inv in Hcoords. subst coords.
  apply In_product in Hin. apply Forall2_length in Hin.
  rewrite length_map, length_combine in Hin. split; [exact Hin|].
  clear - Hin. revert shape chunks Hin.
  induction coord as [|x coord IH]; intros shape chunks Hin.
  - simpl in *. exact Hin.
  - destruct shape as [|s shape]; [simpl in *; lia|].
    destruct chunks as [|c chunks]; [simpl in *; lia|].
    simpl in *. f_equal. apply IH. lia.
Qed.

Section MoreScannerFacts.

Context {W : Type}.
Variable random_sample : list (list Z) -> nat -> M W (list (list Z)).
Variable read_zarr : string -> M W (SpatialData (W := W)).
Variable format_exc : exn -> string.

(** ** The selection *)

(** The cap is applied to what the mode selects. *)
Lemma select_chunks_cap (sample_chunks : bool) (m : Z)
    (coords : list (list Z)) (w : W) :
  select_chunks random_sample sample_chunks (Some m) coords w =
  match select_chunks random_sample sample_chunks None coords w with
  | (Ok chosen, w1) => (Ok (slice_to m chosen), w1)
  | (Raise e, w1) => (Raise e, w1)
  end.
Proof.
  unfold select_chunks, bind, ret.
  destruct (sample_chunks && Nat.ltb 10 (length coords))%bool;
    [|reflexivity].
  destruct (Nat.ltb 2 (length coords)); [|reflexivity].
  destruct (random_sample _ _ w) as [[picked|e] w1]; reflexivity.
Qed.

Lemma length_slice_to {A} (m : Z) (l : list A) :
  (length (slice_to m l) <= length l)%nat /\
  (0 <= m -> (length (slice_to m l) <= Z.to_nat m)%nat).
Proof.
  unfold slice_to. destruct (Z.ltb_spec m 0); rewrite length_firstn; lia.
Qed.

Lemma incl_slice_to {A} (m : Z) (l : list A) : incl (slice_to m l) l.
Proof. unfold slice_to. destruct (m <? 0); apply incl_firstn. Qed.

Lemma uncapped_selection (sample_chunks : bool)
    (coords selected : list (list Z)) (w w1 : W) :
  sample_contract random_sample ->
  select_chunks random_sample sample_chunks None coords w
    = (Ok selected, w1) ->
  incl selected coords /\
  (length selected <= length coords)%nat /\
  (sample_chunks = true -> (length selected <= 10)%nat).
Proof.
  intros Hsample. unfold select_chunks, bind, ret.
  destruct (sample_chunks && Nat.ltb 10 (length coords))%bool eqn:E.
  - apply andb_prop in E as [_ E]. apply Nat.ltb_lt in E.
    replace (Nat.ltb 2 (length coords)) with true
      by (symmetry; apply Nat.ltb_lt; lia).
    destruct (Hsample (interior coords) (Nat.min 8 (length coords - 2)) w)
      as (picked & w' & -> & Hlen & rest & Hperm).
    { rewrite length_interior by lia. lia. }
    intros H. inversion H; subst. clear H.
    pose proof (ends_and_interior [] coords ltac:(lia)) as Hends.
    split; [|simpl; lia].
    intros x [<-|[<-|Hx]].
    + rewrite Hends at 2. now left.
    + rewrite Hends at 2. right. apply in_or_app. right. now left.
    + rewrite Hends. right. apply in_or_app. left.
      eapply Permutation_in; [exact Hperm|]. apply in_or_app. now left.
  - intros H. inversion H; subst. split; [apply incl_refl|].
    split; [lia|]. intros ->. simpl in E. apply Nat.ltb_ge in E. lia.
Qed.

(** X4. Whatever the mode and the cap, only enumerated chunks are selected;
    sampling mode selects at most 10 of them, and a cap [m >= 0] at most
    [m] (lines 145-163). *)
Theorem selection_is_bounded (sample_chunks : bool)
    (max_chunks_to_check : option Z) (coords selected : list (list Z))
    (w w1 : W) :
  sample_contract random_sample ->
  select_chunks random_sample sample_chunks max_chunks_to_check coords w
    = (Ok selected, w1) ->
  incl selected coords /\
  (length selected <= length coords)%nat /\
  (sample_chunks = true -> (length selected <= 10)%nat) /\
  (forall m, max_chunks_to_check = Some m -> 0 <= m ->
             (length selected <= Z.to_nat m)%nat).
Proof.
  intros Hsample Hsel. destruct max_chunks_to_check as [m|].
  - rewrite select_chunks_cap in Hsel.
    destruct (select_chunks random_sample sample_chunks None coords w)
      as [[chosen|e] w2] eqn:E; [|discriminate].
    inversion Hsel; subst. clear Hsel.
    destruct (uncapped_selection sample_chunks coords chosen w w1 Hsample E)
      as (Hincl & Hlen & Hten).
    destruct (length_slice_to m chosen) as [Hle Hcap].
    split; [|split; [|split]].
    + intros x Hx. apply Hincl. now apply (incl_slice_to m chosen).
    + lia.
    + intros Hs. specialize (Hten Hs). lia.
    + intros m' H Hm. inversion H; subst. now apply Hcap.
  - destruct (uncapped_selection sample_chunks coords selected w w1 Hsample
                Hsel) as (Hincl & Hlen & Hten).
    split; [assumption|]. split; [assumption|]. split; [assumption|].
    discriminate.
Qed.

(** ** Edges of check_zarr_array *)

Lemma chunk_errors_none (array_path : option string)
    (coords : list (list Z)) (answers : list (outcome (Sample (W := W)))) :
  length answers = length coords ->
  (is_nil (chunk_errors array_path coords answers) = true <->
   Forall (fun o => answered o = true) answers).
Proof.
  revert answers. induction coords as [|c coords IH]; intros answers Hlen.
  - destruct answers; [|discriminate]. simpl. split; [constructor|reflexivity].
  - destruct answers as [|[smp|e] answers]; [discriminate| |]; simpl in *.
    + rewrite IH by lia. split.
      * intros H. constructor; [reflexivity|assumption].
      * intros H. now inversion H.
    + split; [discriminate|]. intros H. inversion H. discriminate.
Qed.

(** X5. In exhaustive mode without a cap every chunk of the grid is read, in
    the order of the enumeration and without a call to the sampler; the
    result counts them all and is valid exactly when every read answered
    (lines 145-194). *)
Theorem exhaustive_mode_checks_every_chunk (array : ArrayObj (W := W))
    (array_path : option string) (w : W) (shape chunks : list Z)
    (coords : list (list Z)) :
  a_shape array = Present shape ->
  a_chunks array = Present (Some chunks) ->
  all_chunk_coords shape chunks = Ok coords ->
  let regions := map (fun c => chunk_slices c shape chunks) coords in
  exists r,
    check_zarr_array random_sample array false None array_path w
      = (Ok r, snd (attempts array regions w)) /\
    chunks_checked r = length coords /\
    errors r
      = chunk_errors array_path coords (fst (attempts array regions w)) /\
    (is_valid r = true <->
     Forall (fun o => answered o = true) (fst (attempts array regions w))).
Proof.
  intros Hshape Hchunks Hcoords regions.
  pose proof (check_zarr_array_chunked random_sample array false None
                array_path w w shape chunks coords coords Hshape Hchunks
                Hcoords eq_refl) as E.
  cbv zeta in E. fold regions in E. rewrite E.
  eexists. split; [reflexivity|]. split; [reflexivity|].
  split; [reflexivity|]. simpl. apply chunk_errors_none.
  unfold regions. now rewrite length_attempts, length_map.
Qed.

(** X6. A cap of zero selects nothing: the store is never read and the array
    is reported valid with no chunk checked, whatever its chunks hold
    (lines 161-166 and 209-215). *)
Theorem zero_cap_checks_nothing (array : ArrayObj (W := W))
    (sample_chunks : bool) (array_path : option string) (w : W)
    (shape chunks : list Z) (coords : list (list Z)) :
  sample_contract random_sample ->
  a_shape array = Present shape ->
  a_chunks array = Present (Some chunks) ->
  all_chunk_coords shape chunks = Ok coords ->
  check_zarr_array random_sample array sample_chunks (Some 0) array_path w
  = (Ok (mk_ElementResult "array" (path_or_unknown array_path) true 0 []
                          None),
     snd (select_chunks random_sample sample_chunks None coords w)).
Proof.
  intros Hsample Hshape Hchunks Hcoords.
  destruct (select_chunks_returns random_sample sample_chunks None coords w
              Hsample) as (chosen & w1 & Esel).
  assert (Ecap : select_chunks random_sample sample_chunks (Some 0) coords w
                 = (Ok [], w1)).
  { rewrite select_chunks_cap, Esel. reflexivity. }
  pose proof (check_zarr_array_chunked random_sample array sample_chunks
                (Some 0) array_path w w1 shape chunks coords [] Hshape Hchunks
                Hcoords Ecap) as E.
  cbv zeta in E. rewrite E, Esel. reflexivity.
Qed.

(** X7. A negative cap [m] is not rejected: in exhaustive mode the last [-m]
    chunks of the enumeration are left out and never read (line 163). *)
Theorem negative_cap_drops_the_last_chunks (array : ArrayObj (W := W))
    (m : Z) (array_path : option string) (w : W) (shape chunks : list Z)
    (coords : list (list Z)) :
  m < 0 ->
  a_shape array = Present shape ->
  a_chunks array = Present (Some chunks) ->
  all_chunk_coords shape chunks = Ok coords ->
  let kept := firstn (length coords - Z.to_nat (- m)) coords in
  let regions := map (fun c => chunk_slices c shape chunks) kept in
  exists r,
    check_zarr_array random_sample array false (Some m) array_path w
      = (Ok r, snd (attempts array regions w)) /\
    chunks_checked r = (length coords - Z.to_nat (- m))%nat /\
    errors r = chunk_errors array_path kept (fst (attempts array regions w)).
Proof.
  intros Hm Hshape Hchunks Hcoords kept regions.
  assert (Esel : select_chunks random_sample false (Some m) coords w
                 = (Ok kept, w)).
  { rewrite select_chunks_cap. unfold select_chunks, bind, ret. simpl.
    unfold slice_to. destruct (Z.ltb_spec m 0); [reflexivity|lia]. }
  pose proof (check_zarr_array_chunked random_sample array false (Some m)
                array_path w w shape chunks coords kept Hshape Hchunks
                Hcoords Esel) as E.
  cbv zeta in E. fold regions in E. rewrite E.
  eexists. split; [reflexivity|]. split; [|reflexivity].
  simpl. unfold kept. rewrite length_firstn. lia.
Qed.

Lemma chunk_indices_zero (dims : list (Z * Z)) :
  Exists (fun d => snd d = 0) dims ->
  chunk_indices dims = Raise ZeroDivisionError.
Proof.
  induction 1 as [[s c] rest Hc|[s c] rest _ IH]; simpl in *.
  - subst c. reflexivity.
  - unfold num_chunks. destruct (c =? 0); [reflexivity|]. now rewrite IH.
Qed.

(** X8. A chunk size of zero in a paired dimension stops the check before any
    read: the division fails, the result is invalid, its one error is a
    ZeroDivisionError under the empty chunk index, and no chunk is counted
    (lines 136-138 and 196-215). *)
Theorem zero_chunk_size_is_a_metadata_error (array : ArrayObj (W := W))
    (sample_chunks : bool) (max_chunks_to_check : option Z)
    (array_path : option string) (w : W) (shape chunks : list Z) :
  a_shape array = Present shape ->
  a_chunks array = Present (Some chunks) ->
  Exists (fun d => snd d = 0) (combine shape chunks) ->
  exists r err,
    check_zarr_array random_sample array sample_chunks max_chunks_to_check
                     array_path w = (Ok r, w) /\
    is_valid r = false /\
    chunks_checked r = 0%nat /\
    errors r = [err] /\
    chunk_index err = Coords [] /\
    error_type err = "ZeroDivisionError".
Proof.
  intros Hshape Hchunks Hzero.
  unfold check_zarr_array, check_zarr_array_body, metadata_error, init_scan.
  rewrite Hshape, Hchunks. run. unfold all_chunk_coords.
  rewrite (chunk_indices_zero _ Hzero). run.
  eexists. eexists. split; [reflexivity|]. simpl. auto 10.
Qed.

Lemma empty_dimension_no_coords (shape chunks : list Z) :
  Forall (fun d => 0 < snd d) (combine shape chunks) ->
  Exists (fun d => fst d = 0) (combine shape chunks) ->
  all_chunk_coords shape chunks = Ok [].
Proof.
  intros Hpos Hempty. unfold all_chunk_coords.
  rewrite chunk_indices_ok.
  - f_equal. apply product_empty_range. apply Exists_exists.
    apply Exists_exists in Hempty as (d & Hd & Hzero).
    exists (dim_range d). split; [now apply in_map|].
    rewrite Forall_forall in Hpos. specialize (Hpos d Hd).
    unfold dim_range. rewrite Hzero. rewrite Z.div_small by lia. reflexivity.
  - eapply Forall_impl; [|exact Hpos]. simpl. intros d H. lia.
Qed.

(** X9. An array with an empty dimension has no chunk: nothing is read, the
    sampler is not called, and the array is reported valid with no chunk
    checked, in either mode and under any cap. *)
Theorem empty_dimension_is_reported_valid (array : ArrayObj (W := W))
    (sample_chunks : bool) (max_chunks_to_check : option Z)
    (array_path : option string) (w : W) (shape chunks : list Z) :
  a_shape array = Present shape ->
  a_chunks array = Present (Some chunks) ->
  Forall (fun d => 0 < snd d) (combine shape chunks) ->
  Exists (fun d => fst d = 0) (combine shape chunks) ->
  check_zarr_array random_sample array sample_chunks max_chunks_to_check
                   array_path w
  = (Ok (mk_ElementResult "array" (path_or_unknown array_path) true 0 []
                          None), w).
Proof.
  intros Hshape Hchunks Hpos Hempty.
  pose proof (empty_dimension_no_coords shape chunks Hpos Hempty) as Hcoords.
  assert (Esel : select_chunks random_sample sample_chunks
                   max_chunks_to_check [] w = (Ok [], w)).
  { unfold select_chunks, bind, ret. simpl. rewrite andb_false_r.
    destruct max_chunks_to_check as [m|]; [|reflexivity].
    unfold slice_to. destruct (m <? 0); now rewrite firstn_nil. }
  pose proof (check_zarr_array_chunked random_sample array sample_chunks
                max_chunks_to_check array_path w w shape chunks [] []
                Hshape Hchunks Hcoords Esel) as E.
  cbv zeta in E. rewrite E. reflexivity.
Qed.

(** ** Edges of check_spatialdata_element *)

(** X10. For a points, shapes or table element the result is decided by
    what the element answers to the requests of its probe, made once and
    in order: the result counts one unit and carries no warning; it is
    valid without error when every request is answered, and invalid with
    the exception of the first request that fails as its one error, under
    the exception's type name, the empty chunk index and the element's
    name.  The world is the one these requests leave (lines 379-442). *)
Theorem tabular_probe_decides_the_result (element : Element (W := W))
    (element_type element_name : string) (verbose : bool) (w : W) :
  element_type = "points" \/ element_type = "shapes"
    \/ element_type = "tables" ->
  check_spatialdata_element random_sample element element_type element_name
                            verbose w
  = match asked element_type element w with
    | (Ok _, w') =>
        (Ok (mk_ElementResult element_type element_name true 1 [] None), w')
    | (Raise e, w') =>
        (Ok (mk_ElementResult element_type element_name false 1
               [plain_error element_name e] None), w')
    end.
Proof.
  intros Hkind.
  unfold check_spatialdata_element, check_spatialdata_element_body, asked.
  destruct Hkind as [-> | [-> | ->]];
    cbn [String.eqb Ascii.eqb Bool.eqb orb];
    unfold check_points, check_shapes, check_tables, probe_points,
      probe_shapes, probe_tables, record_probe_failure, init_scan.
  - destruct (el_has_compute element); run; reflexivity.
  - run; reflexivity.
  - run; reflexivity.
Qed.

(** X11. An element type outside the five known kinds is not checked at all:
    the element is not touched and the result is valid, with nothing
    counted, no error and no warning (lines 241-442 have no branch for
    it). *)
Theorem unknown_kind_is_reported_valid (element : Element (W := W))
    (element_type element_name : string) (verbose : bool) (w : W) :
  ~ In element_type default_element_types ->
  check_spatialdata_element random_sample element element_type element_name
                            verbose w
  = (Ok (mk_ElementResult element_type element_name true 0 [] None), w).
Proof.
  intros Hkind. unfold check_spatialdata_element,
    check_spatialdata_element_body.
  assert (Hneq : forall k, In k default_element_types ->
                           String.eqb element_type k = false).
  { intros k Hk. apply String.eqb_neq. intros ->. contradiction. }
  rewrite !Hneq by (simpl; auto 10). reflexivity.
Qed.

Lemma fallback_answer (element_name scale_name : string)
    (a : ArrayObj (W := W)) (s : Scan (W := W)) :
  check_level_fallback element_name scale_name a s
  = match level_answer a (st_world s) with
    | (Ok _, w') =>
        (Ok tt,
         mk_Scan w' (st_errors s) (st_chunks_checked s + 1) (st_warning s))
    | (Raise e, w') =>
        (Ok tt,
         mk_Scan w'
           (st_errors s
            ++ [mk_ChunkError (LevelName scale_name) (classify e) (exn_msg e)
                  (Some (element_name ++ "/" ++ scale_name)%string)])
           (st_chunks_checked s + 1) (st_warning s))
    end.
Proof.
  unfold check_level_fallback, probe_level, level_answer, probe_request.
  destruct s as [w errs k warn].
  destruct (a_shape a) as [|e|[|s0 [|s1 [|s2 rest]]]];
    cbv beta iota zeta delta
      [hasattr getattr bind ret raise try_catch touch_first];
    cbn [length Nat.leb Nat.ltb Nat.sub first_two_slices firstn map app
         repeat].
  - destruct (a_has_getitem a); run; reflexivity.
  - run; reflexivity.
  - run; reflexivity.
  - destruct (0 <? s0); run; reflexivity.
  - run; reflexivity.
  - run; reflexivity.
Qed.

Lemma check_level_falls_back (element_name : string)
    (entry : nat * ScaleItem (W := W)) (s : Scan (W := W)) :
  falls_back (level_data entry) = true ->
  check_level random_sample element_name entry s
  = check_level_fallback element_name (level_name entry)
                         (sd_array (level_data entry)) s.
Proof.
  intros H. unfold falls_back, level_zarr in H.
  unfold check_level, underlying_zarr.
  destruct (sd_store (level_data entry)) as [|e|[|e|[z|]]];
    try discriminate; run; try reflexivity.
  destruct (a_chunks z); try discriminate. run. reflexivity.
Qed.

Lemma length_level_answers (entries : list (nat * ScaleItem (W := W)))
    (w : W) :
  length (fst (level_answers entries w)) = length entries.
Proof.
  revert w. induction entries as [|entry rest IH]; intros w; simpl;
    [reflexivity|].
  destruct (level_answer _ w) as [o w1]. specialize (IH w1).
  destruct (level_answers rest w1) as [os w2]. simpl in *. now rewrite IH.
Qed.

Lemma fallback_answers (element_name : string)
    (entries : list (nat * ScaleItem (W := W))) (s : Scan (W := W)) :
  (forall entry, In entry entries -> falls_back (level_data entry) = true) ->
  for_each entries (check_level random_sample element_name) s
  = (Ok tt,
     mk_Scan (snd (level_answers entries (st_world s)))
       (st_errors s
        ++ level_errors element_name entries
             (fst (level_answers entries (st_world s))))
       (st_chunks_checked s + length entries) (st_warning s)).
Proof.
  revert s. induction entries as [|entry rest IH]; intros s Hall.
  - simpl. unfold ret. rewrite app_nil_r, Nat.add_0_r. now destruct s.
  - simpl. unfold bind.
    rewrite check_level_falls_back by (apply Hall; now left).
    rewrite fallback_answer.
    destruct (level_answer (sd_array (level_data entry)) (st_world s))
      as [[[]|e] w1];
      rewrite IH by (intros x Hx; apply Hall; now right);
      cbn [st_world st_errors st_chunks_checked st_warning];
      destruct (level_answers rest w1) as [os w2]; simpl;
      rewrite <- ?app_assoc; simpl; do 2 f_equal; lia.
Qed.

(** X12. A pyramid none of whose levels shows a zarr array with chunks, and
    none of whose [store] getters fails, is probed level by level, in
    order and whatever the earlier probes answered: each level is asked
    for one small region (the first 10 items along its first two
    dimensions), in the world the level before it left.  The result counts
    one unit per level, holds one error for each level whose probe failed,
    in the order of the levels and under the level's name and the path
    "<element>/<level>", carries no warning, and is valid exactly when no
    probe failed (lines 268-340). *)
Theorem pyramid_levels_are_probed_one_by_one (element : Element (W := W))
    (element_type element_name : string) (verbose : bool) (w : W)
    (data : Data (W := W)) (levels : list (ScaleItem (W := W))) :
  element_type = "images" \/ element_type = "labels" ->
  el_data element = Present data ->
  scale_levels data = Some levels ->
  levels <> [] ->
  (forall entry, In entry (enumerate levels) ->
                 falls_back (level_data entry) = true) ->
  exists answers w',
    level_answers (enumerate levels) w = (answers, w') /\
    length answers = length levels /\
    check_spatialdata_element random_sample element element_type element_name
                              verbose w
    = (Ok (mk_ElementResult element_type element_name
             (is_nil (level_errors element_name (enumerate levels) answers))
             (length levels)
             (level_errors element_name (enumerate levels) answers) None),
       w').
Proof.
  intros Hkind Hdata Hlevels Hne Hall.
  assert (Elen : length (enumerate levels) = length levels).
  { unfold enumerate. rewrite length_combine, length_seq. lia. }
  pose proof (length_level_answers (enumerate levels) w) as Hlen.
  pose proof (fallback_answers element_name (enumerate levels) (init_scan w)
                Hall) as E.
  cbn [init_scan st_world st_errors st_chunks_checked st_warning] in E.
  destruct (level_answers (enumerate levels) w) as [answers w'].
  exists answers, w'. split; [reflexivity|].
  split; [simpl in Hlen; lia|].
  unfold check_spatialdata_element, try_catch,
    check_spatialdata_element_body.
  replace (String.eqb element_type "images"
           || String.eqb element_type "labels")%bool
    with true by (destruct Hkind; subst; reflexivity).
  unfold check_image_like. rewrite Hdata. run. rewrite Hlevels.
  destruct levels as [|item items]; [contradiction|].
  rewrite E. cbn [st_world st_errors st_chunks_checked st_warning fst snd].
  rewrite Elen. reflexivity.
Qed.

Lemma for_each_app {S A} (xs ys : list A) (body : A -> M S unit) (s : S) :
  for_each (xs ++ ys) body s
  = bind (for_each xs body) (fun _ => for_each ys body) s.
Proof.
  revert s. induction xs as [|x xs IH]; intros s; simpl.
  - reflexivity.
  - unfold bind. destruct (body x s) as [[[]|e] s1]; [|reflexivity].
    rewrite IH. reflexivity.
Qed.

Lemma for_each_stops {S A} (xs ys zs : list A) (x : A)
    (body : A -> M S unit) (s : S) :
  (forall s0, exists e, body x s0 = (Raise e, s0)) ->
  for_each (xs ++ x :: ys) body s = for_each (xs ++ x :: zs) body s /\
  exists e s', for_each (xs ++ x :: ys) body s = (Raise e, s').
Proof.
  intros Hx. rewrite !for_each_app. unfold bind.
  destruct (for_each xs body s) as [[[]|e] s1].
  - simpl. unfold bind. destruct (Hx s1) as (e & ->). eauto.
  - eauto.
Qed.

Lemma enumerate_from_app {A} (start : nat) (pre rest : list A) :
  combine (seq start (length (pre ++ rest))) (pre ++ rest)
  = combine (seq start (length pre)) pre
    ++ combine (seq (start + length pre) (length rest)) rest.
Proof.
  revert start. induction pre as [|x pre IH]; intros start; simpl.
  - now rewrite Nat.add_0_r.
  - rewrite IH.
    replace (start + S (length pre))%nat with (S start + length pre)%nat
      by lia.
    reflexivity.
Qed.

(** X13. A failing getter of a level's [store] is not a probe failure: it ends
    the loop over the levels.  The levels after it are never looked at (the
    result is the same whatever they are), and the result is invalid, its
    last error being the one recorded by the outer handler under the
    element's name (lines 270-279 and 444-454). *)
Theorem failing_store_getter_ends_the_pyramid
    (element element' : Element (W := W)) (data data' : Data (W := W))
    (pre post post' : list (ScaleItem (W := W))) (bad : ScaleItem (W := W))
    (failure : exn) (element_name : string) (verbose : bool) (w : W) :
  el_data element = Present data ->
  el_data element' = Present data' ->
  scale_levels data = Some (pre ++ bad :: post) ->
  scale_levels data' = Some (pre ++ bad :: post') ->
  sd_store (level_data (length pre, bad)) = Failing failure ->
  check_spatialdata_element random_sample element "images" element_name
                            verbose w
  = check_spatialdata_element random_sample element' "images" element_name
                              verbose w /\
  exists r w' errs e,
    check_spatialdata_element random_sample element "images" element_name
                              verbose w = (Ok r, w') /\
    errors r = errs ++ [plain_error element_name e] /\
    is_valid r = false.
Proof.
  intros Hdata Hdata' Hlevels Hlevels' Hbad.
  assert (Hraise : forall s0 : Scan (W := W), exists e,
            check_level random_sample element_name (length pre, bad) s0
            = (Raise e, s0)).
  { intros s0. exists failure. unfold check_level, underlying_zarr.
    rewrite Hbad. run. now destruct s0. }
  assert (Hbody : forall (el : Element (W := W)) (d : Data (W := W)) tail,
            el_data el = Present d ->
            scale_levels d = Some (pre ++ bad :: tail) ->
            check_spatialdata_element_body random_sample el "images"
                                           element_name (init_scan w)
            = for_each (enumerate pre ++ (length pre, bad)
                          :: combine (seq (length pre + 1) (length tail)) tail)
                       (check_level random_sample element_name)
                       (init_scan w)).
  { intros el d tail Hd Hl. unfold check_spatialdata_element_body. simpl.
    unfold check_image_like. rewrite Hd. run. rewrite Hl.
    destruct (pre ++ bad :: tail) as [|x l] eqn:El.
    - destruct pre; discriminate.
    - rewrite <- El. unfold enumerate at 1.
      rewrite enumerate_from_app. simpl. rewrite Nat.add_1_r.
      destruct (init_scan w). reflexivity. }
  unfold check_spatialdata_element, try_catch.
  rewrite (Hbody element data post Hdata Hlevels).
  rewrite (Hbody element' data' post' Hdata' Hlevels').
  destruct (for_each_stops (enumerate pre)
              (combine (seq (length pre + 1) (length post)) post)
              (combine (seq (length pre + 1) (length post')) post')
              (length pre, bad) (check_level random_sample element_name)
              (init_scan w) Hraise) as (Esame & e & s' & Eraise).
  rewrite <- Esame, Eraise. split; [reflexivity|].
  run. eexists. eexists. exists (st_errors s'), e.
  split; [reflexivity|]. simpl. split; [reflexivity|].
  destruct (st_errors s'); reflexivity.
Qed.

(** ** check_spatialdata *)

Lemma element_result_is_filed (element : Element (W := W))
    (element_type element_name : string) (verbose : bool) (w : W) :
  exists r w',
    check_spatialdata_element random_sample element element_type element_name
                              verbose w = (Ok r, w') /\
    filed_under r = (element_type, element_name).
Proof.
  unfold check_spatialdata_element, try_catch.
  destruct (check_spatialdata_element_body _ _ _ _ _) as [[u|e] s]; simpl;
    eauto.
Qed.

Lemma check_named_effect (element_type : string) (verbose : bool)
    (entry : string * Element (W := W)) (s : Container (W := W)) :
  exists r w',
    check_named random_sample format_exc element_type verbose entry s
      = (Ok tt, mk_Container w' (cs_results s ++ [r]) (cs_all_errors s)) /\
    filed_under r = (element_type, fst entry).
Proof.
  destruct (element_result_is_filed (snd entry) element_type (fst entry)
              verbose (cs_world s)) as (r & w' & E & Hr).
  exists r, w'. split; [|exact Hr].
  unfold check_named, try_catch, bind at 1. unfold in_world_c. rewrite E.
  reflexivity.
Qed.

Lemma named_loop (element_type : string) (verbose : bool)
    (items : list (string * Element (W := W))) (s : Container (W := W)) :
  exists rs w',
    for_each items (check_named random_sample format_exc element_type verbose)
             s
      = (Ok tt, mk_Container w' (cs_results s ++ rs) (cs_all_errors s)) /\
    map filed_under rs = map (fun entry => (element_type, fst entry)) items.
Proof.
  revert s. induction items as [|entry rest IH]; intros s; simpl.
  - exists [], (cs_world s). rewrite app_nil_r. now destruct s.
  - destruct (check_named_effect element_type verbose entry s)
      as (r & w1 & E & Hr).
    unfold bind. rewrite E.
    destruct (IH (mk_Container w1 (cs_results s ++ [r]) (cs_all_errors s)))
      as (rs & w2 & E2 & Hrs).
    exists (r :: rs), w2. rewrite E2. simpl. rewrite <- app_assoc.
    split; [reflexivity|]. now rewrite Hr, Hrs.
Qed.

Lemma check_kind_effect (sdata : SpatialData (W := W)) (verbose : bool)
    (element_type : string) (s : Container (W := W)) :
  match sdata_attr sdata element_type with
  | Failing e =>
      check_kind random_sample format_exc sdata verbose element_type s
      = (Raise e, s)
  | _ =>
      exists rs w',
        check_kind random_sample format_exc sdata verbose element_type s
          = (Ok tt, mk_Container w' (cs_results s ++ rs) (cs_all_errors s)) /\
        map filed_under rs = listed sdata element_type
  end.
Proof.
  unfold check_kind, listed.
  destruct (sdata_attr sdata element_type) as [|e|[|items|element]];
    unfold hasattr, getattr, bind, ret, raise; simpl.
  - exists [], (cs_world s). rewrite app_nil_r. now destruct s.
  - reflexivity.
  - exists [], (cs_world s). rewrite app_nil_r. now destruct s.
  - apply named_loop.
  - destruct (element_result_is_filed element element_type element_type
                verbose (cs_world s)) as (r & w' & E & Hr).
    exists [r], w'. unfold in_world_c. rewrite E. simpl. now rewrite Hr.
Qed.

Lemma kind_loop (sdata : SpatialData (W := W)) (verbose : bool)
    (types : list string) (s : Container (W := W)) :
  Forall (fun t => getter_fails (sdata_attr sdata t) = false) types ->
  exists rs w',
    for_each types (check_kind random_sample format_exc sdata verbose) s
      = (Ok tt, mk_Container w' (cs_results s ++ rs) (cs_all_errors s)) /\
    map filed_under rs = flat_map (listed sdata) types.
Proof.
  intros Hall. revert s. induction Hall as [|t rest Ht _ IH]; intros s; simpl.
  - exists [], (cs_world s). rewrite app_nil_r. now destruct s.
  - pose proof (check_kind_effect sdata verbose t s) as H.
    assert (H' : exists rs w',
              check_kind random_sample format_exc sdata verbose t s
                = (Ok tt, mk_Container w' (cs_results s ++ rs)
                                       (cs_all_errors s)) /\
              map filed_under rs = listed sdata t).
    { destruct (sdata_attr sdata t); [exact H|discriminate|exact H]. }
    destruct H' as (rs1 & w1 & E1 & Hrs1).
    unfold bind. rewrite E1.
    destruct (IH (mk_Container w1 (cs_results s ++ rs1) (cs_all_errors s)))
      as (rs2 & w2 & E2 & Hrs2).
    exists (rs1 ++ rs2), w2. rewrite E2. simpl. rewrite <- app_assoc.
    split; [reflexivity|]. now rewrite map_app, Hrs1, Hrs2.
Qed.

Lemma kind_loop_keeps_errors (sdata : SpatialData (W := W)) (verbose : bool)
    (types : list string) (s : Container (W := W)) :
  cs_all_errors
    (snd (for_each types (check_kind random_sample format_exc sdata verbose)
                   s))
  = cs_all_errors s.
Proof.
  revert s. induction types as [|t rest IH]; intros s; simpl; [reflexivity|].
  pose proof (check_kind_effect sdata verbose t s) as H. unfold bind.
  destruct (sdata_attr sdata t) eqn:Ht.
  - destruct H as (rs & w' & -> & _). now rewrite IH.
  - rewrite H. reflexivity.
  - destruct H as (rs & w' & -> & _). now rewrite IH.
Qed.

(** X14. When no getter of a requested element type fails, a loaded container
    is scanned to the end: there is one element result for every name of
    every requested type, in the order of the types and of each mapping,
    filed under its type and name (a single element under its type); no
    structural error is recorded and the result is valid exactly when all
    element results are (lines 497-540). *)
Theorem every_listed_element_gets_one_result (sdata : SpatialData (W := W))
    (element_types : option (list string)) (verbose : bool) (w : W) :
  Forall (fun t => getter_fails (sdata_attr sdata t) = false)
         (requested element_types) ->
  exists r w',
    check_spatialdata random_sample read_zarr format_exc (Loaded sdata)
                      element_types verbose w = (Ok r, w') /\
    map filed_under (ir_elements r)
      = flat_map (listed sdata) (requested element_types) /\
    ir_errors r = [] /\
    ir_path r = None /\
    ir_is_valid r = forallb is_valid (ir_elements r).
Proof.
  intros Hall. unfold check_spatialdata, scan_container.
  fold (requested element_types).
  destruct (kind_loop sdata verbose (requested element_types)
              (mk_Container w [] []) Hall) as (rs & w' & E & Hrs).
  rewrite E. eexists. eexists. split; [reflexivity|]. simpl. auto.
Qed.

(** X15. A failing getter of a requested element type is not turned into a
    result: the exception leaves [check_spatialdata], and the types after
    it are not looked at (lines 504-508 are outside any [try]). *)
Theorem failing_kind_getter_leaves_the_scan (sdata : SpatialData (W := W))
    (pre post : list string) (t : string) (e : exn) (verbose : bool) (w : W) :
  Forall (fun t => getter_fails (sdata_attr sdata t) = false) pre ->
  sdata_attr sdata t = Failing e ->
  exists w',
    check_spatialdata random_sample read_zarr format_exc (Loaded sdata)
                      (Some (pre ++ t :: post)) verbose w = (Raise e, w').
Proof.
  intros Hpre Ht. unfold check_spatialdata, scan_container.
  rewrite for_each_app. unfold bind.
  destruct (kind_loop sdata verbose pre (mk_Container w [] []) Hpre)
    as (rs & w' & E & _).
  rewrite E. simpl. unfold bind.
  pose proof (check_kind_effect sdata verbose t
                (mk_Container w' ([] ++ rs) [])) as H.
  rewrite Ht in H. simpl in H. rewrite H. eauto.
Qed.

Lemma scan_container_result (sdata : SpatialData (W := W))
    (path : option string) (element_types : option (list string))
    (verbose : bool) (w w' : W) (r : IntegrityResult) :
  scan_container random_sample format_exc sdata path element_types verbose w
    = (Ok r, w') ->
  ir_is_valid r = forallb is_valid (ir_elements r) /\ ir_errors r = [].
Proof.
  unfold scan_container.
  pose proof (kind_loop_keeps_errors sdata verbose (requested element_types)
                (mk_Container w [] [])) as Hk.
  unfold requested in Hk.
  destruct (for_each _ _ _) as [[[]|e] c]; [|discriminate].
  simpl in Hk. intros H. inversion H; subst. simpl. rewrite Hk. auto.
Qed.

Lemma check_spatialdata_cases (sdata : SdataArg (W := W))
    (element_types : option (list string)) (verbose : bool) (w w' : W)
    (r : IntegrityResult) :
  check_spatialdata random_sample read_zarr format_exc sdata element_types
                    verbose w = (Ok r, w') ->
  (exists loaded path w0,
     scan_container random_sample format_exc loaded path element_types
                    verbose w0 = (Ok r, w')) \/
  (exists path e, sdata = Location path /\ r = load_failure path e).
Proof.
  unfold check_spatialdata. destruct sdata as [s|path].
  - intros H. left. eauto.
  - unfold bind at 1. unfold try_catch, bind at 1.
    destruct (read_zarr path w) as [[s|e] w1]; simpl.
    + intros H. left. eauto.
    + intros H. inversion H; subst. right. eauto.
Qed.

(** X16. Structural errors only come from a failed load: whenever
    [check_spatialdata] returns a result, either its error list is empty,
    or the argument was a location, the load failed and the result is the
    short-circuit one.  In both cases the result is valid exactly when it
    has no error and all its element results are valid; the handler of
    lines 520-525 never adds an error. *)
Theorem structural_errors_only_from_loading (sdata : SdataArg (W := W))
    (element_types : option (list string)) (verbose : bool) (w w' : W)
    (r : IntegrityResult) :
  check_spatialdata random_sample read_zarr format_exc sdata element_types
                    verbose w = (Ok r, w') ->
  ir_is_valid r
    = (is_nil (ir_errors r) && forallb is_valid (ir_elements r))%bool /\
  (ir_errors r = [] \/
   exists path e, sdata = Location path /\ r = load_failure path e).
Proof.
  intros H.
  destruct (check_spatialdata_cases sdata element_types verbose w w' r H)
    as [(loaded & path & w0 & Hscan)|(path & e & Hs & Hr)].
  - destruct (scan_container_result loaded path element_types verbose w0 w' r
                Hscan) as [Hvalid Herrors].
    rewrite Herrors. simpl. auto.
  - split.
    + subst r. reflexivity.
    + right. eauto.
Qed.

End MoreScannerFacts.

(** ** The validation tasks *)

Section MoreValidateFacts.

Import ValidateDatasets.

Context {W : Type}.
Variable test_script : string -> string.
Variable subprocess_run : list string -> M W CompletedProcess.
Variable last_line : string -> string.
Variable json_loads : string -> outcome Json.

Lemma In_validation_tasks (datasets : list Dataset) (versions : list string)
    (project_root : string) (verbose : bool) (t : Task) :
  In t (validation_tasks datasets versions project_root verbose) <->
  exists d v,
    In d datasets /\ In v versions /\ t = mk_Task d v project_root verbose.
Proof.
  unfold validation_tasks. rewrite in_flat_map. split.
  - intros (d & Hd & Ht). apply in_map_iff in Ht as (v & <- & Hv). eauto.
  - intros (d & v & Hd & Hv & ->). exists d. split; [assumption|].
    now apply (in_map (fun version => mk_Task d version project_root verbose)).
Qed.

(** X17. The tasks of [main] are the pairs of a dataset and a version, each
    pair once, dataset by dataset: there are len(datasets) * len(versions)
    of them, which is the [total] of the progress lines (lines 417 and
    430-434). *)
Theorem one_task_per_dataset_and_version (datasets : list Dataset)
    (versions : list string) (project_root : string) (verbose : bool) :
  length (validation_tasks datasets versions project_root verbose)
    = (length datasets * length versions)%nat /\
  (forall t,
     In t (validation_tasks datasets versions project_root verbose) <->
     exists d v,
       In d datasets /\ In v versions /\ t = mk_Task d v project_root verbose)
  /\
  (NoDup datasets -> NoDup versions ->
   NoDup (validation_tasks datasets versions project_root verbose)).
Proof.
  split; [|split].
  - unfold validation_tasks. induction datasets as [|d rest IH]; simpl.
    + reflexivity.
    + now rewrite length_app, length_map, IH.
  - intros t. apply In_validation_tasks.
  - intros Hd Hv. unfold validation_tasks.
    induction Hd as [|d rest Hnotin _ IH]; simpl; [constructor|].
    apply NoDup_app.
    + apply Injective_map_NoDup; [|assumption].
      intros a b Hab. now inversion Hab.
    + exact IH.
    + intros t Ht Ht'. apply in_map_iff in Ht as (v & <- & _).
      apply in_flat_map in Ht' as (d' & Hd' & Ht').
      apply in_map_iff in Ht' as (v' & Heq & _).
      inversion Heq; subst. contradiction.
Qed.

(** X18. Output whose last line is valid JSON but not an object is not a
    parse failure: [output.get] fails, the outer handler takes it, and the
    task is reported failed with the error type AttributeError and the
    message of that error, which names the type of the value read (lines
    161-166 and 192-200). *)
Theorem non_object_output_is_an_attribute_error (dataset : Dataset)
    (version project_root : string) (verbose : bool) (w w1 : W)
    (result : CompletedProcess) (output : Json) :
  subprocess_run (run_argv test_script dataset version project_root) w
    = (Ok result, w1) ->
  json_loads (last_line (stdout result)) = Ok output ->
  (forall fields, output <> JObject fields) ->
  validate_with_version test_script subprocess_run last_line json_loads
                        dataset version project_root verbose w
  = (Ok (failed dataset version "AttributeError"
                ("'" ++ type_name output
                 ++ "' object has no attribute 'get'")%string), w1).
Proof.
  intros Erun Ejson Hnot.
  unfold validate_with_version, try_catch, bind. rewrite Erun.
  unfold try_catch_when, lift_outcome, parse_output. rewrite Ejson.
  destruct output as [| | | | |fields]; try reflexivity.
  exfalso. now apply (Hnot fields).
Qed.

End MoreValidateFacts.

(** ** The report *)

Lemma append_assoc (a b c : string) :
  ((a ++ b) ++ c = a ++ b ++ c)%string.
Proof. induction a as [|ch a IH]; simpl; [reflexivity|now rewrite IH]. Qed.

Lemma join_last (sep x : string) (l : list string) :
  l <> [] -> join sep (l ++ [x]) = (join sep l ++ sep ++ x)%string.
Proof.
  induction l as [|y l IH]; [contradiction|]. intros _.
  destruct l as [|z l]; [reflexivity|].
  change (join sep ((y :: z :: l) ++ [x]))
    with (y ++ sep ++ join sep ((z :: l) ++ [x]))%string.
  rewrite IH by discriminate.
  change (join sep (y :: z :: l)) with (y ++ sep ++ join sep (z :: l))%string.
  now rewrite !append_assoc.
Qed.

Lemma no_invalid_element (r : IntegrityResult) :
  error_count r = 0%nat <-> forallb is_valid (ir_elements r) = true.
Proof.
  unfold error_count. induction (ir_elements r) as [|e l IH]; simpl.
  - split; reflexivity.
  - destruct (is_valid e); simpl; [exact IH|]. split; discriminate.
Qed.

Section ReportFacts.

Context {W : Type}.
Variable random_sample : list (list Z) -> nat -> M W (list (list Z)).
Variable read_zarr : string -> M W (SpatialData (W := W)).
Variable format_exc : exn -> string.
Variable repr_str : string -> string.

(** X19. The text of a result of [check_spatialdata] ends with an empty line and
    the summary line, whose count is the number of invalid element
    results.  A valid result has the count 0; a result with the count 0 is
    valid unless it is the one of a failed load, which is invalid and
    reports 0 error(s) in 0 element(s) (lines 65-85 and 489-493). *)
Theorem summary_counts_invalid_elements (sdata : SdataArg (W := W))
    (element_types : option (list string)) (verbose : bool) (w w' : W)
    (r : IntegrityResult) :
  check_spatialdata random_sample read_zarr format_exc sdata element_types
                    verbose w = (Ok r, w') ->
  (exists head,
     result_str repr_str r
     = (head ++ line_break ++ line_break ++ summary_line r)%string) /\
  (ir_is_valid r = true -> error_count r = 0%nat) /\
  (error_count r = 0%nat ->
   ir_is_valid r = true \/
   exists path e,
     sdata = Location path /\ r = load_failure path e /\
     ir_is_valid r = false /\ ir_elements r = []).
Proof.
  intros H. split.
  - unfold result_str, report_lines.
    set (first := match ir_path r with
                  | Some path => _
                  | None => _
                  end).
    set (elements := map _ (ir_elements r)).
    set (errors := if is_nil (ir_errors r) then _ else _).
    exists (join line_break (first :: elements ++ errors)).
    change ([first] ++ elements ++ errors ++ [""; summary_line r])
      with ((first :: elements) ++ errors ++ [""] ++ [summary_line r]).
    rewrite !app_assoc.
    rewrite join_last by (simpl; discriminate).
    rewrite join_last by (simpl; discriminate).
    rewrite !append_assoc. reflexivity.
  - destruct (check_spatialdata_cases random_sample read_zarr format_exc
                sdata element_types verbose w w' r H)
      as [(loaded & path & w0 & Hscan)|(path & e & Hs & Hr)].
    + destruct (scan_container_result random_sample format_exc loaded path
                  element_types verbose w0 w' r Hscan) as [Hvalid _].
      rewrite Hvalid. split.
      * intros Hv. now apply no_invalid_element.
      * intros Hcount. left. now apply no_invalid_element.
    + subst r. split; [discriminate|]. intros _. right.
      exists path, e. auto.
Qed.

End ReportFacts.

(** ** The command line *)

Section CliFacts.

Import Cli.

Context {W : Type}.
Variable random_sample : list (list Z) -> nat -> M W (list (list Z)).
Variable read_zarr : string -> M W (SpatialData (W := W)).
Variable format_exc : exn -> string.
Variable repr_str : string -> string.
Variable json_dumps : ValidateDatasets.Json -> string.
Variable path_str : string -> string.
Variable path_exists : string -> M W bool.
Variable print_out : string -> M W unit.
Variable print_err : string -> M W unit.
Variable print_exc : exn -> M W unit.
Variable write_text : string -> string -> M W unit.

Lemma json_output_fails (result : IntegrityResult) :
  ir_elements result <> [] ->
  json_output result = Raise (NameError "element").
Proof.
  unfold json_output. destruct (ir_elements result) as [|e rest];
    [contradiction|reflexivity].
Qed.

(** X20. [format_json_result] works only on a result without element results,
    such as the one of a failed load: with at least one element result the
    dict of the first one cannot be built, because its errors are read
    from the unbound name [element], and NameError is raised (lines
    19-34). *)
Theorem json_format_needs_no_element (result : IntegrityResult) :
  (ir_elements result = [] ->
   format_json_result json_dumps result
   = Ok (json_dumps
           (ValidateDatasets.JObject
              [("path", optional_str (ir_path result));
               ("is_valid", ValidateDatasets.JBool (ir_is_valid result));
               ("elements", ValidateDatasets.JArray []);
               ("errors",
                ValidateDatasets.JArray
                  (map ValidateDatasets.JString (ir_errors result)))]))) /\
  (ir_elements result <> [] ->
   format_json_result json_dumps result = Raise (NameError "element")).
Proof.
  unfold format_json_result. split.
  - intros H. unfold json_output. rewrite H. reflexivity.
  - intros H. now rewrite json_output_fails.
Qed.

(** X21. [main] ends with status 0 only when the path exists, the check
    returned a result and that result is valid; with the JSON format the
    result moreover has no element result (lines 101-141). *)
Theorem exit_status_zero_means_valid (args : Args) (w w' : W) :
  main random_sample read_zarr format_exc repr_str json_dumps path_str
       path_exists print_out print_err print_exc write_text args w
    = (Ok 0, w') ->
  exists w1 r w2,
    path_exists (path_str (arg_path args)) w = (Ok true, w1) /\
    check_spatialdata random_sample read_zarr format_exc
                      (Location (path_str (arg_path args)))
                      (arg_elements args) (arg_verbose args) w1
      = (Ok r, w2) /\
    ir_is_valid r = true /\
    (arg_format args = "json" -> ir_elements r = []).
Proof.
  unfold main, bind, try_catch, ret, lift_outcome.
  destruct (path_exists _ w) as [[[|]|e] w1]; cbn [negb].
  - destruct (check_spatialdata random_sample read_zarr format_exc
                (Location (path_str (arg_path args))) (arg_elements args)
                (arg_verbose args) w1) as [[r|e] w2] eqn:Ec.
    + intros H. exists w1, r, w2. split; [reflexivity|].
      split; [exact Ec|].
      destruct (String.eqb_spec (arg_format args) "json") as [Hf|Hf].
      * destruct (ir_elements r) eqn:Eel.
        -- destruct (ir_is_valid r); [auto|].
           destruct (format_json_result json_dumps r); [|discriminate].
           destruct (output_given (arg_output args)).
           ++ destruct (write_text _ _ _) as [[[]|?] ?]; [|discriminate].
              destruct (print_err _ _) as [[[]|?] ?]; discriminate.
           ++ destruct (print_out _ _) as [[[]|?] ?]; discriminate.
        -- unfold format_json_result in H.
           rewrite json_output_fails in H by (rewrite Eel; discriminate).
           discriminate.
      * destruct (ir_is_valid r); [split; [reflexivity|contradiction]|].
        destruct (output_given (arg_output args)).
        -- destruct (write_text _ _ _) as [[[]|?] ?]; [|discriminate].
           destruct (print_err _ _) as [[[]|?] ?]; discriminate.
        -- destruct (print_out _ _) as [[[]|?] ?]; discriminate.
    + destruct (print_err _ w2) as [[[]|?] ?]; [|discriminate].
      destruct (arg_verbose args).
      * destruct (print_exc _ _) as [[[]|?] ?]; discriminate.
      * discriminate.
  - destruct (print_err _ w1) as [[[]|?] ?]; discriminate.
  - discriminate.
Qed.

(** X22. With the JSON format, a check that returns a result with at least one
    element result makes [main] fail with NameError before anything is
    printed or written: the world is left as the check left it (lines
    123-127). *)
Theorem json_format_fails_on_a_scanned_container (args : Args) (w w1 w2 : W)
    (r : IntegrityResult) :
  arg_format args = "json" ->
  path_exists (path_str (arg_path args)) w = (Ok true, w1) ->
  check_spatialdata random_sample read_zarr format_exc
                    (Location (path_str (arg_path args)))
                    (arg_elements args) (arg_verbose args) w1
    = (Ok r, w2) ->
  ir_elements r <> [] ->
  main random_sample read_zarr format_exc repr_str json_dumps path_str
       path_exists print_out print_err print_exc write_text args w
    = (Raise (NameError "element"), w2).
Proof.
  intros Hf Hp Hc Hel.
  unfold main, bind, try_catch, ret, lift_outcome.
  rewrite Hp. cbn [negb]. rewrite Hc, Hf. cbn [String.eqb Ascii.eqb Bool.eqb].
  unfold format_json_result. now rewrite json_output_fails.
Qed.

End CliFacts.

(** ** The fixture script *)

Section FixtureFacts.

Import GenerateFixtures.

Context {W : Type}.
Variable path_join : string -> string -> string.
Variable path_exists : string -> M W bool.
Variable run_returncode : list string -> M W Z.

Lemma generate_version_success (project_root output_dir version : string)
    (s s' : Run (W := W)) :
  generate_version path_join path_exists run_returncode project_root
                   output_dir version s = (Ok tt, s') ->
  g_success s' = true ->
  g_success s = true /\
  generated path_join path_exists run_returncode project_root output_dir
            version.
Proof.
  unfold generate_version, bind, in_world_g, fail, modify, ret, generated.
  destruct (path_exists _ (g_world s)) as [[[|]|e] w1] eqn:E1; simpl;
    try (intros H; inversion H; subst; discriminate).
  destruct (run_returncode _ w1) as [[c1|e] w2] eqn:E2; simpl;
    try (intros H; inversion H; subst; discriminate).
  destruct (Z.eqb_spec c1 0) as [->|Hc1]; simpl;
    try (intros H; inversion H; subst; discriminate).
  destruct (run_returncode _ w2) as [[c2|e] w3] eqn:E3; simpl;
    try (intros H; inversion H; subst; discriminate).
  destruct (Z.eqb_spec c2 0) as [->|Hc2]; simpl;
    try (intros H; inversion H; subst; discriminate).
  intros H Hs. inversion H; subst. simpl in Hs. split; [assumption|].
  eauto 10.
Qed.

Lemma generate_version_passes (project_root output_dir version : string)
    (s : Run (W := W)) :
  generate_version path_join path_exists run_returncode project_root
                   output_dir version s
  = match version_passes path_join path_exists run_returncode project_root
                         output_dir version (g_world s) with
    | (Ok passed, w') => (Ok tt, mk_Run w' (g_success s && passed))
    | (Raise e, w') => (Raise e, mk_Run w' (g_success s))
    end.
Proof.
  unfold generate_version, version_passes, bind, in_world_g, fail, modify,
    ret.
  destruct s as [w success]. cbn [g_world g_success].
  destruct (path_exists _ w) as [[[|]|e] w1]; cbn [negb g_world g_success];
    rewrite ?andb_false_r; try reflexivity.
  destruct (run_returncode _ w1) as [[c1|e] w2]; cbn [g_world g_success];
    try reflexivity.
  destruct (c1 =? 0); cbn [negb g_world g_success];
    rewrite ?andb_false_r; try reflexivity.
  destruct (run_returncode _ w2) as [[c2|e] w3]; cbn [g_world g_success];
    try reflexivity.
  destruct (c2 =? 0); cbn [negb g_world g_success];
    rewrite ?andb_false_r, ?andb_true_r; reflexivity.
Qed.

Lemma generate_versions_pass (project_root output_dir : string)
    (versions : list string) (s : Run (W := W)) :
  match versions_pass path_join path_exists run_returncode project_root
                      output_dir versions (g_world s) with
  | (Ok passed, w') =>
      for_each versions
               (generate_version path_join path_exists run_returncode
                                 project_root output_dir) s
      = (Ok tt, mk_Run w' (g_success s && forallb (fun b => b) passed))
  | (Raise e, w') =>
      exists success,
        for_each versions
                 (generate_version path_join path_exists run_returncode
                                   project_root output_dir) s
        = (Raise e, mk_Run w' success)
  end.
Proof.
  revert s. induction versions as [|v rest IH]; intros s.
  - simpl. unfold ret. rewrite andb_true_r. now destruct s.
  - simpl. unfold bind. rewrite generate_version_passes.
    destruct (version_passes _ _ _ _ _ _ (g_world s)) as [[passed|e] w1].
    + specialize (IH (mk_Run w1 (g_success s && passed))).
      cbn [g_world g_success] in IH.
      destruct (versions_pass _ _ _ _ _ _ w1) as [[others|e] w2].
      * unfold ret. rewrite IH. simpl. now rewrite andb_assoc.
      * exact IH.
    + eauto.
Qed.

(** X23. [main] of the fixture script ends with status 0 only when, for every
    version asked for, the version's script was found and both its
    environment sync and its run returned 0 (lines 38-97). *)
Theorem fixtures_status_zero_means_all_generated (project_root : string)
    (arg_version : option string) (arg_output_dir : string) (w w' : W) :
  main path_join path_exists run_returncode project_root arg_version
       arg_output_dir w = (Ok 0, w') ->
  forall version, In version (versions_of arg_version) ->
    generated path_join path_exists run_returncode project_root
              (path_join project_root arg_output_dir) version.
Proof.
  unfold main. set (output_dir := path_join project_root arg_output_dir).
  intros H.
  destruct (for_each _ _ _) as [[[]|e] s'] eqn:E; [|discriminate].
  destruct (g_success s') eqn:Hs; [|discriminate]. clear H.
  revert E. generalize (mk_Run w true).
  induction (versions_of arg_version) as [|v rest IH]; intros s E version Hin.
  - contradiction.
  - simpl in E. unfold bind in E.
    destruct (generate_version _ _ _ _ _ _ s) as [[[]|e] s1] eqn:E1;
      [|discriminate].
    destruct Hin as [<-|Hin].
    + assert (Hs1 : g_success s1 = true).
      { clear IH E1. revert s1 E.
        induction rest as [|v' rest' IH']; intros s1 E.
        - simpl in E. unfold ret in E. inversion E; subst. assumption.
        - simpl in E. unfold bind in E.
          destruct (generate_version _ _ _ _ _ _ s1) as [[[]|e] s2] eqn:E2;
            [|discriminate].
          specialize (IH' s2 E).
          now destruct (generate_version_success _ _ _ _ _ E2 IH'). }
      now destruct (generate_version_success _ _ _ _ _ E1 Hs1).
    + now apply (IH s1).
Qed.

(** X24. The fixture script takes the versions one after the other
    whether or not the earlier ones could be generated: a missing script
    or a non-zero return code ends that version only.  When no call
    raises, the script asks of every version as much as goes well and ends
    with status 1 when some version did not pass and with status 0
    otherwise; an exception of a call leaves [main] (lines 42-97). *)
Theorem fixtures_every_version_is_attempted (project_root : string)
    (arg_version : option string) (arg_output_dir : string) (w : W) :
  main path_join path_exists run_returncode project_root arg_version
       arg_output_dir w
  = match versions_pass path_join path_exists run_returncode project_root
                        (path_join project_root arg_output_dir)
                        (versions_of arg_version) w with
    | (Ok passed, w') =>
        (Ok (if forallb (fun b => b) passed then 0 else 1), w')
    | (Raise e, w') => (Raise e, w')
    end.
Proof.
  unfold main.
  pose proof (generate_versions_pass project_root
                (path_join project_root arg_output_dir)
                (versions_of arg_version) (mk_Run w true)) as H.
  cbn [g_world g_success] in H.
  destruct (versions_pass _ _ _ _ _ _ w) as [[passed|e] w'].
  - rewrite H. reflexivity.
  - destruct H as (success & ->). reflexivity.
Qed.

End FixtureFacts.

(** ** Instances of the further properties *)

Lemma chunk_regions_witness :
  Forall2 slice_in_bounds (chunk_slices [1; 1] [4; 3] [2; 2])
          (combine [4; 3] [2; 2]).
Proof.
  apply (chunk_regions_are_in_bounds [4; 3] [2; 2] ragged_coords [1; 1]).
  - reflexivity.
  - repeat constructor.
  - repeat constructor.
  - reflexivity.
  - simpl. auto.
Defined.

Lemma chunk_tiling_witness :
  exists coord,
    In coord ragged_coords /\
    in_region [3; 2] (chunk_slices coord [4; 3] [2; 2]) /\
    forall coord',
      In coord' ragged_coords ->
      in_region [3; 2] (chunk_slices coord' [4; 3] [2; 2]) ->
      coord' = coord.
Proof.
  apply (chunk_regions_tile_the_array [4; 3] [2; 2] ragged_coords [3; 2]).
  - reflexivity.
  - repeat constructor.
  - repeat constructor.
  - reflexivity.
  - repeat constructor; lia.
Defined.

Lemma rank_witness :
  length [1; 0] = Nat.min (length [4; 3; 5]) (length [2; 2]) /\
  length (chunk_slices [1; 0] [4; 3; 5] [2; 2])
    = Nat.min (length [4; 3; 5]) (length [2; 2]).
Proof.
  apply (rank_is_that_of_the_shorter_tuple [4; 3; 5] [2; 2] ragged_coords
           [1; 0]).
  - reflexivity.
  - simpl. auto.
Defined.

Lemma selection_bound_witness :
  incl [[0]; [11]; [1]] twelve_coords /\
  (length [[0]; [11]; [1]] <= length twelve_coords)%nat /\
  (true = true -> (length [[0]; [11]; [1]] <= 10)%nat) /\
  (forall m, Some 3 = Some m -> 0 <= m ->
             (length [[0]; [11]; [1]] <= Z.to_nat m)%nat).
Proof.
  exact (selection_is_bounded take_sample true (Some 3) twelve_coords
           [[0]; [11]; [1]] 0%nat 0%nat take_sample_ok eq_refl).
Defined.

Lemma exhaustive_mode_witness :
  exists r,
    check_zarr_array take_sample ragged_array false None (Some "img") 0%nat
      = (Ok r, 4%nat) /\
    chunks_checked r = 4%nat /\
    length (errors r) = 2%nat /\
    is_valid r = false.
Proof.
  destruct (exhaustive_mode_checks_every_chunk take_sample ragged_array
              (Some "img") 0%nat [4; 3] [2; 2] ragged_coords
              eq_refl eq_refl eq_refl)
    as (r & E & Hk & He & Hv).
  exists r. split; [exact E|]. split; [exact Hk|].
  split; [rewrite He; reflexivity|].
  destruct (is_valid r); [|reflexivity].
  apply proj1 in Hv. specialize (Hv eq_refl).
  inversion Hv as [|o l Ho]. discriminate Ho.
Defined.

Lemma zero_cap_witness :
  check_zarr_array take_sample ragged_array true (Some 0) (Some "img") 0%nat
  = (Ok (mk_ElementResult "array" "img" true 0 [] None), 0%nat).
Proof.
  exact (zero_cap_checks_nothing take_sample ragged_array true (Some "img")
           0%nat [4; 3] [2; 2] ragged_coords take_sample_ok
           eq_refl eq_refl eq_refl).
Defined.

Lemma negative_cap_witness :
  exists r,
    check_zarr_array take_sample ragged_array false (Some (-1)) (Some "img")
                     0%nat
      = (Ok r, 3%nat) /\
    chunks_checked r = 3%nat /\
    length (errors r) = 2%nat.
Proof.
  destruct (negative_cap_drops_the_last_chunks take_sample ragged_array (-1)
              (Some "img") 0%nat [4; 3] [2; 2] ragged_coords
              eq_refl eq_refl eq_refl eq_refl)
    as (r & E & Hk & He).
  exists r. split; [exact E|]. split; [exact Hk|].
  rewrite He. reflexivity.
Defined.

Lemma zero_chunk_size_witness :
  exists r err,
    check_zarr_array take_sample zero_chunk_array true None (Some "img") 0%nat
      = (Ok r, 0%nat) /\
    is_valid r = false /\
    chunks_checked r = 0%nat /\
    errors r = [err] /\
    chunk_index err = Coords [] /\
    error_type err = "ZeroDivisionError".
Proof.
  apply (zero_chunk_size_is_a_metadata_error take_sample zero_chunk_array
           true None (Some "img") 0%nat [4; 3] [2; 0]).
  - reflexivity.
  - reflexivity.
  - apply Exists_cons_tl, Exists_cons_hd. reflexivity.
Defined.

Lemma empty_dimension_witness :
  check_zarr_array take_sample empty_array true None (Some "img") 0%nat
  = (Ok (mk_ElementResult "array" "img" true 0 [] None), 0%nat).
Proof.
  apply (empty_dimension_is_reported_valid take_sample empty_array true None
           (Some "img") 0%nat [0; 3] [2; 2]).
  - reflexivity.
  - reflexivity.
  - repeat constructor.
  - apply Exists_cons_hd. reflexivity.
Defined.

Lemma tabular_probe_witness :
  check_spatialdata_element take_sample corrupt_points "points" "pts" false
                            0%nat
  = (Ok (mk_ElementResult "points" "pts" false 1
           [plain_error "pts" blosc_failure] None), 1%nat).
Proof.
  apply (tabular_probe_decides_the_result take_sample corrupt_points "points"
           "pts" false 0%nat).
  left. reflexivity.
Defined.

Lemma unknown_kind_witness :
  check_spatialdata_element take_sample corrupt_points "meshes" "m" false
                            0%nat
  = (Ok (mk_ElementResult "meshes" "m" true 0 [] None), 0%nat).
Proof.
  apply (unknown_kind_is_reported_valid take_sample corrupt_points "meshes"
           "m" false 0%nat).
  simpl. intuition discriminate.
Defined.

Lemma pyramid_levels_witness :
  exists answers w',
    level_answers (enumerate two_levels) 0%nat = (answers, w') /\
    length answers = length two_levels /\
    check_spatialdata_element take_sample (pyramid two_levels) "images" "img"
                              false 0%nat
    = (Ok (mk_ElementResult "images" "img"
             (is_nil (level_errors "img" (enumerate two_levels) answers))
             (length two_levels)
             (level_errors "img" (enumerate two_levels) answers) None),
       w').
Proof.
  apply (pyramid_levels_are_probed_one_by_one take_sample (pyramid two_levels)
           "images" "img" false 0%nat
           (mk_Data (ViaValues (Ok two_levels))
              (mk_ArrayObj (Present [30; 30]) Absent true read_ok))
           two_levels).
  - left. reflexivity.
  - reflexivity.
  - reflexivity.
  - discriminate.
  - intros entry [<-|[<-|[]]]; reflexivity.
Defined.

Lemma failing_store_getter_witness :
  check_spatialdata_element take_sample
    (pyramid [ItemPlain (plain_level read_ok); ItemPlain broken_level;
              ItemPlain (plain_level (read_fails blosc_failure))])
    "images" "img" false 0%nat
  = check_spatialdata_element take_sample
      (pyramid [ItemPlain (plain_level read_ok); ItemPlain broken_level])
      "images" "img" false 0%nat /\
  exists r w' errs e,
    check_spatialdata_element take_sample
      (pyramid [ItemPlain (plain_level read_ok); ItemPlain broken_level;
                ItemPlain (plain_level (read_fails blosc_failure))])
      "images" "img" false 0%nat = (Ok r, w') /\
    errors r = errs ++ [plain_error "img" e] /\
    is_valid r = false.
Proof.
  apply (failing_store_getter_ends_the_pyramid take_sample
           (pyramid [ItemPlain (plain_level read_ok); ItemPlain broken_level;
                     ItemPlain (plain_level (read_fails blosc_failure))])
           (pyramid [ItemPlain (plain_level read_ok); ItemPlain broken_level])
           (mk_Data
              (ViaValues
                 (Ok [ItemPlain (plain_level read_ok); ItemPlain broken_level;
                      ItemPlain (plain_level (read_fails blosc_failure))]))
              (mk_ArrayObj (Present [30; 30]) Absent true read_ok))
           (mk_Data
              (ViaValues
                 (Ok [ItemPlain (plain_level read_ok);
                      ItemPlain broken_level]))
              (mk_ArrayObj (Present [30; 30]) Absent true read_ok))
           [ItemPlain (plain_level read_ok)]
           [ItemPlain (plain_level (read_fails blosc_failure))] []
           (ItemPlain broken_level) store_failure "img" false 0%nat);
    reflexivity.
Defined.

Lemma listed_elements_witness :
  exists r w',
    check_spatialdata take_sample missing_store no_traceback
                      (Loaded small_container) None false 0%nat
      = (Ok r, w') /\
    map filed_under (ir_elements r)
      = [("images", "img"); ("points", "pts")] /\
    ir_errors r = [] /\
    ir_path r = None /\
    ir_is_valid r = forallb is_valid (ir_elements r).
Proof.
  apply (every_listed_element_gets_one_result take_sample missing_store
           no_traceback small_container None false 0%nat).
  repeat constructor.
Defined.

Lemma failing_kind_getter_witness :
  exists w',
    check_spatialdata take_sample missing_store no_traceback
                      (Loaded broken_container)
                      (Some ["images"; "labels"; "points"]) false 0%nat
    = (Raise store_failure, w').
Proof.
  apply (failing_kind_getter_leaves_the_scan take_sample missing_store
           no_traceback broken_container ["images"] ["points"] "labels"
           store_failure false 0%nat).
  - repeat constructor.
  - reflexivity.
Defined.

Lemma structural_errors_witness :
  ir_is_valid (load_failure "missing.zarr"
                 (mk_exn "FileNotFoundError" "no such store"))
    = (is_nil (ir_errors (load_failure "missing.zarr"
                            (mk_exn "FileNotFoundError" "no such store")))
       && forallb is_valid
            (ir_elements (load_failure "missing.zarr"
                            (mk_exn "FileNotFoundError" "no such store"))))%bool
  /\
  (ir_errors (load_failure "missing.zarr"
                (mk_exn "FileNotFoundError" "no such store")) = [] \/
   exists path e,
     Location (W := nat) "missing.zarr" = Location path /\
     load_failure "missing.zarr" (mk_exn "FileNotFoundError" "no such store")
     = load_failure path e).
Proof.
  exact (structural_errors_only_from_loading take_sample missing_store
           no_traceback (Location "missing.zarr") None false 0%nat 0%nat
           (load_failure "missing.zarr"
              (mk_exn "FileNotFoundError" "no such store"))
           eq_refl).
Defined.

Lemma non_object_output_witness :
  ValidateDatasets.validate_with_version (fun url => url) listing_subprocess
    (fun text => text) array_json
    (ValidateDatasets.mk_Dataset "MERFISH (Mouse brain)" "merfish.zarr")
    "0.5.0" "/repo" false 0%nat
  = (Ok (ValidateDatasets.failed
           (ValidateDatasets.mk_Dataset "MERFISH (Mouse brain)" "merfish.zarr")
           "0.5.0" "AttributeError" "'list' object has no attribute 'get'"),
     1%nat).
Proof.
  apply (non_object_output_is_an_attribute_error (fun url => url)
           listing_subprocess (fun text => text) array_json
           (ValidateDatasets.mk_Dataset "MERFISH (Mouse brain)" "merfish.zarr")
           "0.5.0" "/repo" false 0%nat 1%nat
           (ValidateDatasets.mk_CompletedProcess "[]" "")
           (ValidateDatasets.JArray [])).
  - reflexivity.
  - reflexivity.
  - intros fields. discriminate.
Defined.

Lemma summary_witness :
  exists head,
    result_str (fun text => text)
      (mk_IntegrityResult None false
         [mk_ElementResult "images" "img" true 1 [] None;
          mk_ElementResult "points" "pts" false 1
            [plain_error "pts" blosc_failure] None] [])
    = (head ++ line_break ++ line_break
       ++ "Summary: 1 error(s) found in 2 element(s)")%string.
Proof.
  exact (proj1 (summary_counts_invalid_elements take_sample missing_store
                  no_traceback (fun text => text) (Loaded small_container)
                  None false 0%nat 2%nat
                  (mk_IntegrityResult None false
                     [mk_ElementResult "images" "img" true 1 [] None;
                      mk_ElementResult "points" "pts" false 1
                        [plain_error "pts" blosc_failure] None] [])
                  eq_refl)).
Defined.

Lemma exit_status_zero_witness :
  exists w1 r w2,
    any_path_exists "store.zarr" 0%nat = (Ok true, w1) /\
    check_spatialdata take_sample open_store no_traceback
                      (Location "store.zarr") None false w1 = (Ok r, w2) /\
    ir_is_valid r = true /\
    ("text" = "json" -> ir_elements r = []).
Proof.
  exact (exit_status_zero_means_valid take_sample open_store no_traceback
           (fun text => text) (fun value => "{}") (fun text => text)
           any_path_exists terminal terminal (fun e => ret tt)
           (fun file => terminal) text_args 0%nat 1%nat eq_refl).
Defined.

Lemma json_format_witness :
  Cli.main take_sample open_store no_traceback (fun text => text)
           (fun value => "{}") (fun text => text) any_path_exists terminal
           terminal (fun e => ret tt) (fun file => terminal) json_args 0%nat
  = (Raise (Cli.NameError "element"), 1%nat).
Proof.
  apply (json_format_fails_on_a_scanned_container take_sample open_store
           no_traceback (fun text => text) (fun value => "{}")
           (fun text => text) any_path_exists terminal terminal
           (fun e => ret tt) (fun file => terminal) json_args 0%nat 0%nat
           1%nat
           (mk_IntegrityResult (Some "store.zarr") true
              [mk_ElementResult "images" "img" true 1 [] None] [])).
  - reflexivity.
  - reflexivity.
  - reflexivity.
  - discriminate.
Defined.

Lemma fixtures_status_zero_witness :
  generated slash_join any_path_exists run_well "/repo"
            (slash_join "/repo" "test-fixtures") "0.6.1".
Proof.
  apply (fixtures_status_zero_means_all_generated slash_join any_path_exists
           run_well "/repo" None "test-fixtures" 0%nat 4%nat).
  - reflexivity.
  - right. left. reflexivity.
Defined.

Lemma fixtures_failed_version_witness :
  GenerateFixtures.main slash_join only_second_exists run_well "/repo" None
                        "test-fixtures" 0%nat
  = (Ok 1, 2%nat).
Proof.
  rewrite (fixtures_every_version_is_attempted slash_join only_second_exists
             run_well "/repo" None "test-fixtures" 0%nat).
  reflexivity.
Defined.
